(** * DBLP-Crawer: the BibTeX fetchers, embedded and verified

    A shallow embedding of [conference/bibtex_fetcher.py] and
    [journal/bibtex_fetcher.py].  The two scripts read a CSV of papers,
    look every title up in the CSV a previous run left behind, fetch the
    BibTeX entry of the papers that are still missing and write one record
    per paper, flushing after each record.

    The embedding keeps what the scripts can observe:
    - strings with Python's [str.strip];
    - the rows [csv.DictReader] builds, with [None] cells for short lines
      and the surplus of long lines stored under the key [None];
    - the file system as a finite map from paths to CSV contents, and the
      text buffer of the one file that is open for writing;
    - the web as a function from URLs to what [requests.get] and
      BeautifulSoup make of them;
    - exceptions, which abort the run unless a [try] catches them. *)

From Stdlib Require Import Ascii String.
From stdpp Require Import gmap strings list fin_maps.

Local Open Scope string_scope.
Local Open Scope list_scope.

(** ** Python strings *)

Module Py.

(** [str.isspace] on one character.  Characters are code points below 256:
    TAB..CR, FS..US, SPACE, NEL (0x85) and NBSP (0xA0) are white space. *)
Definition isspace (c : ascii) : bool :=
  let n := nat_of_ascii c in
  (((9 <=? n) && (n <=? 13)) || ((28 <=? n) && (n <=? 32))
   || (n =? 133) || (n =? 160))%nat.

(** [s.lstrip()] *)
Fixpoint lstrip (s : string) : string :=
  match s with
  | EmptyString => EmptyString
  | String c s' => if isspace c then lstrip s' else s
  end.

(** [s.rstrip()] *)
Fixpoint rstrip (s : string) : string :=
  match s with
  | EmptyString => EmptyString
  | String c s' =>
      match rstrip s' with
      | EmptyString => if isspace c then EmptyString else String c EmptyString
      | r => String c r
      end
  end.

(** [s.strip()] *)
Definition strip (s : string) : string := rstrip (lstrip s).

(** Truth value of a string: [bool(s)]. *)
Definition truthy (s : string) : bool :=
  match s with
  | EmptyString => false
  | String _ _ => true
  end.

(** The exceptions the scripts can meet. *)
Inductive exn : Type :=
  | RequestException   (* requests.exceptions.RequestException and subclasses *)
  | AttributeError     (* an attribute of None *)
  | ValueError         (* csv.DictWriter: dict contains fields not in fieldnames *)
  | FileNotFoundError. (* open(..., "r") on a missing path *)

Inductive result (A : Type) : Type :=
  | Ok (a : A)
  | Raise (e : exn).

Arguments Ok {A} a.
Arguments Raise {A} e.

End Py.

Export Py.

(** ** The csv module *)

Module Csv.

(** What [csv.reader] yields for a file: one list of fields per line; an
    empty line yields the empty list.  [csv.writer] appends one such line.
    Files are kept in this form: quoting and line ends are the csv
    module's business, the same lines are written as the same bytes, and
    reading a file back gives the lines that were written. *)
Definition csv : Type := list (list string).

(** A row of [csv.DictReader].  [cells] holds the named columns: [Some s]
    for a string, [None] for Python's [None] ([restval], when the line is
    shorter than the header).  [rest] is the entry under the key [None]
    ([restkey]): the surplus fields of a line longer than the header. *)
Record row : Type := Row {
  cells : gmap string (option string);
  rest : option (list string)
}.

#[global] Instance row_eq_dec : EqDecision row.
Proof. solve_decision. Defined.

(** [dict(zip(fieldnames, line))], later columns overwriting earlier ones
    of the same name. *)
Definition dict_zip (fieldnames line : list string)
    : gmap string (option string) :=
  fold_left (fun d kv => <[kv.1 := Some kv.2]> d) (zip fieldnames line) ∅.

(** The body of [DictReader.__next__] for one non-empty line. *)
Definition make_row (fieldnames line : list string) : row :=
  let d := dict_zip fieldnames line in
  let lf := length fieldnames in
  let lr := length line in
  if (lf <? lr)%nat then Row d (Some (drop lf line))
  else if (lr <? lf)%nat then
    Row (fold_left (fun d key => <[key := None]> d) (drop lr fieldnames) d) None
  else Row d None.

(** [reader.fieldnames]: the first line, or [None] for an empty file. *)
Definition DictReader_fieldnames (f : csv) : option (list string) := head f.

(** [list(csv.DictReader(f))]: the lines after the header, empty lines
    skipped. *)
Definition DictReader (f : csv) : list row :=
  match f with
  | [] => []
  | fieldnames :: lines =>
      make_row fieldnames <$> filter (fun line => line ≠ []) lines
  end.

(** [d.get(key, default)] for a string default. *)
Definition get (d : row) (key : string) (default : string) : option string :=
  match cells d !! key with
  | Some v => v
  | None => Some default
  end.

(** [d[key] = value] *)
Definition setitem (d : row) (key value : string) : row :=
  Row (<[key := Some value]> (cells d)) (rest d).

(** [rowdict.keys() - fieldnames] is non-empty. *)
Definition wrong_fields (fieldnames : list string) (d : row) : bool :=
  bool_decide (rest d ≠ None)
  || bool_decide (Exists (fun k => k ∉ fieldnames) (elements (dom (cells d)))).

(** How [csv.writer] renders a cell: [None] as the empty string. *)
Definition field (v : option string) : string := default "" v.

(** [DictWriter._dict_to_list] with [extrasaction="raise"], [restval=""]. *)
Definition dict_to_list (fieldnames : list string) (d : row)
    : result (list string) :=
  if wrong_fields fieldnames d then Raise ValueError
  else Ok ((fun key => field (get d key "")) <$> fieldnames).

End Csv.

Export Csv.

(** ** The world the scripts run in *)

Module Runtime.

(** Levels of the logging module, and the messages the scripts format. *)
Inductive level : Type := DEBUG | INFO | WARNING | ERROR.

Inductive message : Type :=
  | NoBibtexSection (url : string)      (* No BibTeX section found for URL: ... *)
  | FailedToFetch (url : string)        (* Failed to fetch BibTeX from ...: ... *)
  | InputMissing (inputfile : string)   (* Input file '...' does not exist. *)
  | TotalEntries (inputfile : string) (total : nat)
  | SuccessEntries (outputfile : string) (success : nat).

Definition severity (l : level) : nat :=
  match l with DEBUG => 10 | INFO => 20 | WARNING => 30 | ERROR => 40 end.

(** The records a logger configured with [basicConfig(level=threshold)]
    lets through. *)
Definition shown (threshold : level) (l : list (level * message))
    : list (level * message) :=
  filter (fun r => severity threshold <= severity r.1) l.

(** [files]: the CSV files on disk, by path.  [buffer]: the lines written
    to the file that is open for writing and not flushed yet.  Python
    holds pending text in buffers of a fixed size (8192 bytes by default)
    and writes it through once they are full; the model keeps what is
    pending without that bound, so [files] is what is on disk as long as
    the pending text fits the buffers.  Every record is followed by a
    flush: only the header can be pending, between [writeheader] and the
    first flush.
    [requests]: the URLs handed to [requests.get], in order.
    [log]: the calls of [logger.warning] and [logger.error], in order. *)
Record world : Type := World {
  files : gmap string csv;
  buffer : csv;
  requests : list string;
  log : list (level * message)
}.

(** A computation: it may change the world, and returns or raises. *)
Definition M (A : Type) : Type := world -> result A * world.

Definition ret {A} (a : A) : M A := fun w => (Ok a, w).

Definition raise {A} (e : exn) : M A := fun w => (Raise e, w).

Definition bind {A B} (m : M A) (k : A -> M B) : M B :=
  fun w =>
    match m w with
    | (Ok a, w') => k a w'
    | (Raise e, w') => (Raise e, w')
    end.

(** [try: m  except RequestException: handler] *)
Definition try_except_RequestException {A} (m handler : M A) : M A :=
  fun w =>
    match m w with
    | (Raise RequestException, w') => handler w'
    | r => r
    end.

(** [for x in l: body x] *)
Fixpoint for_ {A} (l : list A) (body : A -> M unit) : M unit :=
  match l with
  | [] => ret tt
  | x :: l' => bind (body x) (fun _ => for_ l' body)
  end.

(** [for x in l: acc = body acc x] *)
Fixpoint for_acc {A S} (l : list A) (acc : S) (body : S -> A -> M S) : M S :=
  match l with
  | [] => ret acc
  | x :: l' => bind (body acc x) (fun acc' => for_acc l' acc' body)
  end.

(** [logger.warning(msg)], [logger.error(msg)] *)
Definition logger (l : level) (msg : message) : M unit :=
  fun w => (Ok tt, World (files w) (buffer w) (requests w) (log w ++ [(l, msg)])).

(** [os.path.exists(path)] *)
Definition os_path_exists (path : string) : M bool :=
  fun w => (Ok (bool_decide (is_Some (files w !! path))), w).

(** [open(path, mode="r")] and reading the file through [csv.reader]. *)
Definition open_r (path : string) : M csv :=
  fun w =>
    match files w !! path with
    | Some f => (Ok f, w)
    | None => (Raise FileNotFoundError, w)
    end.

(** [open(path, mode="w")]: the file is created or truncated; nothing is
    buffered yet. *)
Definition open_w (path : string) : M unit :=
  fun w => (Ok tt, World (<[path := []]> (files w)) [] (requests w) (log w)).

(** [csv.writer.writerow] on the file open for writing: the line goes to
    the buffer. *)
Definition write (line : list string) : M unit :=
  fun w => (Ok tt, World (files w) (buffer w ++ [line]) (requests w) (log w)).

(** The world after [outfile.flush()] on the file open at [path]. *)
Definition flushed (path : string) (w : world) : world :=
  World (<[path := default [] (files w !! path) ++ buffer w]> (files w)) []
        (requests w) (log w).

Definition flush (path : string) : M unit := fun w => (Ok tt, flushed path w).

(** [with open(path, mode="w") as outfile: body]: the file is closed, and
    so flushed, on the way out, whether [body] returns or raises. *)
Definition with_open_w {A} (path : string) (body : M A) : M A :=
  fun w =>
    match bind (open_w path) (fun _ => body) w with
    | (r, w') => (r, flushed path w')
    end.

(** [DictWriter.writeheader] and [DictWriter.writerow]. *)
Definition writeheader (fieldnames : list string) : M unit := write fieldnames.

Definition writerow (fieldnames : list string) (d : row) : M unit :=
  match dict_to_list fieldnames d with
  | Ok line => write line
  | Raise e => raise e
  end.

(** [v.strip()] for [v] a string or [None]. *)
Definition str_strip (v : option string) : M string :=
  match v with
  | Some s => ret (strip s)
  | None => raise AttributeError
  end.

End Runtime.

Export Runtime.

Declare Scope py_scope.
Delimit Scope py_scope with py.
Notation "x <- m ;; k" := (bind m (fun x => k))
  (at level 100, m at next level, right associativity) : py_scope.
Notation "m ;;; k" := (bind m (fun _ => k))
  (at level 100, right associativity) : py_scope.

(** ** requests and BeautifulSoup *)

Module Web.

(** The tag [soup.find("div", id="bibtex-section")] returns: [pre] is what
    [tag.find("pre")] gives, the text of the first <pre> inside it, or
    [None] when it holds no <pre>. *)
Record tag : Type := Tag { pre : option string }.

(** A response: whether [raise_for_status] passes, and the section
    BeautifulSoup finds in the body, if any. *)
Record response : Type := Response {
  status_ok : bool;
  bibtex_section : option tag
}.

(** What [requests.get(url, timeout=10)] does: it raises a
    RequestException (connection error, timeout, bad URL) or returns.
    These are the two outcomes the [try] of [fetch_bibtex] is written for.
    The call can end in a third way, with an exception that is not a
    RequestException (urllib3's LocationParseError for a host name with
    an empty label): a [web] describes the call on the URLs where it does
    not. *)
Inductive reply : Type :=
  | Fails
  | Returns (r : response).

Definition web : Type := string -> reply.

(** [requests.get(url, timeout=10)] *)
Definition requests_get (net : web) (url : string) : M response :=
  fun w =>
    let w' := World (files w) (buffer w) (requests w ++ [url]) (log w) in
    match net url with
    | Fails => (Raise RequestException, w')
    | Returns r => (Ok r, w')
    end.

(** [response.raise_for_status()] *)
Definition raise_for_status (r : response) : M unit :=
  if status_ok r then ret tt else raise RequestException.

(** [tag.text] for [tag] the result of a [find]: an attribute of [None]
    when nothing was found. *)
Definition text (found : option string) : M string :=
  match found with
  | Some s => ret s
  | None => raise AttributeError
  end.

End Web.

Export Web.

Local Open Scope py_scope.

(** ** conference/bibtex_fetcher.py *)

Module Conference.

(** [logging.basicConfig(level=logging.ERROR)] and the argparse defaults. *)
Definition basicConfig_level : level := ERROR.
Definition default_inputfile : string := "conference.csv".
Definition default_outputfile : string := "conference_with_bibtex.csv".

(** [fetch_bibtex(bibtex_url)].  The [try] covers the whole body and
    catches RequestException only. *)
Definition fetch_bibtex (net : web) (bibtex_url : string) : M (option string) :=
  try_except_RequestException
    (response <- requests_get net bibtex_url ;;
     raise_for_status response ;;;
     match bibtex_section response with
     | Some section =>
         t <- text (pre section) ;;
         ret (Some (strip t))
     | None =>
         logger WARNING (NoBibtexSection bibtex_url) ;;;
         ret None
     end)
    (logger ERROR (FailedToFetch bibtex_url) ;;;
     ret None).

(** [load_existing_data(outputfile, key_field)] *)
Definition load_existing_data (outputfile key_field : string)
    : M (gmap string row) :=
  present <- os_path_exists outputfile ;;
  if present then
    infile <- open_r outputfile ;;
    for_acc (DictReader infile) ∅ (fun existing_data row =>
      key <- str_strip (get row key_field "") ;;
      ret (if truthy key then <[key := row]> existing_data
           else existing_data))
  else ret ∅.

(** [print_statistics(inputfile, outputfile)] *)
Definition print_statistics (inputfile outputfile : string) : M unit :=
  input_present <- os_path_exists inputfile ;;
  total_entries <-
    (if input_present then
       infile <- open_r inputfile ;;
       ret (length (DictReader infile))
     else
       logger WARNING (InputMissing inputfile) ;;;
       ret 0) ;;
  output_present <- os_path_exists outputfile ;;
  success_entries <-
    (if output_present then
       outfile <- open_r outputfile ;;
       for_acc (DictReader outfile) 0 (fun success_entries row =>
         bibtex <- str_strip (get row "bibtex_data" "") ;;
         ret (if truthy bibtex
                 && negb (bool_decide (bibtex ∈ ["Not Available"; "No URL"]))
              then S success_entries else success_entries))
     else ret 0) ;;
  logger ERROR (TotalEntries inputfile total_entries) ;;;
  logger ERROR (SuccessEntries outputfile success_entries).

(** The body of the [for row in input_rows] loop of [process_csv].  The
    [continue] of the cached branch is the branch ending there. *)
Definition process_row (net : web) (processed_data : gmap string row)
    (fieldnames : list string) (outputfile : string) (row : row) : M unit :=
  title <- str_strip (get row "title" "") ;;
  bibtex_url <- str_strip (get row "bibtex_url" "") ;;
  let fetch_new : M unit :=
    row' <-
      (if truthy bibtex_url then
         bibtex_data <- fetch_bibtex net bibtex_url ;;
         ret (setitem row "bibtex_data"
                (match bibtex_data with
                 | Some s => if truthy s then s else "Not Available"
                 | None => "Not Available"
                 end))
       else ret (setitem row "bibtex_data" "No URL")) ;;
    writerow fieldnames row' ;;;
    flush outputfile in
  match processed_data !! title with
  | Some entry =>
      existing_bibtex <- str_strip (get entry "bibtex_data" "") ;;
      if truthy existing_bibtex
         && negb (bool_decide (existing_bibtex ∈ ["Not Available"; "No URL"]))
      then
        writerow fieldnames (setitem row "bibtex_data" existing_bibtex) ;;;
        flush outputfile
      else fetch_new
  | None => fetch_new
  end.

(** The field names of the output: those of the input, and bibtex_data
    appended when it is not among them. *)
Definition output_fieldnames (infile : csv) : list string :=
  let fieldnames := default [] (DictReader_fieldnames infile) in
  if bool_decide ("bibtex_data" ∈ fieldnames) then fieldnames
  else fieldnames ++ ["bibtex_data"].

(** [process_csv(inputfile, outputfile)] *)
Definition process_csv (net : web) (inputfile outputfile : string) : M unit :=
  processed_data <- load_existing_data outputfile "title" ;;
  infile <- open_r inputfile ;;
  let input_rows := DictReader infile in
  let fieldnames := output_fieldnames infile in
  with_open_w outputfile
    (writeheader fieldnames ;;;
     for_ input_rows (process_row net processed_data fieldnames outputfile)).

(** [process_csv] when the process is killed right after the first [k]
    passes of the loop: the same steps, and the output file is never
    closed, so what is still buffered is lost. *)
Definition process_csv_killed (k : nat) (net : web)
    (inputfile outputfile : string) : M unit :=
  processed_data <- load_existing_data outputfile "title" ;;
  infile <- open_r inputfile ;;
  let input_rows := DictReader infile in
  let fieldnames := output_fieldnames infile in
  open_w outputfile ;;;
  writeheader fieldnames ;;;
  for_ (take k input_rows) (process_row net processed_data fieldnames outputfile).

(** The [__main__] block. *)
Definition main (net : web) (inputfile outputfile : string) : M unit :=
  print_statistics inputfile outputfile ;;;
  process_csv net inputfile outputfile.

End Conference.

(** ** journal/bibtex_fetcher.py *)

Module Journal.

(** [logging.basicConfig(level=logging.INFO)] and the argparse defaults. *)
Definition basicConfig_level : level := INFO.
Definition default_inputfile : string := "journal.csv".
Definition default_outputfile : string := "journal_with_bibtex.csv".

(** [fetch_bibtex(bibtex_url)]: the section found, the function returns
    from inside the [if]; the warning follows it without an [else]. *)
Definition fetch_bibtex (net : web) (bibtex_url : string) : M (option string) :=
  try_except_RequestException
    (response <- requests_get net bibtex_url ;;
     raise_for_status response ;;;
     match bibtex_section response with
     | Some section =>
         t <- text (pre section) ;;
         ret (Some (strip t))
     | None =>
         logger WARNING (NoBibtexSection bibtex_url) ;;;
         ret None
     end)
    (logger ERROR (FailedToFetch bibtex_url) ;;;
     ret None).

(** [load_existing_data(outputfile, key_field)] *)
Definition load_existing_data (outputfile key_field : string)
    : M (gmap string row) :=
  present <- os_path_exists outputfile ;;
  if present then
    infile <- open_r outputfile ;;
    for_acc (DictReader infile) ∅ (fun existing row =>
      key <- str_strip (get row key_field "") ;;
      ret (if truthy key then <[key := row]> existing else existing))
  else ret ∅.

(** [print_statistics(inputfile, outputfile)] *)
Definition print_statistics (inputfile outputfile : string) : M unit :=
  input_present <- os_path_exists inputfile ;;
  total <-
    (if input_present then
       infile <- open_r inputfile ;;
       ret (length (DictReader infile))
     else
       logger WARNING (InputMissing inputfile) ;;;
       ret 0) ;;
  output_present <- os_path_exists outputfile ;;
  success <-
    (if output_present then
       outfile <- open_r outputfile ;;
       for_acc (DictReader outfile) 0 (fun success row =>
         bibtex <- str_strip (get row "bibtex_data" "") ;;
         ret (if truthy bibtex
                 && negb (bool_decide (bibtex ∈ ["Not Available"; "No URL"]))
              then S success else success))
     else ret 0) ;;
  logger ERROR (TotalEntries inputfile total) ;;;
  logger ERROR (SuccessEntries outputfile success).

(** The body of the [for row in input_rows] loop of [process_csv]. *)
Definition process_row (net : web) (existing_data : gmap string row)
    (fieldnames : list string) (outputfile : string) (row : row) : M unit :=
  title <- str_strip (get row "title" "") ;;
  url <- str_strip (get row "bibtex_url" "") ;;
  let fetch_new : M unit :=
    row' <-
      (if truthy url then
         bibtex <- fetch_bibtex net url ;;
         ret (setitem row "bibtex_data"
                (match bibtex with
                 | Some s => if truthy s then s else "Not Available"
                 | None => "Not Available"
                 end))
       else ret (setitem row "bibtex_data" "No URL")) ;;
    writerow fieldnames row' ;;;
    flush outputfile in
  match existing_data !! title with
  | Some entry =>
      cached <- str_strip (get entry "bibtex_data" "") ;;
      if truthy cached
         && negb (bool_decide (cached ∈ ["Not Available"; "No URL"]))
      then
        writerow fieldnames (setitem row "bibtex_data" cached) ;;;
        flush outputfile
      else fetch_new
  | None => fetch_new
  end.

Definition output_fieldnames (infile : csv) : list string :=
  let fieldnames := default [] (DictReader_fieldnames infile) in
  if bool_decide ("bibtex_data" ∈ fieldnames) then fieldnames
  else fieldnames ++ ["bibtex_data"].

(** [process_csv(inputfile, outputfile)] *)
Definition process_csv (net : web) (inputfile outputfile : string) : M unit :=
  existing_data <- load_existing_data outputfile "title" ;;
  infile <- open_r inputfile ;;
  let input_rows := DictReader infile in
  let fieldnames := output_fieldnames infile in
  with_open_w outputfile
    (writeheader fieldnames ;;;
     for_ input_rows (process_row net existing_data fieldnames outputfile)).

(** The [__main__] block. *)
Definition main (net : web) (inputfile outputfile : string) : M unit :=
  print_statistics inputfile outputfile ;;;
  process_csv net inputfile outputfile.

End Journal.


(** ** Vocabulary of the statements

    Nothing below is run by the scripts: these are the words the theorems
    use to say what the scripts do. *)

Module Vocabulary.

(** A cell read as [csv.writer] renders it: the string, the default for a
    missing column, the empty string for [None]. *)
Definition cell (d : row) (key : string) : string := field (get d key "").

(** Everything written to [path] so far, flushed or not. *)
Definition content (w : world) (path : string) : csv :=
  default [] (files w !! path) ++ buffer w.

(** A trimmed bibtex_data value that counts as fetched: non-empty and
    neither of the two sentinels. *)
Definition real (b : string) : bool :=
  truthy b && negb (bool_decide (b ∈ ["Not Available"; "No URL"])).

(** The rows a previous run left at a path, if any. *)
Definition prior (o : option csv) : list row := DictReader (default [] o).

(** The Existing-Results Map of a list of rows: rows with a blank key are
    left out, a later row replaces an earlier one of the same key. *)
Definition index (key_field : string) (rows : list row) : gmap string row :=
  fold_left
    (fun m r =>
       if truthy (strip (cell r key_field))
       then <[strip (cell r key_field) := r]> m else m)
    rows ∅.

(** The value the loop reuses for a title: the trimmed bibtex_data of the
    title's entry, when there is an entry and the value is real. *)
Definition reused (cache : gmap string row) (title : string) : option string :=
  match cache !! title with
  | Some entry =>
      let b := strip (cell entry "bibtex_data") in
      if real b then Some b else None
  | None => None
  end.

(** The text [fetch_bibtex] returns on a reply, [None] standing for all
    the ways of finding nothing. *)
Definition fetched (r : reply) : option string :=
  match r with
  | Returns (Response true (Some (Tag (Some t)))) => Some (strip t)
  | _ => None
  end.

(** The one reply [fetch_bibtex] does not survive: a good status, the
    section present, and no <pre> inside it. *)
Definition section_without_pre (r : reply) : Prop :=
  r = Returns (Response true (Some (Tag None))).

(** [bibtex_data if bibtex_data else "Not Available"] *)
Definition or_not_available (bibtex_data : option string) : string :=
  match bibtex_data with
  | Some s => if truthy s then s else "Not Available"
  | None => "Not Available"
  end.

(** The bibtex_data the loop gives a row. *)
Definition bibtex_of (net : web) (cache : gmap string row) (r : row) : string :=
  match reused cache (strip (cell r "title")) with
  | Some b => b
  | None =>
      let url := strip (cell r "bibtex_url") in
      if truthy url then or_not_available (fetched (net url)) else "No URL"
  end.

(** [writer.writerow(d); outfile.flush()]: how every pass of the loop
    ends. *)
Definition emit (fieldnames : list string) (outputfile : string) (d : row)
    : M unit :=
  writerow fieldnames d ;;;
  flush outputfile.

(** The URLs the loop requests for a row. *)
Definition fetches_of (cache : gmap string row) (r : row) : list string :=
  match reused cache (strip (cell r "title")) with
  | Some _ => []
  | None =>
      let url := strip (cell r "bibtex_url") in
      if truthy url then [url] else []
  end.

(** The line written for a row. *)
Definition record_of (net : web) (cache : gmap string row)
    (fieldnames : list string) (r : row) : list string :=
  cell (setitem r "bibtex_data" (bibtex_of net cache r)) <$> fieldnames.

(** What a pass of the loop does once the title is not reused. *)
Definition fetch_new (net : web) (fieldnames : list string)
    (outputfile : string) (r : row) (url : string) : M unit :=
  if truthy url then
    bibtex_data <- Conference.fetch_bibtex net url ;;
    emit fieldnames outputfile
      (setitem r "bibtex_data" (or_not_available bibtex_data))
  else emit fieldnames outputfile (setitem r "bibtex_data" "No URL").

(** A bibtex_data value as the loop leaves it: trimmed and not empty. *)
Definition tidy (b : string) : Prop := strip b = b /\ b <> "".

(** The three kinds of bibtex_data of an output record. *)
Definition valid (b : string) : Prop :=
  b = "Not Available" \/ b = "No URL"
  \/ (b <> "Not Available" /\ b <> "No URL" /\ strip b <> "").

(** A row [DictWriter] accepts: no surplus, no column outside the field
    names. *)
Definition fits (fieldnames : list string) (d : row) : Prop :=
  rest d = None /\ forall k, is_Some (cells d !! k) -> k ∈ fieldnames.

(** A row whose pass raises nothing: the writer accepts it, its title and
    URL are strings, the entry of its title has a string for bibtex_data,
    and its page is not the one [fetch_bibtex] breaks on. *)
Definition row_ok (net : web) (cache : gmap string row)
    (fieldnames : list string) (r : row) : Prop :=
  fits fieldnames r
  /\ get r "title" "" <> None
  /\ get r "bibtex_url" "" <> None
  /\ (forall e, cache !! strip (cell r "title") = Some e ->
             get e "bibtex_data" "" <> None)
  /\ ~ section_without_pre (net (strip (cell r "bibtex_url"))).

(** A file whose every non-empty line has as many fields as its header:
    its rows have no [None] cell and no surplus. *)
Definition rectangular (f : csv) : Prop :=
  match f with
  | [] => True
  | header :: lines =>
      Forall (fun line => line = [] ∨ length line = length header) lines
  end.

#[global] Instance rectangular_dec (f : csv) : Decision (rectangular f).
Proof. destruct f; apply _. Defined.

(** A prior output the run reads without meeting [None]: the title and
    the bibtex_data of its rows are strings, or missing columns. *)
Definition loadable (o : option csv) : Prop :=
  Forall (fun r => get r "title" "" <> None /\ get r "bibtex_data" "" <> None)
         (prior o).

#[global] Instance loadable_dec (o : option csv) : Decision (loadable o).
Proof. unfold loadable. apply _. Defined.

(** The web always answers with a citation: a good status, the section,
    a <pre> whose trimmed text is real. *)
Definition always_real (net : web) : Prop :=
  forall u, exists t,
    net u = Returns (Response true (Some (Tag (Some t))))
    /\ real (strip t) = true.

(** A pass either raises and leaves the file and the buffer as they were,
    or appends one line, whose bibtex_data is tidy, and flushes. *)
Definition pass_outcome (fieldnames : list string) (out : string) (r : row)
    (w : world) (res : result unit * world) : Prop :=
  (exists e, res.1 = Raise e /\ files res.2 = files w /\ buffer res.2 = buffer w)
  \/ (exists b, res.1 = Ok tt /\ tidy b
        /\ files res.2
           = <[out := content w out
                 ++ [cell (setitem r "bibtex_data" b) <$> fieldnames]]> (files w)
        /\ buffer res.2 = []).

(** A line the loop wrote: some record with a tidy bibtex_data, rendered
    along the field names. *)
Definition written_line (fieldnames line : list string) : Prop :=
  exists r b, tidy b /\ line = cell (setitem r "bibtex_data" b) <$> fieldnames.


(** [w'] comes from [w] by steps that leave every file but [out] alone,
    add at most [n] requests and only add to the log. *)
Definition extends (out : string) (n : nat) (w w' : world) : Prop :=
  (forall p, p <> out -> files w' !! p = files w !! p)
  /\ (exists urls, requests w' = requests w ++ urls /\ length urls <= n)
  /\ (exists msgs, log w' = log w ++ msgs).


(** A line the loop can process: it is empty (and skipped), or it is not
    longer than the header and long enough to reach both the title and
    the URL column. *)
Definition reaches (header line : list string) : Prop :=
  line = []
  \/ (length line <= length header
      /\ ("title" ∉ drop (length line) header)
      /\ ("bibtex_url" ∉ drop (length line) header)).

(** A file whose every line the loop can process. *)
Definition readable (f : csv) : Prop :=
  match f with
  | [] => True
  | header :: lines => Forall (reaches header) lines
  end.

#[global] Instance readable_dec (f : csv) : Decision (readable f).
Proof. destruct f; unfold readable, reaches; apply _. Defined.

End Vocabulary.

Export Vocabulary.

(** ** Example data *)

Module Example.

(** A page whose section holds a <pre> with the given text. *)
Definition citing (t : string) : reply :=
  Returns (Response true (Some (Tag (Some t)))).

(** A world with the given files, nothing buffered, requested or logged. *)
Definition disk (fs : gmap string csv) : world := World fs [] [] [].

Definition header : list string := ["title"; "bibtex_url"].
Definition out_header : list string := ["title"; "bibtex_url"; "bibtex_data"].

(** The scenario of the specification: two papers, the second without a
    URL, and a web that knows the first. *)
Definition two_papers : csv :=
  [header; ["Paper A"; "http://x/a"]; ["Paper B"; ""]].

Definition web_of_paper_a : web := fun url =>
  if bool_decide (url = "http://x/a") then citing "@inproceedings{a,...}"
  else Fails.

(** A web that answers every URL with the same citation, and one that
    answers every URL with a citation naming the URL. *)
Definition web_constant : web := fun _ => citing "@misc{any}".
Definition web_by_url : web := fun url => citing ("@misc{" ++ url ++ "}").

End Example.

Export Example.

(** * Proofs *)

(** ** Strings *)

Lemma truthy_true (s : string) : truthy s = true <-> s <> "".
Proof. destruct s; simpl; split; congruence. Qed.

Lemma truthy_false (s : string) : truthy s = false <-> s = "".
Proof. destruct s; simpl; split; congruence. Qed.

Lemma lstrip_head (s : string) :
  lstrip s = "" \/ exists c s', lstrip s = String c s' /\ isspace c = false.
Proof.
  induction s as [|c s IH]; simpl; [by left|].
  destruct (isspace c) eqn:Hc; [exact IH|].
  right. by exists c, s.
Qed.

Lemma rstrip_rstrip (s : string) : rstrip (rstrip s) = rstrip s.
Proof.
  induction s as [|c s IH]; simpl; [done|].
  destruct (rstrip s) as [|c' r] eqn:Hr.
  - destruct (isspace c) eqn:Hc; simpl; [done|]. by rewrite Hc.
  - simpl. simpl in IH. by rewrite IH.
Qed.

Lemma rstrip_keeps_head (c : ascii) (s : string) :
  isspace c = false -> exists r, rstrip (String c s) = String c r.
Proof.
  intros Hc. simpl. destruct (rstrip s) as [|c' r]; rewrite ?Hc; eauto.
Qed.

Lemma strip_strip (s : string) : strip (strip s) = strip s.
Proof.
  unfold strip. destruct (lstrip_head s) as [->|(c & s' & -> & Hc)]; [done|].
  destruct (rstrip_keeps_head c s' Hc) as [r Hr].
  rewrite Hr. simpl lstrip. rewrite Hc, <- Hr. apply rstrip_rstrip.
Qed.

Lemma real_spec (b : string) :
  real b = true <-> b <> "" /\ b <> "Not Available" /\ b <> "No URL".
Proof.
  unfold real. rewrite andb_true_iff, truthy_true, negb_true_iff.
  rewrite bool_decide_eq_false, !elem_of_cons, elem_of_nil. tauto.
Qed.


(** ** The runtime *)

Lemma emit_ok (fieldnames : list string) (out : string) (d : row) (w : world) :
  wrong_fields fieldnames d = false ->
  emit fieldnames out d w =
    (Ok tt,
     World (<[out := content w out ++ [cell d <$> fieldnames]]> (files w)) []
           (requests w) (log w)).
Proof.
  intros Hd. unfold emit, writerow, dict_to_list, bind, write, flush, flushed.
  rewrite Hd. simpl. unfold content. by rewrite app_assoc.
Qed.

Lemma emit_raise (fieldnames : list string) (out : string) (d : row) (w : world) :
  wrong_fields fieldnames d = true ->
  emit fieldnames out d w = (Raise ValueError, w).
Proof.
  intros Hd. unfold emit, writerow, dict_to_list, bind. by rewrite Hd.
Qed.

Lemma emit_requests (fieldnames : list string) (out : string) (d : row) (w : world) :
  requests (emit fieldnames out d w).2 = requests w.
Proof.
  destruct (wrong_fields fieldnames d) eqn:Hd.
  - by rewrite emit_raise.
  - by rewrite emit_ok.
Qed.

Lemma fetch_bibtex_returns (net : web) (url : string) (w : world) :
  ~ section_without_pre (net url) ->
  exists msgs,
    Conference.fetch_bibtex net url w =
      (Ok (fetched (net url)),
       World (files w) (buffer w) (requests w ++ [url]) (log w ++ msgs)).
Proof.
  intros Hpre. unfold section_without_pre in Hpre.
  unfold Conference.fetch_bibtex, try_except_RequestException, bind,
    requests_get, raise_for_status, fetched.
  destruct (net url) as [|[[] [[[t|]]|]]]; simpl;
    try (by exists []; rewrite app_nil_r); try (by eexists [_]); done.
Qed.

Lemma fetch_bibtex_raises (net : web) (url : string) (w : world) :
  section_without_pre (net url) ->
  Conference.fetch_bibtex net url w =
    (Raise AttributeError,
     World (files w) (buffer w) (requests w ++ [url]) (log w)).
Proof.
  intros Hpre. unfold section_without_pre in Hpre.
  unfold Conference.fetch_bibtex, try_except_RequestException, bind,
    requests_get, raise_for_status. by rewrite Hpre.
Qed.

(** ** One pass of the loop *)

Lemma process_row_unfold (net : web) (cache : gmap string row)
    (fieldnames : list string) (out : string) (row : row) (t u : string)
    (w : world) :
  get row "title" "" = Some t ->
  get row "bibtex_url" "" = Some u ->
  Conference.process_row net cache fieldnames out row w =
    match cache !! strip t with
    | Some entry =>
        match get entry "bibtex_data" "" with
        | Some b =>
            if real (strip b)
            then emit fieldnames out (setitem row "bibtex_data" (strip b)) w
            else fetch_new net fieldnames out row (strip u) w
        | None => (Raise AttributeError, w)
        end
    | None => fetch_new net fieldnames out row (strip u) w
    end.
Proof.
  intros Ht Hu. unfold Conference.process_row. rewrite Ht, Hu.
  unfold str_strip at 1 2. unfold bind at 1 2. unfold ret at 1 2.
  assert (Hnew : forall w',
    (row' <- (if truthy (strip u)
              then bibtex_data <- Conference.fetch_bibtex net (strip u);;
                   ret (setitem row "bibtex_data"
                          match bibtex_data with
                          | Some s => if truthy s then s else "Not Available"
                          | None => "Not Available"
                          end)
              else ret (setitem row "bibtex_data" "No URL"));;
     (writerow fieldnames row';;; flush out)) w'
    = fetch_new net fieldnames out row (strip u) w').
  { intros w'. unfold fetch_new, emit, bind, ret, or_not_available.
    destruct (truthy (strip u)); [|done].
    destruct (Conference.fetch_bibtex net (strip u) w') as [[r|e] w'']; done. }
  destruct (cache !! strip t) as [entry|]; [|apply Hnew].
  destruct (get entry "bibtex_data" "") as [b|]; simpl; [|done].
  unfold bind at 1. unfold ret. fold (real (strip b)).
  destruct (real (strip b)); [done|apply Hnew].
Qed.

(** ** Rows and lines *)

Lemma get_cell (d : row) (key : string) :
  get d key "" <> None -> get d key "" = Some (cell d key).
Proof. unfold cell. by destruct (get d key ""). Qed.

Lemma cell_setitem_eq (d : row) (key v : string) : cell (setitem d key v) key = v.
Proof. unfold cell, get, setitem. simpl. by rewrite lookup_insert_eq. Qed.

Lemma cell_setitem_ne (d : row) (key key' v : string) :
  key <> key' -> cell (setitem d key v) key' = cell d key'.
Proof. intros. unfold cell, get, setitem. simpl. by rewrite lookup_insert_ne. Qed.

Lemma wrong_fields_fits (fieldnames : list string) (d : row) :
  fits fieldnames d -> wrong_fields fieldnames d = false.
Proof.
  intros [Hrest Hdom]. unfold wrong_fields. apply orb_false_iff. split.
  - apply bool_decide_eq_false. by intros [].
  - apply bool_decide_eq_false. rewrite Exists_exists.
    intros (k & Hk & Hnot). apply Hnot, Hdom.
    by apply elem_of_dom, elem_of_elements.
Qed.

Lemma fits_setitem (fieldnames : list string) (d : row) (key v : string) :
  fits fieldnames d -> key ∈ fieldnames -> fits fieldnames (setitem d key v).
Proof.
  intros [Hrest Hdom] Hkey. split; [done|]. intros k. simpl.
  destruct (decide (key = k)) as [<-|Hne]; [done|].
  rewrite lookup_insert_ne by done. apply Hdom.
Qed.

Lemma dict_zip_fold_not_None (l : list (string * string))
    (m : gmap string (option string)) (k : string) :
  m !! k <> Some None ->
  fold_left (fun d kv => <[kv.1 := Some kv.2]> d) l m !! k <> Some None.
Proof.
  revert m. induction l as [|kv l IH]; intros m Hm; simpl; [done|].
  apply IH. destruct (decide (kv.1 = k)) as [<-|Hne].
  - by rewrite lookup_insert_eq.
  - by rewrite lookup_insert_ne.
Qed.

Lemma dict_zip_fold_dom (l : list (string * string))
    (m : gmap string (option string)) (k : string) :
  is_Some (fold_left (fun d kv => <[kv.1 := Some kv.2]> d) l m !! k) ->
  k ∈ l.*1 \/ is_Some (m !! k).
Proof.
  revert m. induction l as [|kv l IH]; intros m; simpl; [by right|].
  intros H. destruct (IH _ H) as [Hl|Hm].
  - left. by right.
  - destruct (decide (kv.1 = k)) as [<-|Hne]; [left; by left|].
    rewrite lookup_insert_ne in Hm by done. by right.
Qed.

Lemma dict_zip_fold_fmap (g : string -> string) (fieldnames : list string)
    (m : gmap string (option string)) (k : string) :
  fold_left (fun d kv => <[kv.1 := Some kv.2]> d)
            (zip fieldnames (g <$> fieldnames)) m !! k
  = if decide (k ∈ fieldnames) then Some (Some (g k)) else m !! k.
Proof.
  revert m. induction fieldnames as [|x h IH]; intros m; simpl.
  - destruct (decide (k ∈ [])) as [H|]; [by apply elem_of_nil in H|done].
  - rewrite IH. destruct (decide (k ∈ h)) as [Hin|Hnin].
    + destruct (decide (k ∈ x :: h)) as [|Hn]; [done|]. destruct Hn. by right.
    + destruct (decide (x = k)) as [<-|Hne].
      * rewrite lookup_insert_eq.
        destruct (decide (x ∈ x :: h)) as [|Hn]; [done|]. destruct Hn. by left.
      * rewrite lookup_insert_ne by done.
        destruct (decide (k ∈ x :: h)) as [Hin|]; [|done].
        apply elem_of_cons in Hin as [->|?]; done.
Qed.

(** Reading back a line the writer wrote for the same field names. *)
Lemma make_row_written (g : string -> string) (fieldnames : list string) :
  rest (make_row fieldnames (g <$> fieldnames)) = None
  /\ forall k, cells (make_row fieldnames (g <$> fieldnames)) !! k
             = if decide (k ∈ fieldnames) then Some (Some (g k)) else None.
Proof.
  unfold make_row. rewrite length_fmap, Nat.ltb_irrefl. split; [done|].
  intros k. simpl. unfold dict_zip. by rewrite dict_zip_fold_fmap.
Qed.

Lemma cell_make_row_written (g : string -> string) (fieldnames : list string)
    (k : string) :
  k ∈ fieldnames -> cell (make_row fieldnames (g <$> fieldnames)) k = g k.
Proof.
  intros Hk. unfold cell, get.
  destruct (make_row_written g fieldnames) as [_ ->]. by rewrite decide_True.
Qed.

(** The rows of a rectangular file. *)
Lemma make_row_rectangular (header line : list string) :
  length line = length header ->
  fits header (make_row header line)
  /\ forall k, cells (make_row header line) !! k <> Some None.
Proof.
  intros Hlen. unfold make_row. rewrite Hlen, Nat.ltb_irrefl. split.
  - split; [done|]. intros k Hk. simpl in Hk. unfold dict_zip in Hk.
    apply dict_zip_fold_dom in Hk as [Hk|Hk].
    + apply list_elem_of_fmap in Hk as ([k1 v] & -> & Hkv).
      by apply elem_of_zip_l in Hkv.
    + rewrite lookup_empty in Hk. by destruct Hk.
  - intros k. simpl. apply dict_zip_fold_not_None. by rewrite lookup_empty.
Qed.

Lemma rectangular_rows (f : csv) (r : row) :
  rectangular f -> r ∈ DictReader f ->
  fits (default [] (DictReader_fieldnames f)) r
  /\ forall k, get r k "" <> None.
Proof.
  destruct f as [|header lines]; simpl; [by intros _ ?%elem_of_nil|].
  intros Hrect Hr. apply list_elem_of_fmap in Hr as (line & -> & Hline).
  apply list_elem_of_filter in Hline as [Hne Hline].
  rewrite Forall_forall in Hrect. destruct (Hrect _ Hline) as [?|Hlen]; [done|].
  destruct (make_row_rectangular header line Hlen) as [Hfits Hcells].
  split; [done|]. intros k. unfold get.
  specialize (Hcells k). by destruct (cells (make_row header line) !! k) as [[]|].
Qed.

(** ** A pass that raises nothing *)

Section Runs.

Context (net : web) (cache : gmap string row).
Context (fieldnames : list string) (out : string).
Hypothesis bibtex_data_column : "bibtex_data" ∈ fieldnames.

Lemma fetch_new_runs (r : row) (url : string) (w : world) :
  fits fieldnames r ->
  ~ section_without_pre (net url) ->
  exists msgs,
    fetch_new net fieldnames out r url w =
      (Ok tt,
       World (<[out := content w out ++
                 [cell (setitem r "bibtex_data"
                          (if truthy url then or_not_available (fetched (net url))
                           else "No URL")) <$> fieldnames]]> (files w))
             [] (requests w ++ (if truthy url then [url] else []))
             (log w ++ msgs)).
Proof.
  intros Hfits Hpre. unfold fetch_new. destruct (truthy url).
  - destruct (fetch_bibtex_returns net url w Hpre) as [msgs Hf].
    exists msgs. unfold bind. rewrite Hf.
    rewrite emit_ok by by apply wrong_fields_fits, fits_setitem. done.
  - exists []. rewrite emit_ok by by apply wrong_fields_fits, fits_setitem.
    by rewrite !app_nil_r.
Qed.

Lemma process_row_runs (r : row) (w : world) :
  row_ok net cache fieldnames r ->
  exists msgs,
    Conference.process_row net cache fieldnames out r w =
      (Ok tt,
       World (<[out := content w out ++ [record_of net cache fieldnames r]]>
                (files w))
             [] (requests w ++ fetches_of cache r) (log w ++ msgs)).
Proof.
  intros (Hfits & Ht & Hu & Hentry & Hpre).
  rewrite (process_row_unfold _ _ _ _ _ _ _ _ (get_cell _ _ Ht) (get_cell _ _ Hu)).
  unfold record_of, bibtex_of, fetches_of, reused.
  destruct (cache !! strip (cell r "title")) as [entry|] eqn:Hc.
  - rewrite (get_cell _ _ (Hentry _ eq_refl)).
    destruct (real (strip (cell entry "bibtex_data"))).
    + exists []. rewrite emit_ok by by apply wrong_fields_fits, fits_setitem.
      by rewrite !app_nil_r.
    + by apply fetch_new_runs.
  - by apply fetch_new_runs.
Qed.

(** The loop over rows that raise nothing: one line per row, in order,
    and after the first pass nothing is left in the buffer. *)
Lemma process_rows_run (rows : list row) (w : world) :
  Forall (row_ok net cache fieldnames) rows ->
  exists msgs,
    for_ rows (Conference.process_row net cache fieldnames out) w =
      (Ok tt,
       World (match rows with
              | [] => files w
              | _ => <[out := content w out
                               ++ (record_of net cache fieldnames <$> rows)]>
                       (files w)
              end)
             (match rows with [] => buffer w | _ => [] end)
             (requests w ++ concat (fetches_of cache <$> rows))
             (log w ++ msgs)).
Proof.
  intros Hrows. revert w.
  induction Hrows as [|r rows Hr Hrows IH]; intros w.
  - exists []. simpl. unfold ret. rewrite !app_nil_r. by destruct w.
  - destruct (process_row_runs r w Hr) as [m1 H1].
    simpl. unfold bind. rewrite H1.
    destruct (IH (World (<[out := content w out ++ [record_of net cache fieldnames r]]>
                           (files w))
                        [] (requests w ++ fetches_of cache r) (log w ++ m1)))
      as [m2 H2].
    rewrite H2. exists (m1 ++ m2). simpl. rewrite <- !app_assoc. f_equal.
    unfold content at 2 3. simpl. rewrite lookup_insert_eq. simpl.
    rewrite app_nil_r.
    destruct rows; simpl; [by rewrite app_nil_r|].
    rewrite insert_insert_eq. by rewrite <- app_assoc.
Qed.

End Runs.

(** ** The loader *)

Lemma for_acc_index (key_field : string) (rows : list row)
    (m : gmap string row) (w : world) :
  Forall (fun r => get r key_field "" <> None) rows ->
  for_acc rows m (fun existing_data row =>
      key <- str_strip (get row key_field "") ;;
      ret (if truthy key then <[key := row]> existing_data else existing_data)) w
  = (Ok (fold_left
           (fun m r =>
              if truthy (strip (cell r key_field))
              then <[strip (cell r key_field) := r]> m else m)
           rows m), w).
Proof.
  intros Hrows. revert m.
  induction Hrows as [|r rows Hr Hrows IH]; intros m; simpl; [done|].
  unfold bind at 1 2. rewrite (get_cell _ _ Hr). simpl. apply IH.
Qed.

Lemma load_existing_data_index (outputfile key_field : string) (w : world) :
  Forall (fun r => get r key_field "" <> None) (prior (files w !! outputfile)) ->
  Conference.load_existing_data outputfile key_field w
  = (Ok (index key_field (prior (files w !! outputfile))), w).
Proof.
  intros Hrows. unfold Conference.load_existing_data.
  unfold bind at 1. unfold os_path_exists.
  destruct (files w !! outputfile) as [f|] eqn:Hf.
  - rewrite bool_decide_eq_true_2 by eauto.
    unfold bind at 1. unfold open_r. rewrite Hf. by apply for_acc_index.
  - rewrite bool_decide_eq_false_2; [done|]. by intros [].
Qed.

Lemma index_lookup (key_field : string) (rows : list row) (k : string) :
  index key_field rows !! k
  = if truthy k
    then last (filter (fun r => strip (cell r key_field) = k) rows)
    else None.
Proof.
  unfold index. induction rows as [|r rows IH] using rev_ind; simpl.
  - rewrite lookup_empty. by destruct (truthy k).
  - rewrite fold_left_app, filter_app. cbn [fold_left].
    destruct (truthy (strip (cell r key_field))) eqn:Hr.
    + destruct (decide (strip (cell r key_field) = k)) as [<-|Hne].
      * rewrite lookup_insert_eq, Hr, filter_cons_True, filter_nil by done.
        by rewrite last_snoc.
      * rewrite lookup_insert_ne, IH by done.
        by rewrite filter_cons_False, filter_nil, app_nil_r by done.
    + rewrite IH. destruct (truthy k) eqn:Hk; [|done].
      rewrite filter_cons_False, filter_nil, app_nil_r; [done|].
      intros <-. congruence.
Qed.

Lemma index_elem_of (key_field : string) (rows : list row) (k : string) (e : row) :
  index key_field rows !! k = Some e -> e ∈ rows.
Proof.
  rewrite index_lookup. destruct (truthy k); [|done].
  intros He%last_Some_elem_of. by apply list_elem_of_filter in He as [_ ?].
Qed.

Lemma loadable_rows (o : option csv) (r : row) :
  loadable o -> r ∈ prior o ->
  get r "title" "" <> None /\ get r "bibtex_data" "" <> None.
Proof. unfold loadable. rewrite Forall_forall. auto. Qed.

Lemma rectangular_loadable (f : csv) : rectangular f -> loadable (Some f).
Proof.
  intros Hf. apply Forall_forall. intros r Hr.
  destruct (rectangular_rows f r Hf Hr) as [_ Hget]. auto.
Qed.

Lemma absent_loadable : loadable None.
Proof. apply Forall_nil_2. Qed.

(** ** The whole run *)

Lemma output_fieldnames_bibtex_data (f : csv) :
  "bibtex_data" ∈ Conference.output_fieldnames f.
Proof.
  unfold Conference.output_fieldnames. case_bool_decide; [done|].
  apply elem_of_app. right. by left.
Qed.

Lemma output_fieldnames_header (f : csv) (k : string) :
  k ∈ default [] (DictReader_fieldnames f) -> k ∈ Conference.output_fieldnames f.
Proof.
  unfold Conference.output_fieldnames. case_bool_decide; [done|].
  intros. apply elem_of_app. by left.
Qed.

Lemma rows_ok (net : web) (f : csv) (o : option csv) :
  rectangular f -> loadable o ->
  (forall u, ~ section_without_pre (net u)) ->
  Forall (row_ok net (index "title" (prior o)) (Conference.output_fieldnames f))
         (DictReader f).
Proof.
  intros Hf Ho Hnet. apply Forall_forall. intros r Hr.
  destruct (rectangular_rows f r Hf Hr) as [[Hrest Hdom] Hget].
  repeat split; [done| |done|done| |done].
  - intros k Hk. by apply output_fieldnames_header, Hdom.
  - intros e He%index_elem_of. by apply (loadable_rows o).
Qed.

Lemma process_csv_run (net : web) (inputfile outputfile : string) (w : world)
    (f : csv) :
  files w !! inputfile = Some f ->
  rectangular f -> loadable (files w !! outputfile) ->
  (forall u, ~ section_without_pre (net u)) ->
  exists msgs,
    Conference.process_csv net inputfile outputfile w =
      (Ok tt,
       World (<[outputfile :=
                  Conference.output_fieldnames f
                  :: (record_of net (index "title" (prior (files w !! outputfile)))
                        (Conference.output_fieldnames f) <$> DictReader f)]>
                (files w))
             []
             (requests w
              ++ concat (fetches_of (index "title" (prior (files w !! outputfile)))
                           <$> DictReader f))
             (log w ++ msgs)).
Proof.
  intros Hin Hf Ho Hnet. unfold Conference.process_csv.
  unfold bind at 1. rewrite load_existing_data_index; cycle 1.
  { apply Forall_forall. intros r Hr. by apply (loadable_rows _ _ Ho). }
  unfold bind at 1. unfold open_r. rewrite Hin.
  unfold with_open_w. unfold bind at 1. unfold open_w at 1.
  unfold bind at 1. unfold writeheader, write. simpl.
  set (cache := index "title" (prior (files w !! outputfile))).
  set (fn := Conference.output_fieldnames f).
  destruct (process_rows_run net cache fn outputfile
              (output_fieldnames_bibtex_data f) (DictReader f)
              (World (<[outputfile := []]> (files w)) [fn] (requests w) (log w))
              (rows_ok net f _ Hf Ho Hnet))
    as [msgs Hrun].
  rewrite Hrun. exists msgs. unfold flushed, content. simpl.
  rewrite lookup_insert_eq. simpl. f_equal. f_equal.
  destruct (DictReader f); simpl.
  - rewrite lookup_insert_eq. simpl. by rewrite insert_insert_eq.
  - rewrite lookup_insert_eq. simpl. by rewrite !insert_insert_eq, app_nil_r.
Qed.

(** ** The claims about one pass *)

(** C1 (amended).  When the trimmed title of an input record has an entry
    in the Existing-Results Map whose trimmed bibtex_data is non-empty and
    not a sentinel, the pass writes the input record itself with its
    bibtex_data set to that trimmed value, and requests nothing: it ends
    as [emit] does, the list of requests is unchanged, and when the writer
    accepts the record the line is appended and flushed. *)
Theorem C1_cached_bibtex_reused (net : web) (cache : gmap string row)
    (fieldnames : list string) (out : string) (r entry : row)
    (t u b : string) (w : world) :
  get r "title" "" = Some t ->
  get r "bibtex_url" "" = Some u ->
  cache !! strip t = Some entry ->
  get entry "bibtex_data" "" = Some b ->
  real (strip b) = true ->
  Conference.process_row net cache fieldnames out r w
    = emit fieldnames out (setitem r "bibtex_data" (strip b)) w
  /\ requests (Conference.process_row net cache fieldnames out r w).2
     = requests w
  /\ (fits fieldnames r -> "bibtex_data" ∈ fieldnames ->
      Conference.process_row net cache fieldnames out r w
      = (Ok tt,
         World (<[out := content w out
                   ++ [cell (setitem r "bibtex_data" (strip b)) <$> fieldnames]]>
                  (files w))
               [] (requests w) (log w))).
Proof.
  intros Ht Hu Hc Hb Hreal.
  assert (Heq : Conference.process_row net cache fieldnames out r w
                = emit fieldnames out (setitem r "bibtex_data" (strip b)) w).
  { rewrite (process_row_unfold _ _ _ _ _ t u) by done.
    by rewrite Hc, Hb, Hreal. }
  rewrite Heq. split; [done|]. split; [apply emit_requests|].
  intros Hfits Hbd. by apply emit_ok, wrong_fields_fits, fits_setitem.
Qed.

(** C5 (amended).  For an input record whose trimmed bibtex_url is empty,
    whatever the web answers: nothing is requested, and the record is
    written with bibtex_data set to the value reused for its title when
    there is one, and to "No URL" otherwise. *)
Theorem C5_blank_url (net : web) (cache : gmap string row)
    (fieldnames : list string) (out : string) (r : row) (w : world) :
  get r "title" "" <> None ->
  get r "bibtex_url" "" <> None ->
  (forall e, cache !! strip (cell r "title") = Some e ->
             get e "bibtex_data" "" <> None) ->
  strip (cell r "bibtex_url") = "" ->
  Conference.process_row net cache fieldnames out r w
    = emit fieldnames out
        (setitem r "bibtex_data"
           (match reused cache (strip (cell r "title")) with
            | Some b => b
            | None => "No URL"
            end)) w
  /\ requests (Conference.process_row net cache fieldnames out r w).2
     = requests w.
Proof.
  intros Ht Hu Hentry Hblank.
  assert (Heq : Conference.process_row net cache fieldnames out r w
    = emit fieldnames out
        (setitem r "bibtex_data"
           (match reused cache (strip (cell r "title")) with
            | Some b => b
            | None => "No URL"
            end)) w).
  { rewrite (process_row_unfold _ _ _ _ _ _ _ _ (get_cell _ _ Ht) (get_cell _ _ Hu)).
    unfold reused, fetch_new. rewrite Hblank. simpl.
    destruct (cache !! strip (cell r "title")) as [e|] eqn:Hc; [|done].
    rewrite (get_cell _ _ (Hentry _ eq_refl)).
    by destruct (real (strip (cell e "bibtex_data"))). }
  rewrite Heq. split; [done|apply emit_requests].
Qed.

(** ** The loader and the statistics *)

(** X18.  The loader on a file it can read.  The loader returns the empty
    mapping when the path does not exist.  For an existing file in which
    no record has [None] in the key field (no line is too short to reach
    that column) it returns a mapping, leaves the world alone, and the
    mapping holds, under every non-empty trimmed key, the last record of
    the file with that key; it holds nothing under the empty key, so a
    record whose key is blank, or whose key column is not in the header,
    is in it under no key. *)
Theorem X18_loader_mapping (outputfile key_field : string) (w : world) :
  Forall (fun r => get r key_field "" <> None) (prior (files w !! outputfile)) ->
  exists m,
    Conference.load_existing_data outputfile key_field w = (Ok m, w)
    /\ (files w !! outputfile = None -> m = ∅)
    /\ (forall k,
          m !! k =
            if truthy k
            then last (filter (fun r => strip (cell r key_field) = k)
                         (prior (files w !! outputfile)))
            else None)
    /\ (forall k r,
          m !! k = Some r ->
          is_Some (cells r !! key_field) /\ strip (cell r key_field) = k /\ k <> "").
Proof.
  intros Hrows. eexists. split; [by apply load_existing_data_index|].
  split; [|split].
  - by intros ->.
  - apply index_lookup.
  - intros k r. rewrite index_lookup. destruct (truthy k) eqn:Hk; [|done].
    intros Hr%last_Some_elem_of. apply list_elem_of_filter in Hr as [Hkey Hr].
    apply truthy_true in Hk. split; [|done].
    destruct (cells r !! key_field) eqn:Hc; [by eexists|].
    exfalso. unfold cell, get in Hkey. rewrite Hc in Hkey.
    apply Hk. by rewrite <- Hkey.
Qed.

(** C6, at the failing input.  A prior output whose second record holds
    the year only: the line is too short to reach the title column, and
    DictReader gives the record [None] under title.  [row.get] returns
    that [None] (its default is for a key that is missing), [.strip()]
    raises AttributeError and the loader returns no mapping, where the
    claim has it skip the record.  The loader does skip the records when
    title is no column of the file. *)
Theorem C6_short_line_raises :
  let fieldnames := ["year"; "title"; "bibtex_url"; "bibtex_data"] in
  let w := World {[ "out.csv" := [fieldnames;
                                  ["2020"; "Paper A"; "http://x/a"; "@a"];
                                  ["2021"]] ]} [] [] [] in
  let w' := World {[ "out.csv" := [["year"]; ["2020"]; ["2021"]] ]} [] [] [] in
  cells (make_row fieldnames ["2021"]) !! "title" = Some None
  /\ Conference.load_existing_data "out.csv" "title" w = (Raise AttributeError, w)
  /\ Journal.load_existing_data "out.csv" "title" w = (Raise AttributeError, w)
  /\ Conference.load_existing_data "out.csv" "title" w' = (Ok ∅, w').
Proof. vm_compute. repeat split; reflexivity. Qed.

Lemma for_acc_count (rows : list row) (n : nat) (w : world) :
  Forall (fun r => get r "bibtex_data" "" <> None) rows ->
  for_acc rows n (fun success_entries row =>
      bibtex <- str_strip (get row "bibtex_data" "") ;;
      ret (if truthy bibtex
              && negb (bool_decide (bibtex ∈ ["Not Available"; "No URL"]))
           then S success_entries else success_entries)) w
  = (Ok (n + length (filter (fun r => real (strip (cell r "bibtex_data")) = true)
                       rows)), w).
Proof.
  intros Hrows. revert n.
  induction Hrows as [|r rows Hr Hrows IH]; intros n; simpl.
  - by rewrite Nat.add_0_r.
  - unfold bind at 1 2. rewrite (get_cell _ _ Hr). simpl.
    fold (real (strip (cell r "bibtex_data"))). rewrite IH.
    destruct (real (strip (cell r "bibtex_data"))) eqn:Hreal.
    + rewrite filter_cons_True by done. simpl. do 2 f_equal. lia.
    + rewrite filter_cons_False; [done|]. congruence.
Qed.

(** C7.  The reporter changes nothing but the log, and adds to it a
    warning exactly when the input file does not exist, followed by two
    records: the number of records of the input file (zero when it does
    not exist) and the number of records of the output file whose trimmed
    bibtex_data is non-empty and not a sentinel (zero when it does not
    exist). *)
Theorem C7_print_statistics (inputfile outputfile : string) (w : world) :
  Forall (fun r => get r "bibtex_data" "" <> None)
         (prior (files w !! outputfile)) ->
  Conference.print_statistics inputfile outputfile w =
    (Ok tt,
     World (files w) (buffer w) (requests w)
       (log w
        ++ match files w !! inputfile with
           | Some _ => []
           | None => [(WARNING, InputMissing inputfile)]
           end
        ++ [(ERROR, TotalEntries inputfile
                      (length (prior (files w !! inputfile))));
            (ERROR, SuccessEntries outputfile
                      (length (filter
                                 (fun r => real (strip (cell r "bibtex_data")) = true)
                                 (prior (files w !! outputfile)))))])).
Proof.
  intros Hrows. unfold Conference.print_statistics.
  unfold bind at 1. unfold os_path_exists at 1.
  unfold bind at 1.
  set (w1 := World (files w) (buffer w) (requests w)
               (log w ++ match files w !! inputfile with
                         | Some _ => []
                         | None => [(WARNING, InputMissing inputfile)]
                         end)).
  assert (Htotal :
    (if bool_decide (is_Some (files w !! inputfile))
     then infile <- open_r inputfile;; ret (length (DictReader infile))
     else logger WARNING (InputMissing inputfile);;; ret 0) w
    = (Ok (length (prior (files w !! inputfile))), w1)).
  { unfold w1. destruct (files w !! inputfile) as [f|] eqn:Hf.
    - rewrite bool_decide_eq_true_2 by eauto.
      unfold bind, open_r. rewrite Hf, app_nil_r. by destruct w.
    - rewrite bool_decide_eq_false_2 by by intros []. done. }
  rewrite Htotal. unfold bind at 1. unfold os_path_exists at 1.
  change (files w1) with (files w). unfold bind at 1.
  assert (Hsuccess :
    (if bool_decide (is_Some (files w !! outputfile))
     then outfile <- open_r outputfile;;
          for_acc (DictReader outfile) 0 (fun success_entries row =>
            bibtex <- str_strip (get row "bibtex_data" "") ;;
            ret (if truthy bibtex
                    && negb (bool_decide (bibtex ∈ ["Not Available"; "No URL"]))
                 then S success_entries else success_entries))
     else ret 0) w1
    = (Ok (length (filter (fun r => real (strip (cell r "bibtex_data")) = true)
                     (prior (files w !! outputfile)))), w1)).
  { destruct (files w !! outputfile) as [f|] eqn:Hf.
    - rewrite bool_decide_eq_true_2 by eauto.
      unfold bind at 1. unfold open_r. change (files w1) with (files w).
      rewrite Hf. by rewrite for_acc_count.
    - rewrite bool_decide_eq_false_2 by by intros []. done. }
  rewrite Hsuccess. unfold bind, logger, w1. simpl.
  by rewrite <- !app_assoc.
Qed.

(** C8.  The conference script and the journal script are the same
    functions: fetching, loading, the loop, the whole run, the statistics
    and the main block agree on every input and every world.  They differ
    in their default file names and in the level their logger shows. *)
Theorem C8_conference_journal_agree :
  (forall net url w,
     Conference.fetch_bibtex net url w = Journal.fetch_bibtex net url w)
  /\ (forall outputfile key_field w,
        Conference.load_existing_data outputfile key_field w
        = Journal.load_existing_data outputfile key_field w)
  /\ (forall net inputfile outputfile w,
        Conference.process_csv net inputfile outputfile w
        = Journal.process_csv net inputfile outputfile w)
  /\ (forall inputfile outputfile w,
        Conference.print_statistics inputfile outputfile w
        = Journal.print_statistics inputfile outputfile w)
  /\ (forall net inputfile outputfile w,
        Conference.main net inputfile outputfile w
        = Journal.main net inputfile outputfile w)
  /\ Conference.default_inputfile <> Journal.default_inputfile
  /\ Conference.default_outputfile <> Journal.default_outputfile
  /\ Conference.basicConfig_level <> Journal.basicConfig_level.
Proof. repeat split; done. Qed.

(** ** The claims about the whole run *)

Lemma fetches_of_empty (rows : list row) :
  concat (fetches_of ∅ <$> rows)
  = filter (fun u => u <> "") ((fun r => strip (cell r "bibtex_url")) <$> rows).
Proof.
  induction rows as [|r rows IH]; [done|].
  rewrite !fmap_cons. cbn [concat]. rewrite IH.
  unfold fetches_of at 1, reused. rewrite lookup_empty.
  destruct (truthy (strip (cell r "bibtex_url"))) eqn:Hu.
  - apply truthy_true in Hu. by rewrite filter_cons_True.
  - apply truthy_false in Hu. rewrite filter_cons_False; [done|]. by intros [].
Qed.

(** C10.  Starting from a prior output without records (or none at all),
    on an input whose rows are well formed and a web whose pages
    [fetch_bibtex] survives, the run completes and requests, in input
    order, the trimmed URL of every record whose trimmed URL is not empty:
    once per record, whatever the titles are. Records that share a title
    are not merged. *)
Theorem C10_one_fetch_per_record (net : web) (inputfile outputfile : string)
    (w : world) (f : csv) :
  files w !! inputfile = Some f ->
  rectangular f ->
  prior (files w !! outputfile) = [] ->
  (forall u, ~ section_without_pre (net u)) ->
  exists w',
    Conference.process_csv net inputfile outputfile w = (Ok tt, w')
    /\ requests w'
       = requests w
         ++ filter (fun u => u <> "")
              ((fun r => strip (cell r "bibtex_url")) <$> DictReader f).
Proof.
  intros Hin Hf Hprior Hnet.
  assert (Hload : loadable (files w !! outputfile)).
  { unfold loadable. rewrite Hprior. apply Forall_nil_2. }
  destruct (process_csv_run net inputfile outputfile w f Hin Hf Hload Hnet)
    as [msgs Hrun].
  eexists. split; [exact Hrun|]. simpl. rewrite Hprior.
  change (index "title" []) with (∅ : gmap string row).
  by rewrite fetches_of_empty.
Qed.

Lemma record_of_length (net : web) (cache : gmap string row)
    (fieldnames : list string) (r : row) :
  length (record_of net cache fieldnames r) = length fieldnames.
Proof. unfold record_of. by rewrite length_fmap. Qed.

(** The killed run over rows that raise nothing, in full. *)
Lemma process_csv_killed_run (k : nat) (net : web)
    (inputfile outputfile : string) (w : world) (f : csv) :
  files w !! inputfile = Some f ->
  rectangular f ->
  loadable (files w !! outputfile) ->
  (forall u, ~ section_without_pre (net u)) ->
  let cache := index "title" (prior (files w !! outputfile)) in
  let fieldnames := Conference.output_fieldnames f in
  let rows := take k (DictReader f) in
  exists msgs,
    Conference.process_csv_killed k net inputfile outputfile w =
      (Ok tt,
       World (<[outputfile :=
                  match rows with
                  | [] => []
                  | _ => fieldnames :: (record_of net cache fieldnames <$> rows)
                  end]> (files w))
             (match rows with [] => [fieldnames] | _ => [] end)
             (requests w ++ concat (fetches_of cache <$> rows))
             (log w ++ msgs)).
Proof.
  intros Hin Hf Ho Hnet cache fn rows.
  unfold Conference.process_csv_killed.
  unfold bind at 1. rewrite load_existing_data_index; cycle 1.
  { apply Forall_forall. intros r Hr. by apply (loadable_rows _ _ Ho). }
  unfold bind at 1. unfold open_r. rewrite Hin.
  unfold bind at 1. unfold open_w at 1.
  unfold bind at 1. unfold writeheader, write. simpl.
  fold cache. fold fn. fold rows.
  assert (Hok : Forall (row_ok net cache fn) rows).
  { apply Forall_take. by apply rows_ok. }
  destruct (process_rows_run net cache fn outputfile
              (output_fieldnames_bibtex_data f) rows
              (World (<[outputfile := []]> (files w)) [fn] (requests w) (log w))
              Hok)
    as [msgs Hrun].
  rewrite Hrun. exists msgs. simpl. f_equal. f_equal.
  destruct rows; [done|].
  unfold content. simpl. by rewrite lookup_insert_eq, insert_insert_eq.
Qed.

Lemma written_records_counted (fieldnames : list string)
    (lines : list (list string)) :
  fieldnames <> [] ->
  Forall (fun line => length line = length fieldnames) lines ->
  length (prior (Some (fieldnames :: lines))) = length lines.
Proof.
  intros Hfn Hlines. unfold prior. simpl. rewrite length_fmap.
  induction Hlines as [|line lines Hline _ IH]; [done|].
  rewrite filter_cons_True; [simpl; by rewrite IH|].
  intros ->. by destruct fieldnames.
Qed.

(** C9 (amended).  Killed after [k] passes of the loop, [k] at least one,
    the run has left on disk the header followed by the records of the
    first [k] input rows, in input order, each with one field per field
    name, and nothing is buffered: none of the [k] records is lost.  Read
    back, the file holds [k] records, whatever the prior output held:
    opening the output has truncated it. *)
Theorem C9_output_after_k_records (k : nat) (net : web)
    (inputfile outputfile : string) (w : world) (f : csv) :
  files w !! inputfile = Some f ->
  rectangular f ->
  loadable (files w !! outputfile) ->
  (forall u, ~ section_without_pre (net u)) ->
  0 < k <= length (DictReader f) ->
  let cache := index "title" (prior (files w !! outputfile)) in
  let fieldnames := Conference.output_fieldnames f in
  let records := record_of net cache fieldnames <$> take k (DictReader f) in
  exists w',
    Conference.process_csv_killed k net inputfile outputfile w = (Ok tt, w')
    /\ files w' !! outputfile = Some (fieldnames :: records)
    /\ buffer w' = []
    /\ content w' outputfile = fieldnames :: records
    /\ length records = k
    /\ Forall (fun line => length line = length fieldnames) records
    /\ length (prior (files w' !! outputfile)) = k.
Proof.
  intros Hin Hf Ho Hnet Hk cache fn records.
  destruct (process_csv_killed_run k net inputfile outputfile w f Hin Hf Ho Hnet)
    as [msgs Hrun].
  assert (Hlen : length records = k).
  { unfold records. rewrite length_fmap, length_take. lia. }
  assert (Hlines : Forall (fun line => length line = length fn) records).
  { apply Forall_fmap, Forall_forall. intros r _. apply record_of_length. }
  assert (Hfn : fn <> []).
  { intros Hnil. pose proof (output_fieldnames_bibtex_data f) as Hbd.
    fold fn in Hbd. rewrite Hnil in Hbd. by apply elem_of_nil in Hbd. }
  pose proof (written_records_counted fn records Hfn Hlines) as Hcount.
  unfold records in *. clear records. fold cache fn in Hrun. simpl in Hrun.
  destruct (take k (DictReader f)) as [|r rows]; [simpl in Hlen; lia|].
  eexists. split; [exact Hrun|]. unfold content. cbn [files buffer].
  rewrite lookup_insert_eq. cbn [default]. rewrite app_nil_r.
  repeat split; try done.
  rewrite lookup_insert_eq. exact (eq_trans Hcount Hlen).
Qed.

(** The run that is not killed is the run killed after its last record,
    and closed. *)
Lemma process_csv_killed_at_end (net : web) (inputfile outputfile : string)
    (w : world) (f : csv) (r : result unit) (w' : world) :
  files w !! inputfile = Some f ->
  loadable (files w !! outputfile) ->
  Conference.process_csv_killed (length (DictReader f)) net inputfile outputfile w
    = (r, w') ->
  Conference.process_csv net inputfile outputfile w = (r, flushed outputfile w').
Proof.
  intros Hin Ho. unfold Conference.process_csv_killed, Conference.process_csv.
  unfold bind at 1 5. rewrite load_existing_data_index; cycle 1.
  { apply Forall_forall. intros r' Hr. by apply (loadable_rows _ _ Ho). }
  unfold bind at 1 4. unfold open_r. rewrite Hin.
  rewrite firstn_all. unfold with_open_w. by intros ->.
Qed.

(** ** What any pass may write *)

Lemma tidy_valid (b : string) : tidy b -> valid b /\ strip b <> "".
Proof.
  intros [Hstrip Hne]. split; [|congruence]. unfold valid.
  destruct (decide (b = "Not Available")); [by left|].
  destruct (decide (b = "No URL")); [by right; left|].
  right. right. repeat split; congruence.
Qed.

Lemma tidy_or_not_available (r : reply) : tidy (or_not_available (fetched r)).
Proof.
  unfold or_not_available. destruct (fetched r) as [s|] eqn:Hs; [|done].
  destruct (truthy s) eqn:Ht; [|done]. apply truthy_true in Ht.
  split; [|done]. unfold fetched in Hs.
  destruct r as [|[[] [[[t|]]|]]]; simplify_eq. apply strip_strip.
Qed.

Lemma tidy_reused (cache : gmap string row) (title b : string) :
  reused cache title = Some b -> tidy b.
Proof.
  unfold reused. destruct (cache !! title) as [e|]; [|done].
  destruct (real (strip (cell e "bibtex_data"))) eqn:Hreal; [|done].
  intros [= <-]. apply real_spec in Hreal as (? & _). split; [|done].
  apply strip_strip.
Qed.

Lemma fetch_bibtex_total (net : web) (url : string) (w : world) :
  exists res msgs,
    Conference.fetch_bibtex net url w =
      (res, World (files w) (buffer w) (requests w ++ [url]) (log w ++ msgs))
    /\ (res = Raise AttributeError \/ res = Ok (fetched (net url))).
Proof.
  unfold Conference.fetch_bibtex, try_except_RequestException, bind,
    requests_get, raise_for_status, fetched.
  destruct (net url) as [|[[] [[[t|]]|]]]; simpl;
    first [ by eexists _, [_]; split; [reflexivity|auto]
          | by eexists _, []; rewrite app_nil_r; split; [reflexivity|auto] ].
Qed.

Section Outcome.

Context (net : web) (cache : gmap string row).
Context (fieldnames : list string) (out : string).

Lemma emit_outcome (r : row) (b : string) (w0 w : world) :
  tidy b -> files w = files w0 -> buffer w = buffer w0 ->
  pass_outcome fieldnames out r w0
    (emit fieldnames out (setitem r "bibtex_data" b) w).
Proof.
  intros Hb Hfiles Hbuf.
  destruct (wrong_fields fieldnames (setitem r "bibtex_data" b)) eqn:Hd.
  - left. rewrite emit_raise by done. by exists ValueError.
  - right. rewrite emit_ok by done. exists b. simpl.
    unfold content. by rewrite Hfiles, Hbuf.
Qed.

Lemma fetch_new_outcome (r : row) (url : string) (w : world) :
  pass_outcome fieldnames out r w (fetch_new net fieldnames out r url w).
Proof.
  unfold fetch_new. destruct (truthy url).
  - destruct (fetch_bibtex_total net url w) as (res & msgs & Hf & [->| ->]);
      unfold bind; rewrite Hf.
    + left. by exists AttributeError.
    + apply emit_outcome; [apply tidy_or_not_available|done|done].
  - by apply emit_outcome.
Qed.

Lemma process_row_outcome (r : row) (w : world) :
  pass_outcome fieldnames out r w
    (Conference.process_row net cache fieldnames out r w).
Proof.
  destruct (get r "title" "") as [t|] eqn:Ht; cycle 1.
  { left. exists AttributeError. unfold Conference.process_row. by rewrite Ht. }
  destruct (get r "bibtex_url" "") as [u|] eqn:Hu; cycle 1.
  { left. exists AttributeError. unfold Conference.process_row.
    by rewrite Ht, Hu. }
  rewrite (process_row_unfold _ _ _ _ _ t u) by done.
  destruct (cache !! strip t) as [e|] eqn:Hc; [|apply fetch_new_outcome].
  destruct (get e "bibtex_data" "") as [b|] eqn:Hb; cycle 1.
  { left. by exists AttributeError. }
  destruct (real (strip b)) eqn:Hreal; [|apply fetch_new_outcome].
  apply emit_outcome; [|done|done].
  apply real_spec in Hreal as (? & _). split; [apply strip_strip|done].
Qed.

(** The loop, whatever the rows: it adds lines of that kind to what has
    been written, and nothing else. *)
Lemma process_rows_outcome (rows : list row) (w : world) :
  exists lines,
    content (for_ rows (Conference.process_row net cache fieldnames out) w).2 out
    = content w out ++ lines
    /\ Forall (written_line fieldnames) lines.
Proof.
  revert w. induction rows as [|r rows IH]; intros w.
  - exists []. by rewrite app_nil_r.
  - simpl. unfold bind.
    pose proof (process_row_outcome r w) as Hr.
    destruct (Conference.process_row net cache fieldnames out r w) as [res w1].
    unfold pass_outcome in Hr. simpl in Hr.
    destruct Hr as [(e & -> & Hfiles & Hbuf)|(b & -> & Hb & Hfiles & Hbuf)].
    + exists []. simpl. unfold content. by rewrite Hfiles, Hbuf, app_nil_r.
    + destruct (IH w1) as (lines & Hcontent & Hlines).
      exists ((cell (setitem r "bibtex_data" b) <$> fieldnames) :: lines).
      split; [|constructor; [by exists r, b|done]].
      rewrite Hcontent. unfold content at 1. rewrite Hfiles, Hbuf.
      rewrite lookup_insert_eq. simpl. by rewrite app_nil_r, <- app_assoc.
Qed.

End Outcome.

Lemma for_acc_loader_world (key_field : string) (rows : list row)
    (m : gmap string row) (w : world) :
  (for_acc rows m (fun existing_data row =>
      key <- str_strip (get row key_field "") ;;
      ret (if truthy key then <[key := row]> existing_data else existing_data))
     w).2 = w.
Proof.
  revert m. induction rows as [|r rows IH]; intros m; simpl; [done|].
  unfold bind at 1 2. destruct (get r key_field "") as [s|]; simpl; [|done].
  apply IH.
Qed.

Lemma load_existing_data_world (outputfile key_field : string) (w : world) :
  (Conference.load_existing_data outputfile key_field w).2 = w.
Proof.
  unfold Conference.load_existing_data. unfold bind at 1. unfold os_path_exists.
  destruct (bool_decide (is_Some (files w !! outputfile))); [|done].
  unfold bind at 1. unfold open_r.
  destruct (files w !! outputfile); [|done]. apply for_acc_loader_world.
Qed.

(** The run either raises before the output is opened, or opens it,
    writes the header, loops and closes. *)
Lemma process_csv_cases (net : web) (inputfile outputfile : string) (w : world) :
  (exists e, Conference.process_csv net inputfile outputfile w = (Raise e, w))
  \/ (exists cache f res w2,
        Conference.process_csv net inputfile outputfile w
        = (res, flushed outputfile w2)
        /\ for_ (DictReader f)
             (Conference.process_row net cache (Conference.output_fieldnames f)
                outputfile)
             (World (<[outputfile := []]> (files w))
                    [Conference.output_fieldnames f] (requests w) (log w))
           = (res, w2)).
Proof.
  remember (Conference.process_csv net inputfile outputfile w) as pc eqn:Hpc.
  unfold Conference.process_csv in Hpc. unfold bind at 1 in Hpc.
  pose proof (load_existing_data_world outputfile "title" w) as Hw.
  destruct (Conference.load_existing_data outputfile "title" w) as [[cache|e] w0];
    simpl in Hw; subst w0; [|left; by exists e].
  unfold bind at 1 in Hpc. unfold open_r in Hpc.
  destruct (files w !! inputfile) as [f|]; [|left; by exists FileNotFoundError].
  right. unfold with_open_w in Hpc. unfold bind at 1 in Hpc.
  unfold open_w at 1 in Hpc. unfold bind at 1 in Hpc.
  unfold writeheader, write in Hpc. simpl in Hpc.
  exists cache, f.
  destruct (for_ (DictReader f)
              (Conference.process_row net cache (Conference.output_fieldnames f)
                 outputfile)
              (World (<[outputfile := []]> (files w))
                     [Conference.output_fieldnames f] (requests w) (log w)))
    as [res w2] eqn:Hloop.
  by exists res, w2.
Qed.

(** C4.  Either the run raises before it opens the output and leaves the
    world as it found it, or every record of the output file it leaves,
    read back as the next run reads it, has a bibtex_data that is one of
    "Not Available", "No URL", or a text that is neither and is not blank;
    in every case it is not blank.  This holds for every input, every
    prior output and every web, also when the run is cut short by an
    exception. *)
Theorem C4_bibtex_data_never_blank (net : web) (inputfile outputfile : string)
    (w : world) :
  (exists e, Conference.process_csv net inputfile outputfile w = (Raise e, w))
  \/ (forall r,
        r ∈ prior (files (Conference.process_csv net inputfile outputfile w).2
                   !! outputfile) ->
        exists b, cells r !! "bibtex_data" = Some (Some b)
                  /\ valid b /\ strip b <> "").
Proof.
  destruct (process_csv_cases net inputfile outputfile w)
    as [[e He]|(cache & f & res & w2 & Hrun & Hloop)]; [left; by exists e|].
  right. rewrite Hrun. clear Hrun. intros r.
  set (fn := Conference.output_fieldnames f) in *.
  destruct (process_rows_outcome net cache fn outputfile (DictReader f)
              (World (<[outputfile := []]> (files w)) [fn] (requests w) (log w)))
    as (lines & Hcontent & Hlines).
  rewrite Hloop in Hcontent. simpl in Hcontent. simpl. rewrite lookup_insert_eq.
  fold (content w2 outputfile). rewrite Hcontent.
  unfold content. simpl. rewrite lookup_insert_eq. simpl.
  intros Hr. apply list_elem_of_fmap in Hr as (line & -> & Hline).
  apply list_elem_of_filter in Hline as [_ Hline].
  rewrite Forall_forall in Hlines.
  destruct (Hlines _ Hline) as (r0 & b & Hb & ->).
  exists b. destruct (make_row_written (cell (setitem r0 "bibtex_data" b)) fn)
    as [_ ->].
  rewrite decide_True by apply output_fieldnames_bibtex_data.
  rewrite cell_setitem_eq. split; [done|]. by apply tidy_valid.
Qed.

(** ** A page with the section and no <pre> *)

(** C3, at the failing input.  Three papers; the page of the second has
    the bibtex-section and no <pre> in it.  [fetch_bibtex] raises
    AttributeError there, the [except] clause does not catch it, and the
    run ends: the second record is not written as "Not Available", the
    third is not processed. *)
Theorem C3_section_without_pre_aborts_the_run :
  let net : web := fun url =>
    if bool_decide (url = "http://x/b")
    then Returns (Response true (Some (Tag None)))
    else Returns (Response true (Some (Tag (Some "@article{x}")))) in
  let w := World {[ "in.csv" := [["title"; "bibtex_url"];
                                 ["Paper A"; "http://x/a"];
                                 ["Paper B"; "http://x/b"];
                                 ["Paper C"; "http://x/c"]] ]} [] [] [] in
  let res := Conference.process_csv net "in.csv" "out.csv" w in
  res.1 = Raise AttributeError
  /\ files res.2 !! "out.csv"
     = Some [["title"; "bibtex_url"; "bibtex_data"];
             ["Paper A"; "http://x/a"; "@article{x}"]]
  /\ requests res.2 = ["http://x/a"; "http://x/b"].
Proof. vm_compute. done. Qed.

(** The failures [fetch_bibtex] does contain: a request that raises, a bad
    status, a page without the section.  It returns nothing, and the
    record is written with "Not Available". *)
Lemma fetch_failure_contained (net : web) (fieldnames : list string)
    (out : string) (r : row) (url : string) (w : world) :
  truthy url = true ->
  net url = Fails \/ (exists section, net url = Returns (Response false section))
  \/ net url = Returns (Response true None) ->
  exists msgs,
    Conference.fetch_bibtex net url w
    = (Ok None, World (files w) (buffer w) (requests w ++ [url]) (log w ++ msgs))
    /\ (fetch_new net fieldnames out r url w).2
       = (emit fieldnames out (setitem r "bibtex_data" "Not Available")
            (World (files w) (buffer w) (requests w ++ [url]) (log w ++ msgs))).2.
Proof.
  intros Hurl Hnet.
  assert (Hpre : ~ section_without_pre (net url)).
  { unfold section_without_pre. destruct Hnet as [->|[[s ->]| ->]]; done. }
  assert (Hnone : fetched (net url) = None).
  { destruct Hnet as [->|[[s ->]| ->]]; done. }
  destruct (fetch_bibtex_returns net url w Hpre) as [msgs Hf].
  rewrite Hnone in Hf. exists msgs. split; [done|].
  unfold fetch_new. rewrite Hurl. unfold bind. by rewrite Hf.
Qed.

(** ** Running twice *)

Lemma filter_none {A} (P : A -> Prop) `{forall x, Decision (P x)} (l : list A) :
  (forall x, x ∈ l -> ~ P x) -> filter P l = [].
Proof.
  induction l as [|a l IH]; intros Hl; [done|].
  rewrite filter_cons_False by (apply Hl; by left).
  apply IH. intros x Hx. apply Hl. by right.
Qed.

Lemma last_filter_unique {A B C} `{EqDecision C}
    (key : A -> C) (key' : B -> C) (g : A -> B) (l : list A) (x : A) :
  NoDup (key <$> l) -> x ∈ l ->
  (forall y, y ∈ l -> key' (g y) = key y) ->
  last (filter (fun z => key' z = key x) (g <$> l)) = Some (g x).
Proof.
  induction l as [|a l IH]; intros Hnodup Hx Hkey; [by apply elem_of_nil in Hx|].
  rewrite fmap_cons in Hnodup. apply NoDup_cons in Hnodup as [Ha Hnodup].
  rewrite fmap_cons. destruct (decide (key a = key x)) as [Heq|Hne].
  - assert (x = a) as ->.
    { apply elem_of_cons in Hx as [->|Hx]; [done|]. destruct Ha.
      rewrite Heq. by apply list_elem_of_fmap_2. }
    rewrite filter_cons_True by (rewrite Hkey; [done|by left]).
    rewrite filter_none; [done|]. intros z Hz Hzkey.
    apply list_elem_of_fmap in Hz as (y & -> & Hy). destruct Ha.
    rewrite <- Hzkey, Hkey by by right. by apply list_elem_of_fmap_2.
  - rewrite filter_cons_False by (rewrite Hkey; [done|by left]).
    apply IH; [done| |intros y Hy; apply Hkey; by right].
    apply elem_of_cons in Hx as [->|Hx]; done.
Qed.

Lemma cell_is_Some (r : row) (key : string) :
  cell r key <> "" -> is_Some (cells r !! key).
Proof.
  unfold cell, get. destruct (cells r !! key); [by eexists|]. simpl. done.
Qed.

Lemma always_real_survives (net : web) :
  always_real net -> forall u, ~ section_without_pre (net u).
Proof. intros Hnet u. destruct (Hnet u) as (t & Hu & _). by rewrite Hu. Qed.

(** The second run, row by row: the first run's record is found under the
    row's title, its bibtex_data is what the second run writes, and
    nothing is requested. *)
Lemma second_run_row (net : web) (cache : gmap string row)
    (fieldnames : list string) (rows : list row) (r : row) :
  always_real net ->
  "bibtex_data" ∈ fieldnames ->
  (forall y, y ∈ rows -> fits fieldnames y) ->
  NoDup ((fun y => strip (cell y "title")) <$> rows) ->
  (forall y, y ∈ rows -> strip (cell y "title") <> "") ->
  r ∈ rows ->
  let cache' :=
    index "title"
      ((fun y => make_row fieldnames (record_of net cache fieldnames y)) <$> rows) in
  bibtex_of net cache' r = bibtex_of net cache r /\ fetches_of cache' r = [].
Proof.
  intros Hnet Hbd Hfits Hnodup Hblank Hr cache'.
  assert (Htitle : "title" ∈ fieldnames).
  { apply (Hfits r Hr), cell_is_Some. intros Hc. apply (Hblank r Hr).
    by rewrite Hc. }
  assert (Hentry : cache' !! strip (cell r "title")
                   = Some (make_row fieldnames (record_of net cache fieldnames r))).
  { unfold cache'. rewrite index_lookup.
    rewrite (proj2 (truthy_true _) (Hblank r Hr)).
    apply (last_filter_unique (fun y => strip (cell y "title"))
             (fun z => strip (cell z "title"))); [done|done|].
    intros y _. unfold record_of. rewrite cell_make_row_written by done.
    by rewrite cell_setitem_ne. }
  assert (Hreused : reused cache' (strip (cell r "title"))
                    = if real (strip (bibtex_of net cache r))
                      then Some (strip (bibtex_of net cache r)) else None).
  { unfold reused. rewrite Hentry. unfold record_of.
    rewrite cell_make_row_written by done. by rewrite cell_setitem_eq. }
  unfold bibtex_of at 1, fetches_of. rewrite Hreused.
  unfold bibtex_of. destruct (reused cache (strip (cell r "title"))) as [b|] eqn:Hb.
  - destruct (tidy_reused _ _ _ Hb) as [Hstrip _]. rewrite Hstrip.
    unfold reused in Hb. destruct (cache !! strip (cell r "title")); [|done].
    destruct (real (strip (cell r0 "bibtex_data"))) eqn:Hreal; [|done].
    injection Hb as <-. by rewrite Hreal.
  - destruct (truthy (strip (cell r "bibtex_url"))) eqn:Hu.
    + destruct (Hnet (strip (cell r "bibtex_url"))) as (t & -> & Hreal).
      simpl. pose proof Hreal as (Hne & _)%real_spec.
      rewrite (proj2 (truthy_true _) Hne). by rewrite strip_strip, Hreal.
    + change (real (strip "No URL")) with false. by cbv iota.
Qed.

Lemma prior_written (net : web) (cache : gmap string row)
    (fieldnames : list string) (rows : list row) :
  fieldnames <> [] ->
  prior (Some (fieldnames :: (record_of net cache fieldnames <$> rows)))
  = (fun y => make_row fieldnames (record_of net cache fieldnames y)) <$> rows.
Proof.
  intros Hfn. unfold prior. simpl.
  induction rows as [|r rows IH]; [done|].
  rewrite !fmap_cons, filter_cons_True, fmap_cons, IH; [done|].
  unfold record_of. by destruct fieldnames.
Qed.

Lemma written_rows_loadable (net : web) (cache : gmap string row)
    (fieldnames : list string) (rows : list row) :
  Forall (fun r => get r "title" "" <> None /\ get r "bibtex_data" "" <> None)
    ((fun y => make_row fieldnames (record_of net cache fieldnames y)) <$> rows).
Proof.
  apply Forall_fmap, Forall_forall. intros r _. simpl. unfold record_of, get.
  destruct (make_row_written
              (cell (setitem r "bibtex_data" (bibtex_of net cache r))) fieldnames)
    as [_ Hcells].
  rewrite !Hcells. split; by case_decide.
Qed.

Lemma concat_nils {A B} (f : A -> list B) (l : list A) :
  (forall x, x ∈ l -> f x = []) -> concat (f <$> l) = [].
Proof.
  induction l as [|a l IH]; intros Hl; [done|].
  rewrite fmap_cons. cbn [concat]. rewrite Hl by by left.
  apply IH. intros x Hx. apply Hl. by right.
Qed.

Lemma record_of_ext (net : web) (c1 c2 : gmap string row)
    (fieldnames : list string) (r : row) :
  bibtex_of net c1 r = bibtex_of net c2 r ->
  record_of net c1 fieldnames r = record_of net c2 fieldnames r.
Proof. unfold record_of. by intros ->. Qed.

(** C2 (amended).  On an input whose rows are well formed and whose
    trimmed titles are non-empty and pairwise distinct, with a web that
    always answers with a real citation, and an output path other than
    the input path: the run completes, a second run that finds the first
    run's output completes too, leaves every file as the first run left
    it, and requests nothing. *)
Theorem C2_second_run_identical (net : web) (inputfile outputfile : string)
    (w : world) (f : csv) :
  inputfile <> outputfile ->
  files w !! inputfile = Some f ->
  rectangular f ->
  loadable (files w !! outputfile) ->
  NoDup ((fun r => strip (cell r "title")) <$> DictReader f) ->
  Forall (fun r => strip (cell r "title") <> "") (DictReader f) ->
  always_real net ->
  exists w1 w2,
    Conference.process_csv net inputfile outputfile w = (Ok tt, w1)
    /\ Conference.process_csv net inputfile outputfile w1 = (Ok tt, w2)
    /\ files w2 = files w1
    /\ requests w2 = requests w1.
Proof.
  intros Hpaths Hin Hf Ho Hnodup Hblank Hnet.
  pose proof (always_real_survives net Hnet) as Hpre.
  rewrite Forall_forall in Hblank.
  set (fn := Conference.output_fieldnames f).
  set (cache := index "title" (prior (files w !! outputfile))).
  assert (Hfn : fn <> []).
  { intros Hnil. pose proof (output_fieldnames_bibtex_data f) as Hbd.
    fold fn in Hbd. rewrite Hnil in Hbd. by apply elem_of_nil in Hbd. }
  destruct (process_csv_run net inputfile outputfile w f Hin Hf Ho Hpre)
    as [msgs1 Hrun1].
  fold fn cache in Hrun1.
  set (w1 := World (<[outputfile := fn :: (record_of net cache fn <$> DictReader f)]>
                      (files w))
                   [] (requests w ++ concat (fetches_of cache <$> DictReader f))
                   (log w ++ msgs1)) in *.
  assert (Hin1 : files w1 !! inputfile = Some f).
  { unfold w1. simpl. by rewrite lookup_insert_ne. }
  assert (Hout1 : prior (files w1 !! outputfile)
                  = (fun y => make_row fn (record_of net cache fn y)) <$> DictReader f).
  { unfold w1. simpl. rewrite lookup_insert_eq. by apply prior_written. }
  assert (Ho1 : loadable (files w1 !! outputfile)).
  { unfold loadable. rewrite Hout1. apply written_rows_loadable. }
  destruct (process_csv_run net inputfile outputfile w1 f Hin1 Hf Ho1 Hpre)
    as [msgs2 Hrun2].
  fold fn in Hrun2. rewrite Hout1 in Hrun2.
  assert (Hrows : forall r, r ∈ DictReader f ->
            bibtex_of net
              (index "title"
                 ((fun y => make_row fn (record_of net cache fn y)) <$> DictReader f)) r
            = bibtex_of net cache r
            /\ fetches_of
                 (index "title"
                    ((fun y => make_row fn (record_of net cache fn y)) <$> DictReader f)) r
               = []).
  { intros r Hr. apply second_run_row; try done.
    - apply output_fieldnames_bibtex_data.
    - intros y Hy. destruct (rectangular_rows f y Hf Hy) as [[Hrest Hdom] _].
      split; [done|]. intros k Hk. by apply output_fieldnames_header, Hdom. }
  eexists w1, _. split; [exact Hrun1|]. split; [exact Hrun2|].
  cbn [files requests]. split.
  - unfold w1. cbn [files]. rewrite insert_insert_eq. f_equal. f_equal. apply Forall_fmap_ext, Forall_forall. intros r Hr.
    apply record_of_ext, (Hrows r Hr).
  - rewrite concat_nils; [by rewrite app_nil_r|].
    intros r Hr. apply (Hrows r Hr).
Qed.

(** ** The claims at concrete inputs *)

(** Closes a decidable statement about concrete data by evaluation. *)
Ltac by_evaluation := apply (bool_decide_unpack _); vm_compute; exact I.

Lemma C1_cached_bibtex_reused_witness :
  requests
    (Conference.process_row (fun _ => Fails)
       {[ "A" := make_row out_header ["A"; "http://old/a"; "@a"] ]}
       out_header "out.csv" (make_row header ["A"; "http://new/a"])
       (disk {[ "out.csv" := [out_header] ]})).2
  = [].
Proof.
  apply (C1_cached_bibtex_reused (fun _ => Fails)
           {[ "A" := make_row out_header ["A"; "http://old/a"; "@a"] ]}
           out_header "out.csv" (make_row header ["A"; "http://new/a"])
           (make_row out_header ["A"; "http://old/a"; "@a"])
           "A" "http://new/a" "@a" (disk {[ "out.csv" := [out_header] ]}));
    reflexivity.
Defined.

(** C1 as stated fails.  The title "A" has an entry with a real
    bibtex_data; the input record has another URL.  The record written is
    the input record with the cached bibtex_data, not the cached entry. *)
Lemma C1_cached_entry_is_not_the_output_record :
  let entry := make_row out_header ["A"; "http://old/a"; "@a"] in
  let w := disk {[ "in.csv" := [header; ["A"; "http://new/a"]];
                   "out.csv" := [out_header; ["A"; "http://old/a"; "@a"]] ]} in
  let res := Conference.process_csv (fun _ => Fails) "in.csv" "out.csv" w in
  match Conference.load_existing_data "out.csv" "title" w with
  | (Ok processed_data, _) => processed_data !! strip "A" = Some entry
  | _ => False
  end
  /\ get entry "bibtex_data" "" = Some "@a"
  /\ real (strip "@a") = true
  /\ dict_to_list out_header entry = Ok ["A"; "http://old/a"; "@a"]
  /\ files res.2 !! "out.csv" = Some [out_header; ["A"; "http://new/a"; "@a"]]
  /\ ["A"; "http://new/a"; "@a"] <> ["A"; "http://old/a"; "@a"].
Proof. vm_compute. repeat split; done. Qed.

Lemma C2_second_run_identical_witness :
  exists w1 w2,
    Conference.process_csv web_constant "in.csv" "out.csv"
      (disk {[ "in.csv" := two_papers ]}) = (Ok tt, w1)
    /\ Conference.process_csv web_constant "in.csv" "out.csv" w1 = (Ok tt, w2)
    /\ files w2 = files w1
    /\ requests w2 = requests w1.
Proof.
  apply (C2_second_run_identical web_constant "in.csv" "out.csv"
           (disk {[ "in.csv" := two_papers ]}) two_papers).
  - done.
  - reflexivity.
  - by_evaluation.
  - by_evaluation.
  - by_evaluation.
  - by_evaluation.
  - intros u. exists "@misc{any}". split; reflexivity.
Defined.

(** C2 as stated fails, in three ways.  Two records with one title and
    two URLs: the second run gives the first record the citation of the
    second.  A record with a blank title, or whose page holds an empty
    <pre>: the second run requests its URL again. *)
Lemma C2_second_run_differs :
  (let w := disk {[ "in.csv" := [header; ["A"; "u1"]; ["A"; "u2"]] ]} in
   let w1 := (Conference.process_csv web_by_url "in.csv" "out.csv" w).2 in
   let w2 := (Conference.process_csv web_by_url "in.csv" "out.csv" w1).2 in
   files w1 !! "out.csv"
   = Some [out_header; ["A"; "u1"; "@misc{u1}"]; ["A"; "u2"; "@misc{u2}"]]
   /\ files w2 !! "out.csv"
      = Some [out_header; ["A"; "u1"; "@misc{u2}"]; ["A"; "u2"; "@misc{u2}"]]
   /\ files w2 !! "out.csv" <> files w1 !! "out.csv")
  /\ (let w := disk {[ "in.csv" := [header; [" "; "u1"]] ]} in
      let w1 := (Conference.process_csv web_by_url "in.csv" "out.csv" w).2 in
      let w2 := (Conference.process_csv web_by_url "in.csv" "out.csv" w1).2 in
      requests w1 = ["u1"] /\ requests w2 = ["u1"; "u1"])
  /\ (let w := disk {[ "in.csv" := [header; ["A"; "u1"]] ]} in
      let w1 := (Conference.process_csv (fun _ => citing " ") "in.csv" "out.csv" w).2 in
      let w2 := (Conference.process_csv (fun _ => citing " ") "in.csv" "out.csv" w1).2 in
      requests w1 = ["u1"] /\ requests w2 = ["u1"; "u1"]).
Proof. vm_compute. repeat split; done. Qed.

Lemma C5_blank_url_witness :
  (Conference.process_row web_constant ∅ out_header "out.csv"
     (make_row header ["Paper B"; " "]) (disk {[ "out.csv" := [out_header] ]})).2
  = disk {[ "out.csv" := [out_header; ["Paper B"; " "; "No URL"]] ]}.
Proof.
  pose proof (C5_blank_url web_constant ∅ out_header "out.csv"
                (make_row header ["Paper B"; " "])
                (disk {[ "out.csv" := [out_header] ]})) as H.
  destruct H as [-> _]; [done|done|done|reflexivity|]. reflexivity.
Defined.

(** C5 as stated fails.  The first record has no URL and shares its title
    with the second.  The first run writes "No URL" for it; the second run
    finds the citation of the second record under the title and writes
    that, for a record whose URL is blank. *)
Lemma C5_blank_url_gets_cached_bibtex :
  let w := disk {[ "in.csv" := [header; ["A"; ""]; ["A"; "http://x/a"]] ]} in
  let w1 := (Conference.process_csv web_constant "in.csv" "out.csv" w).2 in
  let w2 := (Conference.process_csv web_constant "in.csv" "out.csv" w1).2 in
  files w1 !! "out.csv"
  = Some [out_header; ["A"; ""; "No URL"]; ["A"; "http://x/a"; "@misc{any}"]]
  /\ files w2 !! "out.csv"
     = Some [out_header; ["A"; ""; "@misc{any}"]; ["A"; "http://x/a"; "@misc{any}"]]
  /\ strip "" = ""
  /\ "@misc{any}" <> "No URL".
Proof. vm_compute. repeat split; done. Qed.

Lemma X18_loader_mapping_witness :
  let rows := [out_header; ["A"; "u1"; "first"]; [" "; "u2"; "blank"];
               [" A "; "u3"; "last"]] in
  exists m,
    Conference.load_existing_data "out.csv" "title" (disk {[ "out.csv" := rows ]})
    = (Ok m, disk {[ "out.csv" := rows ]})
    /\ m !! "A" = Some (make_row out_header [" A "; "u3"; "last"])
    /\ m !! "" = None.
Proof.
  intros rows.
  destruct (X18_loader_mapping "out.csv" "title" (disk {[ "out.csv" := rows ]}))
    as (m & Hm & _ & Hk & _); [by_evaluation|].
  exists m. split; [exact Hm|]. rewrite !Hk. split; reflexivity.
Defined.

(** The reporter on five input records and an output with three real
    citations and two "Not Available". *)
Lemma C7_print_statistics_witness :
  let w := disk {[ "in.csv" := [header; ["A"; "a"]; ["B"; "b"]; ["C"; "c"];
                                ["D"; "d"]; ["E"; "e"]];
                   "out.csv" := [out_header; ["A"; "a"; "@a"];
                                 ["B"; "b"; "Not Available"]; ["C"; "c"; "@c"];
                                 ["D"; "d"; "Not Available"]; ["E"; "e"; "@e"]] ]} in
  Conference.print_statistics "in.csv" "out.csv" w
  = (Ok tt,
     World (files w) [] []
       [(ERROR, TotalEntries "in.csv" 5); (ERROR, SuccessEntries "out.csv" 3)]).
Proof.
  intros w.
  rewrite (C7_print_statistics "in.csv" "out.csv" w); [reflexivity|by_evaluation].
Defined.

Lemma C9_output_after_k_records_witness :
  exists w',
    Conference.process_csv_killed 1 web_of_paper_a "in.csv" "out.csv"
      (disk {[ "in.csv" := two_papers ]}) = (Ok tt, w')
    /\ files w' !! "out.csv"
       = Some [out_header; ["Paper A"; "http://x/a"; "@inproceedings{a,...}"]]
    /\ buffer w' = []
    /\ length (prior (files w' !! "out.csv")) = 1.
Proof.
  destruct (C9_output_after_k_records 1 web_of_paper_a "in.csv" "out.csv"
              (disk {[ "in.csv" := two_papers ]}) two_papers)
    as (w' & Hrun & Hfile & Hbuffer & _ & _ & _ & Hcount).
  - reflexivity.
  - by_evaluation.
  - by_evaluation.
  - intros u. unfold section_without_pre, web_of_paper_a.
    by case_bool_decide.
  - vm_compute. split; lia.
  - exists w'. split; [exact Hrun|]. split; [exact Hfile|].
    split; [exact Hbuffer|exact Hcount].
Defined.

(** C9 as stated fails in two ways.  Killed while the first record is
    being fetched, the run leaves an empty file: the header (30 bytes) is
    still pending, and dies with the process.  And a run that resumes an
    output of three records and is killed after its first record leaves
    that record alone: the stored records of the second and third paper,
    neither of them processed yet, are gone with the truncation, which is
    more than the record in flight. *)
Lemma C9_header_or_stored_records_lost :
  let res := Conference.process_csv_killed 0 web_of_paper_a "in.csv" "out.csv"
               (disk {[ "in.csv" := two_papers ]}) in
  let stored := [out_header; ["Paper A"; "http://x/a"; "@a"];
                 ["Paper B"; "http://x/b"; "@b"]; ["Paper C"; "http://x/c"; "@c"]] in
  let resumed := Conference.process_csv_killed 1 web_constant "in.csv" "out.csv"
                   (disk {[ "in.csv" := [header; ["Paper A"; "http://x/a"];
                                         ["Paper B"; "http://x/b"];
                                         ["Paper C"; "http://x/c"]];
                            "out.csv" := stored ]}) in
  (res.1 = Ok tt
   /\ files res.2 !! "out.csv" = Some []
   /\ buffer res.2 = [out_header]
   /\ files res.2 !! "out.csv" <> Some [out_header])
  /\ (resumed.1 = Ok tt
      /\ files resumed.2 !! "out.csv"
         = Some [out_header; ["Paper A"; "http://x/a"; "@a"]]
      /\ buffer resumed.2 = []
      /\ length (prior (Some stored)) = 3
      /\ length (prior (files resumed.2 !! "out.csv")) = 1).
Proof. vm_compute. repeat split; done. Qed.

Lemma C10_one_fetch_per_record_witness :
  exists w',
    Conference.process_csv web_constant "in.csv" "out.csv"
      (disk {[ "in.csv" := [header; ["A"; "http://x/a"]; ["A"; ""];
                            [" A "; "http://x/a"]] ]})
    = (Ok tt, w')
    /\ requests w' = ["http://x/a"; "http://x/a"].
Proof.
  destruct (C10_one_fetch_per_record web_constant "in.csv" "out.csv"
              (disk {[ "in.csv" := [header; ["A"; "http://x/a"]; ["A"; ""];
                                    [" A "; "http://x/a"]] ]})
              [header; ["A"; "http://x/a"]; ["A"; ""]; [" A "; "http://x/a"]])
    as (w' & Hrun & Hrequests).
  - reflexivity.
  - by_evaluation.
  - reflexivity.
  - intros u. discriminate.
  - exists w'. split; [exact Hrun|]. rewrite Hrequests. reflexivity.
Defined.

(** The warning of the reporter is a call of [logger.warning]: the
    journal script shows it, the conference script, whose logger shows
    errors only, does not. *)
Lemma warning_shown_by_level (msg : message) :
  shown Conference.basicConfig_level [(WARNING, msg)] = []
  /\ shown Journal.basicConfig_level [(WARNING, msg)] = [(WARNING, msg)].
Proof. split; reflexivity. Qed.

(** ** Failures that stay inside their record *)

Lemma record_of_local (net net' : web) (cache : gmap string row)
    (fieldnames : list string) (r : row) :
  net (strip (cell r "bibtex_url")) = net' (strip (cell r "bibtex_url")) ->
  record_of net cache fieldnames r = record_of net' cache fieldnames r.
Proof. intros Hnet. unfold record_of, bibtex_of. by rewrite Hnet. Qed.

(** X1.  Fetch failure isolation, for the failures [fetch_bibtex]
    contains.  Two webs whose pages [fetch_bibtex] survives, the same
    input and prior output: both runs complete, and a record whose URL
    gets the same answer from both webs is written the same by both,
    whatever the webs answer for the other records. *)
Theorem X1_fetch_failure_isolated (net net' : web)
    (inputfile outputfile : string) (w : world) (f : csv) :
  files w !! inputfile = Some f ->
  rectangular f ->
  loadable (files w !! outputfile) ->
  (forall u, ~ section_without_pre (net u)) ->
  (forall u, ~ section_without_pre (net' u)) ->
  exists w1 w1' lines lines',
    Conference.process_csv net inputfile outputfile w = (Ok tt, w1)
    /\ Conference.process_csv net' inputfile outputfile w = (Ok tt, w1')
    /\ files w1 !! outputfile = Some (Conference.output_fieldnames f :: lines)
    /\ files w1' !! outputfile = Some (Conference.output_fieldnames f :: lines')
    /\ forall i r,
         DictReader f !! i = Some r ->
         net (strip (cell r "bibtex_url")) = net' (strip (cell r "bibtex_url")) ->
         lines !! i = lines' !! i.
Proof.
  intros Hin Hf Ho Hnet Hnet'.
  destruct (process_csv_run net inputfile outputfile w f Hin Hf Ho Hnet)
    as [msgs Hrun].
  destruct (process_csv_run net' inputfile outputfile w f Hin Hf Ho Hnet')
    as [msgs' Hrun'].
  eexists _, _, _, _. split; [exact Hrun|]. split; [exact Hrun'|].
  cbn [files]. rewrite !lookup_insert_eq. split; [done|]. split; [done|].
  intros i r Hr Hsame. rewrite !list_lookup_fmap, Hr. simpl.
  f_equal. by apply record_of_local.
Qed.

(** X2.  A failed fetch becomes "Not Available".  In a run over
    well-formed rows and pages [fetch_bibtex] survives, a record whose
    title is not reused, whose trimmed URL is not empty, and whose request
    raises, or is answered with a bad status or with a page without the
    section, is written with bibtex_data "Not Available". *)
Theorem X2_failed_fetch_not_available (net : web)
    (inputfile outputfile : string) (w : world) (f : csv) :
  files w !! inputfile = Some f ->
  rectangular f ->
  loadable (files w !! outputfile) ->
  (forall u, ~ section_without_pre (net u)) ->
  exists w1 lines,
    Conference.process_csv net inputfile outputfile w = (Ok tt, w1)
    /\ files w1 !! outputfile = Some (Conference.output_fieldnames f :: lines)
    /\ forall i r,
         DictReader f !! i = Some r ->
         reused (index "title" (prior (files w !! outputfile)))
                (strip (cell r "title")) = None ->
         strip (cell r "bibtex_url") <> "" ->
         net (strip (cell r "bibtex_url")) = Fails
         \/ (exists section,
               net (strip (cell r "bibtex_url")) = Returns (Response false section))
         \/ net (strip (cell r "bibtex_url")) = Returns (Response true None) ->
         lines !! i
         = Some (cell (setitem r "bibtex_data" "Not Available")
                   <$> Conference.output_fieldnames f).
Proof.
  intros Hin Hf Ho Hnet.
  destruct (process_csv_run net inputfile outputfile w f Hin Hf Ho Hnet)
    as [msgs Hrun].
  eexists _, _. split; [exact Hrun|].
  cbn [files]. rewrite lookup_insert_eq. split; [done|].
  intros i r Hr Hreused Hurl Hfail. rewrite list_lookup_fmap, Hr. simpl.
  unfold record_of, bibtex_of. rewrite Hreused.
  rewrite (proj2 (truthy_true _) Hurl).
  by destruct Hfail as [->|[[section ->]| ->]].
Qed.

Lemma X1_fetch_failure_isolated_witness :
  exists w1 w1' lines lines',
    Conference.process_csv web_of_paper_a "in.csv" "out.csv"
      (disk {[ "in.csv" := two_papers ]}) = (Ok tt, w1)
    /\ Conference.process_csv (fun _ => Fails) "in.csv" "out.csv"
         (disk {[ "in.csv" := two_papers ]}) = (Ok tt, w1')
    /\ files w1 !! "out.csv" = Some (out_header :: lines)
    /\ files w1' !! "out.csv" = Some (out_header :: lines')
    /\ lines !! 1 = lines' !! 1.
Proof.
  destruct (X1_fetch_failure_isolated web_of_paper_a (fun _ => Fails)
              "in.csv" "out.csv" (disk {[ "in.csv" := two_papers ]}) two_papers)
    as (w1 & w1' & lines & lines' & H1 & H1' & Hl & Hl' & Hsame).
  - reflexivity.
  - by_evaluation.
  - by_evaluation.
  - intros u. unfold section_without_pre, web_of_paper_a. by case_bool_decide.
  - intros u. discriminate.
  - exists w1, w1', lines, lines'.
    split; [exact H1|]. split; [exact H1'|].
    split; [exact Hl|]. split; [exact Hl'|].
    apply (Hsame 1 (make_row header ["Paper B"; ""])); vm_compute; reflexivity.
Defined.

Lemma X2_failed_fetch_not_available_witness :
  exists w1 lines,
    Conference.process_csv (fun _ => Fails) "in.csv" "out.csv"
      (disk {[ "in.csv" := two_papers ]}) = (Ok tt, w1)
    /\ files w1 !! "out.csv" = Some (out_header :: lines)
    /\ lines !! 0 = Some ["Paper A"; "http://x/a"; "Not Available"].
Proof.
  destruct (X2_failed_fetch_not_available (fun _ => Fails)
              "in.csv" "out.csv" (disk {[ "in.csv" := two_papers ]}) two_papers)
    as (w1 & lines & H1 & Hl & Hna).
  - reflexivity.
  - by_evaluation.
  - by_evaluation.
  - intros u. discriminate.
  - exists w1, lines. split; [exact H1|]. split; [exact Hl|].
    rewrite (Hna 0 (make_row header ["Paper A"; "http://x/a"])).
    + vm_compute. reflexivity.
    + vm_compute. reflexivity.
    + vm_compute. reflexivity.
    + vm_compute. discriminate.
    + by left.
Defined.

(** ** Resuming a killed run *)

Lemma written_title (net : web) (cache : gmap string row)
    (fieldnames : list string) (r : row) :
  fits fieldnames r -> strip (cell r "title") <> "" ->
  strip (cell (make_row fieldnames (record_of net cache fieldnames r)) "title")
  = strip (cell r "title").
Proof.
  intros Hfits Hblank.
  assert (Htitle : "title" ∈ fieldnames).
  { apply Hfits, cell_is_Some. intros Hc. apply Hblank. by rewrite Hc. }
  unfold record_of. rewrite cell_make_row_written by done.
  by rewrite cell_setitem_ne.
Qed.

(** A row whose title is not among the rows already written finds
    nothing under its title. *)
Lemma later_row_not_cached (net : web) (cache : gmap string row)
    (fieldnames : list string) (done_rows : list row) (r : row) :
  (forall y, y ∈ done_rows -> fits fieldnames y) ->
  (forall y, y ∈ done_rows -> strip (cell y "title") <> "") ->
  strip (cell r "title") ∉ (fun y => strip (cell y "title")) <$> done_rows ->
  index "title"
    ((fun y => make_row fieldnames (record_of net cache fieldnames y)) <$> done_rows)
    !! strip (cell r "title") = None.
Proof.
  intros Hfits Hblank Hnew. rewrite index_lookup.
  destruct (truthy (strip (cell r "title"))); [|done].
  rewrite filter_none; [done|]. intros z Hz Hkey.
  apply list_elem_of_fmap in Hz as (y & -> & Hy).
  rewrite written_title in Hkey by auto.
  apply Hnew. rewrite <- Hkey.
  by apply (list_elem_of_fmap_2 (fun y => strip (cell y "title"))).
Qed.

(** X3.  Resume correctness.  A fresh run (no prior records) over
    well-formed rows with non-empty, pairwise distinct trimmed titles and
    a web that always answers with a real citation is killed after [k]
    records and started again.  The second run completes, requests only
    the URLs of the records after the first [k], and leaves the files
    that the run would have left had it not been killed. *)
Theorem X3_resume_after_kill (k : nat) (net : web)
    (inputfile outputfile : string) (w : world) (f : csv) :
  inputfile <> outputfile ->
  files w !! inputfile = Some f ->
  rectangular f ->
  prior (files w !! outputfile) = [] ->
  NoDup ((fun r => strip (cell r "title")) <$> DictReader f) ->
  Forall (fun r => strip (cell r "title") <> "") (DictReader f) ->
  always_real net ->
  exists w1 w2 w',
    Conference.process_csv_killed k net inputfile outputfile w = (Ok tt, w1)
    /\ Conference.process_csv net inputfile outputfile w1 = (Ok tt, w2)
    /\ Conference.process_csv net inputfile outputfile w = (Ok tt, w')
    /\ files w2 = files w'
    /\ requests w2
       = requests w1
         ++ filter (fun u => u <> "")
              ((fun r => strip (cell r "bibtex_url")) <$> drop k (DictReader f)).
Proof.
  intros Hpaths Hin Hf Hprior Hnodup Hblank Hnet.
  pose proof (always_real_survives net Hnet) as Hpre.
  rewrite Forall_forall in Hblank.
  assert (Ho : loadable (files w !! outputfile)).
  { unfold loadable. rewrite Hprior. apply Forall_nil_2. }
  set (fn := Conference.output_fieldnames f).
  assert (Hfn : fn <> []).
  { intros Hnil. pose proof (output_fieldnames_bibtex_data f) as Hbd.
    fold fn in Hbd. rewrite Hnil in Hbd. by apply elem_of_nil in Hbd. }
  assert (Hfits : forall y, y ∈ DictReader f -> fits fn y).
  { intros y Hy. destruct (rectangular_rows f y Hf Hy) as [[Hrest Hdom] _].
    split; [done|]. intros c Hc. by apply output_fieldnames_header, Hdom. }
  (* the killed run *)
  destruct (process_csv_killed_run k net inputfile outputfile w f Hin Hf Ho Hpre)
    as [msgs1 Hkilled].
  rewrite Hprior in Hkilled. change (index "title" []) with (∅ : gmap string row) in Hkilled.
  fold fn in Hkilled.
  set (done_rows := take k (DictReader f)) in *.
  set (w1 := World _ _ _ _) in Hkilled.
  (* the run that is not killed *)
  destruct (process_csv_run net inputfile outputfile w f Hin Hf Ho Hpre)
    as [msgs Hfull].
  rewrite Hprior in Hfull. change (index "title" []) with (∅ : gmap string row) in Hfull.
  fold fn in Hfull.
  (* the second run *)
  assert (Hin1 : files w1 !! inputfile = Some f).
  { unfold w1. cbn [files]. by rewrite lookup_insert_ne. }
  assert (Hout1 : prior (files w1 !! outputfile)
                  = (fun y => make_row fn (record_of net ∅ fn y)) <$> done_rows).
  { unfold w1. cbn [files]. rewrite lookup_insert_eq.
    destruct done_rows eqn:Hd; [done|]. rewrite <- Hd. by apply prior_written. }
  assert (Ho1 : loadable (files w1 !! outputfile)).
  { unfold loadable. rewrite Hout1. apply written_rows_loadable. }
  destruct (process_csv_run net inputfile outputfile w1 f Hin1 Hf Ho1 Hpre)
    as [msgs2 Hsecond].
  fold fn in Hsecond. rewrite Hout1 in Hsecond.
  set (cache' := index "title"
                   ((fun y => make_row fn (record_of net ∅ fn y)) <$> done_rows)) in *.
  (* the rows, split at k *)
  pose proof (take_drop k (DictReader f)) as Hsplit. fold done_rows in Hsplit.
  rewrite <- Hsplit, fmap_app in Hnodup.
  apply NoDup_app in Hnodup as (Hnodup_done & Hdisjoint & _).
  assert (Hdone_in : forall y, y ∈ done_rows -> y ∈ DictReader f).
  { intros y Hy. rewrite <- Hsplit. apply elem_of_app. by left. }
  assert (Hlater_in : forall y, y ∈ drop k (DictReader f) -> y ∈ DictReader f).
  { intros y Hy. rewrite <- Hsplit. apply elem_of_app. by right. }
  assert (Hdone : forall r, r ∈ done_rows ->
            bibtex_of net cache' r = bibtex_of net ∅ r /\ fetches_of cache' r = []).
  { intros r Hr. apply second_run_row; auto.
    apply output_fieldnames_bibtex_data. }
  assert (Hlater : forall r, r ∈ drop k (DictReader f) ->
            reused cache' (strip (cell r "title")) = None).
  { intros r Hr. unfold reused, cache'.
    rewrite later_row_not_cached; auto.
    intros Hdup. apply (Hdisjoint _ Hdup).
    by apply (list_elem_of_fmap_2 (fun y => strip (cell y "title"))). }
  eexists w1, _, _. split; [exact Hkilled|]. split; [exact Hsecond|].
  split; [exact Hfull|]. cbn [files requests]. split.
  - unfold w1. cbn [files]. rewrite insert_insert_eq. f_equal. f_equal.
    apply Forall_fmap_ext, Forall_forall. intros r Hr. apply record_of_ext.
    rewrite <- Hsplit in Hr. apply elem_of_app in Hr as [Hr|Hr].
    + apply (Hdone r Hr).
    + unfold bibtex_of. rewrite (Hlater r Hr). unfold reused.
      by rewrite lookup_empty.
  - f_equal. rewrite <- Hsplit at 1. rewrite fmap_app, concat_app.
    rewrite concat_nils by (intros r Hr; apply (Hdone r Hr)).
    rewrite app_nil_l, <- fetches_of_empty. f_equal.
    apply Forall_fmap_ext, Forall_forall. intros r Hr.
    unfold fetches_of. rewrite (Hlater r Hr). unfold reused.
    by rewrite lookup_empty.
Qed.

Lemma X3_resume_after_kill_witness :
  exists w1 w2 w',
    Conference.process_csv_killed 1 web_constant "in.csv" "out.csv"
      (disk {[ "in.csv" := [header; ["A"; "u1"]; ["B"; "u2"]; ["C"; "u3"]] ]})
    = (Ok tt, w1)
    /\ Conference.process_csv web_constant "in.csv" "out.csv" w1 = (Ok tt, w2)
    /\ Conference.process_csv web_constant "in.csv" "out.csv"
         (disk {[ "in.csv" := [header; ["A"; "u1"]; ["B"; "u2"]; ["C"; "u3"]] ]})
       = (Ok tt, w')
    /\ files w2 = files w'
    /\ requests w2 = requests w1 ++ ["u2"; "u3"].
Proof.
  apply (X3_resume_after_kill 1 web_constant "in.csv" "out.csv"
           (disk {[ "in.csv" := [header; ["A"; "u1"]; ["B"; "u2"]; ["C"; "u3"]] ]})
           [header; ["A"; "u1"]; ["B"; "u2"]; ["C"; "u3"]]).
  - done.
  - reflexivity.
  - by_evaluation.
  - reflexivity.
  - by_evaluation.
  - by_evaluation.
  - intros u. exists "@misc{any}". split; reflexivity.
Defined.



(** ** What [fetch_bibtex] promises its caller *)

(** X4.  [fetch_bibtex], case by case.  Whatever [requests.get] does, the
    function changes no file and calls it once, with the URL it was
    given.  When the call raises a RequestException, or the response has
    a bad status, the function returns nothing and has logged one error.
    On a good response without the section it returns nothing and has
    logged one warning; with the section and a <pre> in it, it returns
    the text of the <pre>, trimmed, and logs nothing; with the section
    and no <pre> it raises AttributeError and logs nothing. *)
Theorem X4_fetch_bibtex_contract (net : web) (url : string) (w : world) :
  let res := Conference.fetch_bibtex net url w in
  files res.2 = files w
  /\ buffer res.2 = buffer w
  /\ requests res.2 = requests w ++ [url]
  /\ (net url = Fails ->
      res.1 = Ok None /\ log res.2 = log w ++ [(ERROR, FailedToFetch url)])
  /\ (forall section, net url = Returns (Response false section) ->
      res.1 = Ok None /\ log res.2 = log w ++ [(ERROR, FailedToFetch url)])
  /\ (net url = Returns (Response true None) ->
      res.1 = Ok None /\ log res.2 = log w ++ [(WARNING, NoBibtexSection url)])
  /\ (forall t, net url = Returns (Response true (Some (Tag (Some t)))) ->
      res.1 = Ok (Some (strip t)) /\ strip (strip t) = strip t
      /\ log res.2 = log w)
  /\ (net url = Returns (Response true (Some (Tag None))) ->
      res.1 = Raise AttributeError /\ log res.2 = log w).
Proof.
  unfold Conference.fetch_bibtex, try_except_RequestException, bind,
    requests_get, raise_for_status.
  destruct (net url) as [|[[] [[[t|]]|]]]; simpl;
    repeat split; intros; simplify_eq; eauto using strip_strip.
Qed.

Lemma X4_fetch_bibtex_contract_witness :
  let res := Conference.fetch_bibtex web_of_paper_a "http://x/a" (disk ∅) in
  res.1 = Ok (Some "@inproceedings{a,...}")
  /\ requests res.2 = ["http://x/a"]
  /\ log res.2 = [].
Proof.
  intros res.
  destruct (X4_fetch_bibtex_contract web_of_paper_a "http://x/a" (disk ∅))
    as (_ & _ & Hrequests & _ & _ & _ & Htext & _).
  destruct (Htext "@inproceedings{a,...}" eq_refl) as (Hres & _ & Hlog).
  split; [exact Hres|]. split; [exact Hrequests|exact Hlog].
Defined.

(** ** What a run leaves alone *)

Lemma extends_refl (out : string) (n : nat) (w : world) : extends out n w w.
Proof.
  split; [done|]. split; [exists []|exists []]; rewrite app_nil_r; [|done].
  split; [done|]. simpl. lia.
Qed.

Lemma extends_trans (out : string) (n m : nat) (w1 w2 w3 : world) :
  extends out n w1 w2 -> extends out m w2 w3 -> extends out (n + m) w1 w3.
Proof.
  intros (Hf1 & (u1 & Hr1 & Hn1) & (m1 & Hl1)) (Hf2 & (u2 & Hr2 & Hn2) & (m2 & Hl2)).
  split; [|split].
  - intros p Hp. by rewrite Hf2, Hf1.
  - exists (u1 ++ u2). rewrite Hr2, Hr1, app_assoc, length_app. split; [done|lia].
  - exists (m1 ++ m2). by rewrite Hl2, Hl1, app_assoc.
Qed.

Lemma extends_mono (out : string) (n m : nat) (w w' : world) :
  n <= m -> extends out n w w' -> extends out m w w'.
Proof.
  intros Hnm (Hf & (u & Hr & Hn) & Hl). split; [done|]. split; [|done].
  exists u. split; [done|lia].
Qed.

Lemma flushed_extends (out : string) (w : world) : extends out 0 w (flushed out w).
Proof.
  split; [|split].
  - intros p Hp. simpl. by rewrite lookup_insert_ne.
  - exists []. simpl. by rewrite app_nil_r.
  - exists []. simpl. by rewrite app_nil_r.
Qed.

Lemma emit_extends (fieldnames : list string) (out : string) (d : row) (w : world) :
  extends out 0 w (emit fieldnames out d w).2.
Proof.
  destruct (wrong_fields fieldnames d) eqn:Hd.
  - rewrite emit_raise by done. apply extends_refl.
  - rewrite emit_ok by done. split; [|split]; simpl.
    + intros p Hp. by rewrite lookup_insert_ne.
    + exists []. by rewrite app_nil_r.
    + exists []. by rewrite app_nil_r.
Qed.

Lemma fetch_bibtex_extends (net : web) (out url : string) (w : world) :
  extends out 1 w (Conference.fetch_bibtex net url w).2.
Proof.
  destruct (fetch_bibtex_total net url w) as (res & msgs & -> & _).
  split; [done|]. split; [by exists [url]|by exists msgs].
Qed.

Lemma fetch_new_extends (net : web) (fieldnames : list string) (out : string)
    (r : row) (url : string) (w : world) :
  extends out 1 w (fetch_new net fieldnames out r url w).2.
Proof.
  unfold fetch_new. destruct (truthy url).
  - unfold bind. pose proof (fetch_bibtex_extends net out url w) as Hf.
    destruct (Conference.fetch_bibtex net url w) as [[b|e] w1]; [|done].
    apply (extends_trans out 1 0 w w1); [done|apply emit_extends].
  - apply (extends_mono out 0); [lia|apply emit_extends].
Qed.

Lemma process_row_extends (net : web) (cache : gmap string row)
    (fieldnames : list string) (out : string) (r : row) (w : world) :
  extends out 1 w (Conference.process_row net cache fieldnames out r w).2.
Proof.
  destruct (get r "title" "") as [t|] eqn:Ht; cycle 1.
  { unfold Conference.process_row. rewrite Ht. apply extends_refl. }
  destruct (get r "bibtex_url" "") as [u|] eqn:Hu; cycle 1.
  { unfold Conference.process_row. rewrite Ht, Hu. apply extends_refl. }
  rewrite (process_row_unfold _ _ _ _ _ t u) by done.
  destruct (cache !! strip t) as [e|]; [|apply fetch_new_extends].
  destruct (get e "bibtex_data" "") as [b|]; [|apply extends_refl].
  destruct (real (strip b)); [|apply fetch_new_extends].
  apply (extends_mono out 0); [lia|apply emit_extends].
Qed.

Lemma process_rows_extends (net : web) (cache : gmap string row)
    (fieldnames : list string) (out : string) (rows : list row) (w : world) :
  extends out (length rows) w
    (for_ rows (Conference.process_row net cache fieldnames out) w).2.
Proof.
  revert w. induction rows as [|r rows IH]; intros w; [apply extends_refl|].
  simpl. unfold bind.
  pose proof (process_row_extends net cache fieldnames out r w) as Hr.
  destruct (Conference.process_row net cache fieldnames out r w) as [[[]|e] w1].
  - apply (extends_trans out 1 (length rows) w w1); [done|apply IH].
  - apply (extends_mono out 1); [lia|done].
Qed.

Lemma process_csv_extends (net : web) (inputfile outputfile : string) (w : world) :
  extends outputfile (length (prior (files w !! inputfile))) w
    (Conference.process_csv net inputfile outputfile w).2.
Proof.
  remember (Conference.process_csv net inputfile outputfile w) as pc eqn:Hpc.
  unfold Conference.process_csv in Hpc. unfold bind at 1 in Hpc.
  pose proof (load_existing_data_world outputfile "title" w) as Hw.
  destruct (Conference.load_existing_data outputfile "title" w) as [[cache|e] w0];
    simpl in Hw; subst w0; [|subst pc; apply extends_refl].
  unfold bind at 1 in Hpc. unfold open_r in Hpc.
  destruct (files w !! inputfile) as [f|]; [|subst pc; apply extends_refl].
  unfold with_open_w in Hpc. unfold bind at 1 in Hpc.
  unfold open_w at 1 in Hpc. unfold bind at 1 in Hpc.
  unfold writeheader, write in Hpc. simpl in Hpc.
  pose proof (process_rows_extends net cache (Conference.output_fieldnames f)
                outputfile (DictReader f)
                (World (<[outputfile := []]> (files w))
                       [Conference.output_fieldnames f] (requests w) (log w)))
    as Hloop.
  destruct (for_ (DictReader f) _ _) as [res w2]. subst pc. simpl in *.
  apply (extends_trans outputfile 0 (length (DictReader f)) w
           (World (<[outputfile := []]> (files w))
                  [Conference.output_fieldnames f] (requests w) (log w))).
  { split; [|split]; simpl.
    - intros p Hp. by rewrite lookup_insert_ne.
    - exists []. by rewrite app_nil_r.
    - exists []. by rewrite app_nil_r. }
  replace (length (DictReader f)) with (length (DictReader f) + 0) by lia.
  apply (extends_trans outputfile _ 0 _ w2); [done|apply flushed_extends].
Qed.

Lemma for_acc_count_world (rows : list row) (n : nat) (w : world) :
  (for_acc rows n (fun success_entries row =>
      bibtex <- str_strip (get row "bibtex_data" "") ;;
      ret (if truthy bibtex
              && negb (bool_decide (bibtex ∈ ["Not Available"; "No URL"]))
           then S success_entries else success_entries)) w).2 = w.
Proof.
  revert n. induction rows as [|r rows IH]; intros n; simpl; [done|].
  unfold bind at 1 2. destruct (get r "bibtex_data" "") as [s|]; simpl; [|done].
  apply IH.
Qed.

(** The reporter, whatever it reads: only the log grows. *)
Lemma print_statistics_extends (inputfile outputfile out : string) (w : world) :
  extends out 0 w (Conference.print_statistics inputfile outputfile w).2
  /\ files (Conference.print_statistics inputfile outputfile w).2 = files w.
Proof.
  remember (Conference.print_statistics inputfile outputfile w) as ps eqn:Hps.
  unfold Conference.print_statistics in Hps.
  unfold bind at 1 in Hps. unfold os_path_exists at 1 in Hps.
  unfold bind at 1 in Hps.
  assert (Htotal : exists n msgs,
    (if bool_decide (is_Some (files w !! inputfile))
     then infile <- open_r inputfile;; ret (length (DictReader infile))
     else logger WARNING (InputMissing inputfile);;; ret 0) w
    = (Ok n, World (files w) (buffer w) (requests w) (log w ++ msgs))).
  { case_bool_decide as Hin.
    - destruct Hin as [f Hf]. unfold bind, open_r. rewrite Hf.
      exists (length (DictReader f)), []. rewrite app_nil_r. by destruct w.
    - by eexists 0, [_]. }
  destruct Htotal as (n & msgs & Htotal). rewrite Htotal in Hps.
  unfold bind at 1 in Hps. unfold os_path_exists at 1 in Hps.
  unfold bind at 1 in Hps.
  set (w1 := World (files w) (buffer w) (requests w) (log w ++ msgs)) in *.
  assert (Hw1 : extends out 0 w w1 /\ files w1 = files w).
  { split; [|done]. split; [done|]. split; [exists []|by exists msgs].
    simpl. by rewrite app_nil_r. }
  assert (Hsuccess : forall success : M nat,
    success = (if bool_decide (is_Some (files w1 !! outputfile))
     then outfile <- open_r outputfile;;
          for_acc (DictReader outfile) 0 (fun success_entries row =>
            bibtex <- str_strip (get row "bibtex_data" "") ;;
            ret (if truthy bibtex
                    && negb (bool_decide (bibtex ∈ ["Not Available"; "No URL"]))
                 then S success_entries else success_entries))
     else ret 0) -> (success w1).2 = w1).
  { intros success ->. destruct (files w1 !! outputfile) as [f|] eqn:Hf.
    - rewrite bool_decide_eq_true_2 by eauto.
      unfold bind at 1. unfold open_r. rewrite Hf. apply for_acc_count_world.
    - rewrite bool_decide_eq_false_2; [reflexivity|]. by intros []. }
  specialize (Hsuccess _ eq_refl).
  match type of Hsuccess with
  | (?run).2 = _ => destruct run as [[k|e] w2]
  end; simpl in Hsuccess; subst w2; subst ps; [|exact Hw1].
  unfold bind, logger. simpl. split; [|done].
  split; [done|]. split; [exists []|eexists (msgs ++ [_; _])]; simpl.
  - by rewrite app_nil_r.
  - by rewrite <- !app_assoc.
Qed.

(** X5.  What the main block leaves alone, whatever the input, the prior
    output and the web, and whether it returns or raises: no file other
    than the output file changes (so the input file is never written when
    it is not the output file), the requests made are added after those
    made before and are at most one per input record, and the log only
    grows. *)
Theorem X5_main_frame (net : web) (inputfile outputfile : string) (w : world) :
  let w' := (Conference.main net inputfile outputfile w).2 in
  (forall p, p <> outputfile -> files w' !! p = files w !! p)
  /\ (exists urls,
        requests w' = requests w ++ urls
        /\ length urls <= length (prior (files w !! inputfile)))
  /\ (exists msgs, log w' = log w ++ msgs).
Proof.
  unfold Conference.main, bind.
  destruct (print_statistics_extends inputfile outputfile outputfile w)
    as [Hstat Hfiles].
  destruct (Conference.print_statistics inputfile outputfile w) as [[[]|e] w1];
    simpl in *.
  - pose proof (process_csv_extends net inputfile outputfile w1) as Hrun.
    rewrite Hfiles in Hrun.
    apply (extends_trans outputfile 0 _ w w1); done.
  - apply (extends_mono outputfile 0); [lia|done].
Qed.

(** ** The main block *)

(** The reporter on an output it can read, in full. *)
Lemma print_statistics_run (inputfile outputfile : string) (w : world) :
  Forall (fun r => get r "bibtex_data" "" <> None)
         (prior (files w !! outputfile)) ->
  Conference.print_statistics inputfile outputfile w =
    (Ok tt,
     World (files w) (buffer w) (requests w)
       (log w
        ++ match files w !! inputfile with
           | Some _ => []
           | None => [(WARNING, InputMissing inputfile)]
           end
        ++ [(ERROR, TotalEntries inputfile
                      (length (prior (files w !! inputfile))));
            (ERROR, SuccessEntries outputfile
                      (length (filter
                                 (fun r => real (strip (cell r "bibtex_data")) = true)
                                 (prior (files w !! outputfile)))))])).
Proof.
  intros Hrows. unfold Conference.print_statistics.
  unfold bind at 1. unfold os_path_exists at 1.
  unfold bind at 1.
  set (w1 := World (files w) (buffer w) (requests w)
               (log w ++ match files w !! inputfile with
                         | Some _ => []
                         | None => [(WARNING, InputMissing inputfile)]
                         end)).
  assert (Htotal :
    (if bool_decide (is_Some (files w !! inputfile))
     then infile <- open_r inputfile;; ret (length (DictReader infile))
     else logger WARNING (InputMissing inputfile);;; ret 0) w
    = (Ok (length (prior (files w !! inputfile))), w1)).
  { unfold w1. destruct (files w !! inputfile) as [f|] eqn:Hf.
    - rewrite bool_decide_eq_true_2 by eauto.
      unfold bind, open_r. rewrite Hf, app_nil_r. by destruct w.
    - rewrite bool_decide_eq_false_2 by by intros []. done. }
  rewrite Htotal. unfold bind at 1. unfold os_path_exists at 1.
  change (files w1) with (files w). unfold bind at 1.
  assert (Hsuccess :
    (if bool_decide (is_Some (files w !! outputfile))
     then outfile <- open_r outputfile;;
          for_acc (DictReader outfile) 0 (fun success_entries row =>
            bibtex <- str_strip (get row "bibtex_data" "") ;;
            ret (if truthy bibtex
                    && negb (bool_decide (bibtex ∈ ["Not Available"; "No URL"]))
                 then S success_entries else success_entries))
     else ret 0) w1
    = (Ok (length (filter (fun r => real (strip (cell r "bibtex_data")) = true)
                     (prior (files w !! outputfile)))), w1)).
  { destruct (files w !! outputfile) as [f|] eqn:Hf.
    - rewrite bool_decide_eq_true_2 by eauto.
      unfold bind at 1. unfold open_r. change (files w1) with (files w).
      rewrite Hf. by rewrite for_acc_count.
    - rewrite bool_decide_eq_false_2 by by intros []. done. }
  rewrite Hsuccess. unfold bind, logger, w1. simpl.
  by rewrite <- !app_assoc.
Qed.

(** X6.  A missing input file.  When the input path does not exist and
    the prior output can be read, the main block logs the warning and the
    two counts (a total of zero), then [process_csv] raises
    FileNotFoundError before it opens the output: no file is created,
    truncated or changed, and nothing is requested. *)
Theorem X6_main_missing_input (net : web) (inputfile outputfile : string)
    (w : world) :
  files w !! inputfile = None ->
  loadable (files w !! outputfile) ->
  Conference.main net inputfile outputfile w =
    (Raise FileNotFoundError,
     World (files w) (buffer w) (requests w)
       (log w
        ++ [(WARNING, InputMissing inputfile);
            (ERROR, TotalEntries inputfile 0);
            (ERROR, SuccessEntries outputfile
                      (length (filter
                                 (fun r => real (strip (cell r "bibtex_data")) = true)
                                 (prior (files w !! outputfile)))))])).
Proof.
  intros Hin Ho. unfold Conference.main. unfold bind at 1.
  rewrite print_statistics_run; cycle 1.
  { apply Forall_forall. intros r Hr. by apply (loadable_rows _ _ Ho). }
  rewrite Hin. cbn [prior default DictReader length app].
  unfold Conference.process_csv. unfold bind at 1.
  rewrite load_existing_data_index; cycle 1.
  { apply Forall_forall. intros r Hr. by apply (loadable_rows _ _ Ho). }
  unfold bind at 1. unfold open_r. cbn [files]. by rewrite Hin.
Qed.

Lemma X6_main_missing_input_witness :
  let w := disk {[ "out.csv" := [out_header; ["A"; "a"; "@a"];
                                 ["B"; "b"; "Not Available"]] ]} in
  Conference.main web_constant "in.csv" "out.csv" w =
    (Raise FileNotFoundError,
     World (files w) [] []
       [(WARNING, InputMissing "in.csv");
        (ERROR, TotalEntries "in.csv" 0);
        (ERROR, SuccessEntries "out.csv" 1)]).
Proof.
  intros w. rewrite (X6_main_missing_input web_constant "in.csv" "out.csv" w).
  - reflexivity.
  - reflexivity.
  - by_evaluation.
Defined.

Lemma for_acc_count_raises (rows : list row) (n : nat) (w : world) :
  Exists (fun r => get r "bibtex_data" "" = None) rows ->
  for_acc rows n (fun success_entries row =>
      bibtex <- str_strip (get row "bibtex_data" "") ;;
      ret (if truthy bibtex
              && negb (bool_decide (bibtex ∈ ["Not Available"; "No URL"]))
           then S success_entries else success_entries)) w
  = (Raise AttributeError, w).
Proof.
  intros Hrows. revert n.
  induction rows as [|r rows IH]; intros n; [by apply Exists_nil in Hrows|].
  simpl. unfold bind at 1 2.
  destruct (get r "bibtex_data" "") as [s|] eqn:Hr; simpl; [|done].
  apply IH. apply Exists_cons in Hrows as [Hbad|Hrows]; [congruence|done].
Qed.

(** X7.  An output file the reporter cannot read.  When some record of
    the output file has no value for bibtex_data (a line shorter than the
    header), [print_statistics] raises AttributeError before it logs any
    count, and the main block ends there: [process_csv] is not run, no
    file changes and nothing is requested.  Only the warning for a
    missing input may have been logged. *)
Theorem X7_main_unreadable_output (net : web) (inputfile outputfile : string)
    (w : world) :
  Exists (fun r => get r "bibtex_data" "" = None) (prior (files w !! outputfile)) ->
  Conference.main net inputfile outputfile w =
    (Raise AttributeError,
     World (files w) (buffer w) (requests w)
       (log w ++ match files w !! inputfile with
                 | Some _ => []
                 | None => [(WARNING, InputMissing inputfile)]
                 end)).
Proof.
  intros Hbad.
  destruct (files w !! outputfile) as [f|] eqn:Hout;
    [|by apply Exists_nil in Hbad].
  unfold Conference.main. unfold bind at 1. unfold Conference.print_statistics.
  unfold bind at 1. unfold os_path_exists at 1. unfold bind at 1.
  assert (Htotal : exists n,
    (if bool_decide (is_Some (files w !! inputfile))
     then infile <- open_r inputfile;; ret (length (DictReader infile))
     else logger WARNING (InputMissing inputfile);;; ret 0) w
    = (Ok n, World (files w) (buffer w) (requests w)
               (log w ++ match files w !! inputfile with
                         | Some _ => []
                         | None => [(WARNING, InputMissing inputfile)]
                         end))).
  { destruct (files w !! inputfile) as [g|] eqn:Hg.
    - rewrite bool_decide_eq_true_2 by eauto. unfold bind, open_r.
      rewrite Hg, app_nil_r. exists (length (DictReader g)). by destruct w.
    - rewrite bool_decide_eq_false_2 by by intros []. by exists 0. }
  destruct Htotal as [n ->].
  unfold bind at 1. unfold os_path_exists at 1. cbn [files].
  rewrite Hout, bool_decide_eq_true_2 by eauto.
  unfold bind at 1. unfold bind at 1. unfold open_r at 1. cbn [files].
  rewrite Hout. by rewrite for_acc_count_raises.
Qed.

Lemma X7_main_unreadable_output_witness :
  let w := disk {[ "in.csv" := two_papers;
                   "out.csv" := [out_header; ["Paper A"; "http://x/a"]] ]} in
  Conference.main web_constant "in.csv" "out.csv" w = (Raise AttributeError, w).
Proof.
  intros w. rewrite (X7_main_unreadable_output web_constant "in.csv" "out.csv" w).
  - reflexivity.
  - by_evaluation.
Defined.

(** ** A line the loop cannot process *)

Lemma for_app {A} (l1 l2 : list A) (body : A -> M unit) (w : world) :
  for_ (l1 ++ l2) body w = bind (for_ l1 body) (fun _ => for_ l2 body) w.
Proof.
  revert w. induction l1 as [|x l1 IH]; intros w; [done|].
  cbn [for_ app]. unfold bind. destruct (body x w) as [[[]|e] w1]; [|done].
  rewrite IH. done.
Qed.

(** The run stops at the first row whose pass raises: the records before
    it are on disk, the rows after it are not looked at. *)
Lemma process_csv_stops (net : web) (inputfile outputfile : string) (w : world)
    (f : csv) (good later : list row) (bad : row) (e : exn) (urls : list string) :
  files w !! inputfile = Some f ->
  loadable (files w !! outputfile) ->
  DictReader f = good ++ bad :: later ->
  let cache := index "title" (prior (files w !! outputfile)) in
  let fieldnames := Conference.output_fieldnames f in
  Forall (row_ok net cache fieldnames) good ->
  (forall w1, exists msgs,
     Conference.process_row net cache fieldnames outputfile bad w1
     = (Raise e, World (files w1) (buffer w1) (requests w1 ++ urls) (log w1 ++ msgs))) ->
  exists msgs,
    Conference.process_csv net inputfile outputfile w =
      (Raise e,
       World (<[outputfile := fieldnames :: (record_of net cache fieldnames <$> good)]>
                (files w))
             []
             (requests w ++ concat (fetches_of cache <$> good) ++ urls)
             (log w ++ msgs)).
Proof.
  intros Hin Ho Hrows cache fn Hgood Hbad.
  unfold Conference.process_csv.
  unfold bind at 1. rewrite load_existing_data_index; cycle 1.
  { apply Forall_forall. intros r Hr. by apply (loadable_rows _ _ Ho). }
  unfold bind at 1. unfold open_r. rewrite Hin.
  unfold with_open_w. unfold bind at 1. unfold open_w at 1.
  unfold bind at 1. unfold writeheader, write. simpl.
  fold cache. fold fn. rewrite Hrows, for_app. unfold bind at 1.
  destruct (process_rows_run net cache fn outputfile
              (output_fieldnames_bibtex_data f) good
              (World (<[outputfile := []]> (files w)) [fn] (requests w) (log w))
              Hgood)
    as [msgs1 Hrun].
  rewrite Hrun. cbn [for_]. unfold bind at 1.
  match goal with
  | |- context [Conference.process_row _ _ _ _ bad ?w1] =>
      destruct (Hbad w1) as [msgs2 Hstop]
  end.
  rewrite Hstop. exists (msgs1 ++ msgs2). unfold flushed, content. simpl.
  rewrite <- !app_assoc. f_equal. f_equal.
  destruct good; simpl.
  - rewrite lookup_insert_eq. simpl. by rewrite insert_insert_eq.
  - rewrite !lookup_insert_eq. simpl. by rewrite !insert_insert_eq, app_nil_r.
Qed.

Lemma wrong_fields_rest (fieldnames : list string) (d : row) :
  rest d <> None -> wrong_fields fieldnames d = true.
Proof.
  intros Hrest. unfold wrong_fields. apply orb_true_iff. left.
  by apply bool_decide_eq_true.
Qed.

(** The pass over a row with surplus fields: it does everything up to the
    write, the request included, and the writer refuses the row. *)
Lemma process_row_surplus (net : web) (cache : gmap string row)
    (fieldnames : list string) (out : string) (r : row) (w : world) :
  rest r <> None ->
  get r "title" "" <> None ->
  get r "bibtex_url" "" <> None ->
  (forall e, cache !! strip (cell r "title") = Some e ->
             get e "bibtex_data" "" <> None) ->
  ~ section_without_pre (net (strip (cell r "bibtex_url"))) ->
  exists msgs,
    Conference.process_row net cache fieldnames out r w
    = (Raise ValueError,
       World (files w) (buffer w) (requests w ++ fetches_of cache r) (log w ++ msgs)).
Proof.
  intros Hrest Ht Hu Hentry Hpre.
  assert (Hnew : exists msgs,
    fetch_new net fieldnames out r (strip (cell r "bibtex_url")) w
    = (Raise ValueError,
       World (files w) (buffer w)
         (requests w ++ (if truthy (strip (cell r "bibtex_url"))
                         then [strip (cell r "bibtex_url")] else []))
         (log w ++ msgs))).
  { unfold fetch_new. destruct (truthy (strip (cell r "bibtex_url"))).
    - destruct (fetch_bibtex_returns net _ w Hpre) as [msgs Hf].
      exists msgs. unfold bind. rewrite Hf.
      by rewrite emit_raise by by apply wrong_fields_rest.
    - exists []. rewrite emit_raise by by apply wrong_fields_rest.
      rewrite !app_nil_r. by destruct w. }
  rewrite (process_row_unfold _ _ _ _ _ _ _ _ (get_cell _ _ Ht) (get_cell _ _ Hu)).
  unfold fetches_of, reused.
  destruct (cache !! strip (cell r "title")) as [entry|] eqn:Hc; [|done].
  rewrite (get_cell _ _ (Hentry _ eq_refl)).
  destruct (real (strip (cell entry "bibtex_data"))); [|done].
  exists []. rewrite emit_raise by by apply wrong_fields_rest.
  rewrite !app_nil_r. by destruct w.
Qed.

Lemma make_row_long (header line : list string) :
  length header < length line ->
  rest (make_row header line) <> None
  /\ forall k, get (make_row header line) k "" <> None.
Proof.
  intros Hlen. unfold make_row.
  rewrite (proj2 (Nat.ltb_lt _ _) Hlen). split; [done|].
  intros k. unfold get. simpl.
  pose proof (dict_zip_fold_not_None (zip header line) ∅ k) as Hk.
  rewrite lookup_empty in Hk. specialize (Hk ltac:(done)). unfold dict_zip.
  by destruct (fold_left _ (zip header line) ∅ !! k) as [[]|].
Qed.

Lemma DictReader_split (header : list string) (before after : list (list string))
    (line : list string) :
  line <> [] ->
  DictReader (header :: before ++ line :: after)
  = DictReader (header :: before) ++ make_row header line :: DictReader (header :: after).
Proof.
  intros Hline. simpl. by rewrite filter_app, filter_cons_True, fmap_app, fmap_cons.
Qed.

(** X8.  A line with more fields than the header.  The lines before it
    being well formed, the run raises ValueError at that line: the output
    file holds the header and the records of the lines before it, the
    line itself and the lines after it are not written, and the request
    for the line has been made all the same (when its URL is not blank
    and its title is not reused). *)
Theorem X8_long_line_aborts (net : web) (inputfile outputfile : string)
    (w : world) (header line : list string) (before after : list (list string)) :
  files w !! inputfile = Some (header :: before ++ line :: after) ->
  rectangular (header :: before) ->
  length header < length line ->
  loadable (files w !! outputfile) ->
  (forall u, ~ section_without_pre (net u)) ->
  let cache := index "title" (prior (files w !! outputfile)) in
  let fieldnames := Conference.output_fieldnames (header :: before) in
  exists w',
    Conference.process_csv net inputfile outputfile w = (Raise ValueError, w')
    /\ files w' !! outputfile
       = Some (fieldnames
               :: (record_of net cache fieldnames <$> DictReader (header :: before)))
    /\ requests w'
       = requests w
         ++ concat (fetches_of cache <$> DictReader (header :: before))
         ++ fetches_of cache (make_row header line).
Proof.
  intros Hin Hbefore Hlen Ho Hnet cache fn.
  assert (Hline : line <> []) by (intros ->; simpl in Hlen; lia).
  destruct (make_row_long header line Hlen) as [Hrest Hget].
  destruct (process_csv_stops net inputfile outputfile w
              (header :: before ++ line :: after)
              (DictReader (header :: before)) (DictReader (header :: after))
              (make_row header line) ValueError
              (fetches_of cache (make_row header line)))
    as [msgs Hrun]; try done.
  - by apply DictReader_split.
  - apply (rows_ok net (header :: before) _ Hbefore Ho Hnet).
  - intros w1. apply process_row_surplus; try done.
    intros e He%index_elem_of. by apply (loadable_rows _ _ Ho).
  - eexists. split; [exact Hrun|]. cbn [files requests].
    by rewrite lookup_insert_eq.
Qed.

Lemma X8_long_line_aborts_witness :
  exists w',
    Conference.process_csv web_constant "in.csv" "out.csv"
      (disk {[ "in.csv" := [header; ["A"; "u1"]; ["B"; "u2"; "surplus"];
                            ["C"; "u3"]] ]})
    = (Raise ValueError, w')
    /\ files w' !! "out.csv" = Some [out_header; ["A"; "u1"; "@misc{any}"]]
    /\ requests w' = ["u1"; "u2"].
Proof.
  destruct (X8_long_line_aborts web_constant "in.csv" "out.csv"
              (disk {[ "in.csv" := [header; ["A"; "u1"]; ["B"; "u2"; "surplus"];
                                    ["C"; "u3"]] ]})
              header ["B"; "u2"; "surplus"] [["A"; "u1"]] [["C"; "u3"]])
    as (w' & Hrun & Hfile & Hrequests).
  - reflexivity.
  - by_evaluation.
  - vm_compute. lia.
  - by_evaluation.
  - intros u. discriminate.
  - exists w'. split; [exact Hrun|]. split; [exact Hfile|exact Hrequests].
Defined.

Lemma restval_fold (l : list string) (m : gmap string (option string))
    (k : string) :
  fold_left (fun d key => <[key := None]> d) l m !! k
  = if decide (k ∈ l) then Some None else m !! k.
Proof.
  revert m. induction l as [|x l IH]; intros m; simpl.
  - destruct (decide (k ∈ [])) as [H|]; [by apply elem_of_nil in H|done].
  - rewrite IH. destruct (decide (k ∈ l)) as [Hin|Hnin].
    + destruct (decide (k ∈ x :: l)) as [|Hn]; [done|]. destruct Hn. by right.
    + destruct (decide (x = k)) as [<-|Hne].
      * rewrite lookup_insert_eq.
        destruct (decide (x ∈ x :: l)) as [|Hn]; [done|]. destruct Hn. by left.
      * rewrite lookup_insert_ne by done.
        destruct (decide (k ∈ x :: l)) as [Hin|]; [|done].
        apply elem_of_cons in Hin as [->|?]; done.
Qed.

(** A column the line is too short for reads as [None]. *)
Lemma make_row_short (header line : list string) (k : string) :
  k ∈ drop (length line) header -> get (make_row header line) k "" = None.
Proof.
  intros Hk.
  assert (Hlen : length line < length header).
  { destruct (decide (length line < length header)) as [|Hge]; [done|].
    rewrite drop_ge in Hk by lia. by apply elem_of_nil in Hk. }
  unfold make_row. rewrite (proj2 (Nat.ltb_ge _ _)) by lia.
  rewrite (proj2 (Nat.ltb_lt _ _) Hlen). unfold get. simpl.
  rewrite restval_fold. by rewrite decide_True.
Qed.

Lemma process_row_None (net : web) (cache : gmap string row)
    (fieldnames : list string) (out : string) (r : row) (w : world) :
  get r "title" "" = None \/ get r "bibtex_url" "" = None ->
  Conference.process_row net cache fieldnames out r w = (Raise AttributeError, w).
Proof.
  intros Hnone. unfold Conference.process_row.
  destruct (get r "title" "") as [t|]; [|done].
  destruct Hnone as [?|Hu]; [done|]. by rewrite Hu.
Qed.

(** X9.  A line too short to reach the title or the URL column.  The
    lines before it being well formed, the run raises AttributeError at
    that line, before any request for it: the output file holds the
    header and the records of the lines before it, and the lines after it
    are not processed. *)
Theorem X9_short_line_aborts (net : web) (inputfile outputfile : string)
    (w : world) (header line : list string) (before after : list (list string)) :
  files w !! inputfile = Some (header :: before ++ line :: after) ->
  rectangular (header :: before) ->
  line <> [] ->
  "title" ∈ drop (length line) header
  \/ "bibtex_url" ∈ drop (length line) header ->
  loadable (files w !! outputfile) ->
  (forall u, ~ section_without_pre (net u)) ->
  let cache := index "title" (prior (files w !! outputfile)) in
  let fieldnames := Conference.output_fieldnames (header :: before) in
  exists w',
    Conference.process_csv net inputfile outputfile w = (Raise AttributeError, w')
    /\ files w' !! outputfile
       = Some (fieldnames
               :: (record_of net cache fieldnames <$> DictReader (header :: before)))
    /\ requests w'
       = requests w ++ concat (fetches_of cache <$> DictReader (header :: before)).
Proof.
  intros Hin Hbefore Hline Hshort Ho Hnet cache fn.
  destruct (process_csv_stops net inputfile outputfile w
              (header :: before ++ line :: after)
              (DictReader (header :: before)) (DictReader (header :: after))
              (make_row header line) AttributeError [])
    as [msgs Hrun]; try done.
  - by apply DictReader_split.
  - apply (rows_ok net (header :: before) _ Hbefore Ho Hnet).
  - intros w1. exists []. rewrite process_row_None.
    + rewrite !app_nil_r. by destruct w1.
    + destruct Hshort as [Hk|Hk]; [left|right]; by apply make_row_short.
  - eexists. split; [exact Hrun|]. cbn [files requests].
    by rewrite lookup_insert_eq, app_nil_r.
Qed.

Lemma X9_short_line_aborts_witness :
  exists w',
    Conference.process_csv web_constant "in.csv" "out.csv"
      (disk {[ "in.csv" := [header; ["A"; "u1"]; ["B"]; ["C"; "u3"]] ]})
    = (Raise AttributeError, w')
    /\ files w' !! "out.csv" = Some [out_header; ["A"; "u1"; "@misc{any}"]]
    /\ requests w' = ["u1"].
Proof.
  destruct (X9_short_line_aborts web_constant "in.csv" "out.csv"
              (disk {[ "in.csv" := [header; ["A"; "u1"]; ["B"]; ["C"; "u3"]] ]})
              header ["B"] [["A"; "u1"]] [["C"; "u3"]])
    as (w' & Hrun & Hfile & Hrequests).
  - reflexivity.
  - by_evaluation.
  - discriminate.
  - right. by_evaluation.
  - by_evaluation.
  - intros u. discriminate.
  - exists w'. split; [exact Hrun|]. split; [exact Hfile|exact Hrequests].
Defined.

(** ** The output read back *)

Lemma tidy_bibtex_of (net : web) (cache : gmap string row) (r : row) :
  tidy (bibtex_of net cache r).
Proof.
  unfold bibtex_of.
  destruct (reused cache (strip (cell r "title"))) as [b|] eqn:Hb.
  - by apply (tidy_reused cache (strip (cell r "title"))).
  - destruct (truthy (strip (cell r "bibtex_url"))); [|done].
    apply tidy_or_not_available.
Qed.

Lemma dict_zip_fold_is_Some (l : list (string * string))
    (m : gmap string (option string)) (k : string) :
  k ∈ l.*1 \/ is_Some (m !! k) ->
  is_Some (fold_left (fun d kv => <[kv.1 := Some kv.2]> d) l m !! k).
Proof.
  revert m. induction l as [|kv l IH]; intros m; simpl.
  - intros [Hk|Hk]; [by apply elem_of_nil in Hk|done].
  - intros [Hk|Hk]; apply IH.
    + apply elem_of_cons in Hk as [->|Hk]; [right|by left].
      rewrite lookup_insert_eq. by eexists.
    + right. destruct (decide (kv.1 = k)) as [<-|Hne].
      * rewrite lookup_insert_eq. by eexists.
      * by rewrite lookup_insert_ne.
Qed.

(** In a row of a rectangular file every column of the header holds a
    string. *)
Lemma rectangular_cells (f : csv) (r : row) (k : string) :
  rectangular f -> r ∈ DictReader f ->
  k ∈ default [] (DictReader_fieldnames f) ->
  cells r !! k = Some (Some (cell r k)).
Proof.
  destruct f as [|header lines]; simpl; [by intros _ ?%elem_of_nil|].
  intros Hrect Hr Hk. apply list_elem_of_fmap in Hr as (line & -> & Hline).
  apply list_elem_of_filter in Hline as [Hne Hline].
  rewrite Forall_forall in Hrect. destruct (Hrect _ Hline) as [?|Hlen]; [done|].
  destruct (make_row_rectangular header line Hlen) as [_ Hcells].
  specialize (Hcells k). unfold cell, get.
  assert (Hsome : is_Some (cells (make_row header line) !! k)).
  { unfold make_row. rewrite Hlen, Nat.ltb_irrefl. simpl. unfold dict_zip.
    apply dict_zip_fold_is_Some. left. by rewrite fst_zip by lia. }
  destruct Hsome as [[v|] Hv]; rewrite Hv in *; done.
Qed.

(** X10.  Columns pass through.  After a run over well-formed rows and
    pages [fetch_bibtex] survives, the output file read back through
    DictReader has the field names of the input, with bibtex_data appended
    when it was not among them, and one row per input row, in input order:
    the row has no surplus, carries under every input column other than
    bibtex_data the very value of the input row, and under bibtex_data the
    value the run gave it, which is trimmed and not empty. *)
Theorem X10_columns_pass_through (net : web) (inputfile outputfile : string)
    (w : world) (f : csv) :
  files w !! inputfile = Some f ->
  rectangular f ->
  loadable (files w !! outputfile) ->
  (forall u, ~ section_without_pre (net u)) ->
  exists w' out_file,
    Conference.process_csv net inputfile outputfile w = (Ok tt, w')
    /\ files w' !! outputfile = Some out_file
    /\ DictReader_fieldnames out_file = Some (Conference.output_fieldnames f)
    /\ length (DictReader out_file) = length (DictReader f)
    /\ forall i r,
         DictReader f !! i = Some r ->
         exists r' b,
           DictReader out_file !! i = Some r'
           /\ rest r' = None
           /\ (forall k, k ∈ default [] (DictReader_fieldnames f) ->
                         k <> "bibtex_data" -> cells r' !! k = cells r !! k)
           /\ cells r' !! "bibtex_data" = Some (Some b)
           /\ strip b = b /\ b <> "".
Proof.
  intros Hin Hf Ho Hnet.
  destruct (process_csv_run net inputfile outputfile w f Hin Hf Ho Hnet)
    as [msgs Hrun].
  set (cache := index "title" (prior (files w !! outputfile))) in *.
  set (fn := Conference.output_fieldnames f) in *.
  assert (Hfn : fn <> []).
  { intros Hnil. pose proof (output_fieldnames_bibtex_data f) as Hbd.
    fold fn in Hbd. rewrite Hnil in Hbd. by apply elem_of_nil in Hbd. }
  assert (Hback : DictReader (fn :: (record_of net cache fn <$> DictReader f))
                  = (fun y => make_row fn (record_of net cache fn y)) <$> DictReader f)
    by exact (prior_written net cache fn (DictReader f) Hfn).
  eexists _, _. split; [exact Hrun|]. cbn [files]. rewrite lookup_insert_eq.
  split; [done|]. split; [done|]. rewrite Hback. split; [by rewrite length_fmap|].
  intros i r Hr. rewrite list_lookup_fmap, Hr. simpl.
  exists (make_row fn (record_of net cache fn r)), (bibtex_of net cache r).
  split; [done|]. unfold record_of.
  destruct (make_row_written
              (cell (setitem r "bibtex_data" (bibtex_of net cache r))) fn)
    as [Hrest Hcells].
  split; [done|]. split; [|split].
  - intros k Hk Hne. rewrite Hcells.
    rewrite decide_True by by apply output_fieldnames_header.
    rewrite cell_setitem_ne by done.
    symmetry. apply (rectangular_cells f); [done| |done].
    by apply list_elem_of_lookup_2 in Hr.
  - rewrite Hcells. rewrite decide_True by apply output_fieldnames_bibtex_data.
    by rewrite cell_setitem_eq.
  - apply tidy_bibtex_of.
Qed.

Lemma X10_columns_pass_through_witness :
  exists w' out_file,
    Conference.process_csv web_of_paper_a "in.csv" "out.csv"
      (disk {[ "in.csv" := two_papers ]}) = (Ok tt, w')
    /\ files w' !! "out.csv" = Some out_file
    /\ DictReader_fieldnames out_file = Some out_header
    /\ length (DictReader out_file) = 2.
Proof.
  destruct (X10_columns_pass_through web_of_paper_a "in.csv" "out.csv"
              (disk {[ "in.csv" := two_papers ]}) two_papers)
    as (w' & out_file & Hrun & Hfile & Hnames & Hlen & _).
  - reflexivity.
  - by_evaluation.
  - by_evaluation.
  - intros u. unfold section_without_pre, web_of_paper_a. by case_bool_decide.
  - exists w', out_file. split; [exact Hrun|]. split; [exact Hfile|].
    split; [exact Hnames|exact Hlen].
Defined.

(** ** The second run, whatever the web answers *)

Lemma real_reused (cache : gmap string row) (title b : string) :
  reused cache title = Some b -> real b = true.
Proof.
  unfold reused. destruct (cache !! title) as [e|]; [|done].
  destruct (real (strip (cell e "bibtex_data"))) eqn:Hreal; [|done].
  by intros [= <-].
Qed.

Lemma second_run_row_any (net : web) (cache : gmap string row)
    (fieldnames : list string) (rows : list row) (r : row) :
  "bibtex_data" ∈ fieldnames ->
  (forall y, y ∈ rows -> fits fieldnames y) ->
  NoDup ((fun y => strip (cell y "title")) <$> rows) ->
  (forall y, y ∈ rows -> strip (cell y "title") <> "") ->
  r ∈ rows ->
  let cache' :=
    index "title"
      ((fun y => make_row fieldnames (record_of net cache fieldnames y)) <$> rows) in
  bibtex_of net cache' r = bibtex_of net cache r
  /\ fetches_of cache' r
     = if real (bibtex_of net cache r) then []
       else if truthy (strip (cell r "bibtex_url"))
            then [strip (cell r "bibtex_url")] else [].
Proof.
  intros Hbd Hfits Hnodup Hblank Hr cache'.
  assert (Hentry : cache' !! strip (cell r "title")
                   = Some (make_row fieldnames (record_of net cache fieldnames r))).
  { unfold cache'. rewrite index_lookup.
    rewrite (proj2 (truthy_true _) (Hblank r Hr)).
    apply (last_filter_unique (fun y => strip (cell y "title"))
             (fun z => strip (cell z "title"))); [done|done|].
    intros y Hy. apply written_title; auto. }
  destruct (tidy_bibtex_of net cache r) as [Hstrip _].
  assert (Hreused : reused cache' (strip (cell r "title"))
                    = if real (bibtex_of net cache r)
                      then Some (bibtex_of net cache r) else None).
  { unfold reused. rewrite Hentry. unfold record_of.
    rewrite cell_make_row_written by done.
    by rewrite cell_setitem_eq, Hstrip. }
  unfold bibtex_of at 1, fetches_of. rewrite Hreused.
  destruct (real (bibtex_of net cache r)) eqn:Hreal; [done|].
  unfold bibtex_of in *.
  destruct (reused cache (strip (cell r "title"))) as [b|] eqn:Hb; [|done].
  apply real_reused in Hb. congruence.
Qed.

Lemma concat_retried {A} (b : A -> bool) (u : A -> string) (rows : list A) :
  concat ((fun r => if b r then [] else if truthy (u r) then [u r] else [])
            <$> rows)
  = filter (fun x => x <> "") (u <$> filter (fun r => b r = false) rows).
Proof.
  induction rows as [|r rows IH]; [done|].
  rewrite fmap_cons. cbn [concat]. rewrite IH.
  destruct (b r) eqn:Hb.
  - rewrite (filter_cons_False _ r) by congruence. done.
  - rewrite (filter_cons_True _ r) by done. rewrite fmap_cons.
    destruct (truthy (u r)) eqn:Hu.
    + apply truthy_true in Hu. by rewrite filter_cons_True.
    + apply truthy_false in Hu. rewrite filter_cons_False; [done|]. by intros [].
Qed.

(** X11.  The second run retries what the first left unresolved.  On an
    input of well-formed rows with non-empty, pairwise distinct trimmed
    titles, with pages [fetch_bibtex] survives and an output path other
    than the input path, a second run over the first run's output leaves
    every file as the first run left it, and requests exactly the URLs of
    the records that the first run left with a sentinel and that have a
    non-blank URL, in input order. *)
Theorem X11_second_run_retries (net : web) (inputfile outputfile : string)
    (w : world) (f : csv) :
  inputfile <> outputfile ->
  files w !! inputfile = Some f ->
  rectangular f ->
  loadable (files w !! outputfile) ->
  NoDup ((fun r => strip (cell r "title")) <$> DictReader f) ->
  Forall (fun r => strip (cell r "title") <> "") (DictReader f) ->
  (forall u, ~ section_without_pre (net u)) ->
  let cache := index "title" (prior (files w !! outputfile)) in
  exists w1 w2,
    Conference.process_csv net inputfile outputfile w = (Ok tt, w1)
    /\ Conference.process_csv net inputfile outputfile w1 = (Ok tt, w2)
    /\ files w2 = files w1
    /\ requests w2
       = requests w1
         ++ filter (fun u => u <> "")
              ((fun r => strip (cell r "bibtex_url"))
                 <$> filter (fun r => real (bibtex_of net cache r) = false)
                       (DictReader f)).
Proof.
  intros Hpaths Hin Hf Ho Hnodup Hblank Hpre cache.
  rewrite Forall_forall in Hblank.
  set (fn := Conference.output_fieldnames f).
  assert (Hfn : fn <> []).
  { intros Hnil. pose proof (output_fieldnames_bibtex_data f) as Hbd.
    fold fn in Hbd. rewrite Hnil in Hbd. by apply elem_of_nil in Hbd. }
  destruct (process_csv_run net inputfile outputfile w f Hin Hf Ho Hpre)
    as [msgs1 Hrun1].
  fold fn cache in Hrun1.
  set (w1 := World (<[outputfile := fn :: (record_of net cache fn <$> DictReader f)]>
                      (files w))
                   [] (requests w ++ concat (fetches_of cache <$> DictReader f))
                   (log w ++ msgs1)) in *.
  assert (Hin1 : files w1 !! inputfile = Some f).
  { unfold w1. simpl. by rewrite lookup_insert_ne. }
  assert (Hout1 : prior (files w1 !! outputfile)
                  = (fun y => make_row fn (record_of net cache fn y)) <$> DictReader f).
  { unfold w1. simpl. rewrite lookup_insert_eq. by apply prior_written. }
  assert (Ho1 : loadable (files w1 !! outputfile)).
  { unfold loadable. rewrite Hout1. apply written_rows_loadable. }
  destruct (process_csv_run net inputfile outputfile w1 f Hin1 Hf Ho1 Hpre)
    as [msgs2 Hrun2].
  fold fn in Hrun2. rewrite Hout1 in Hrun2.
  assert (Hrows : forall r, r ∈ DictReader f ->
            bibtex_of net
              (index "title"
                 ((fun y => make_row fn (record_of net cache fn y)) <$> DictReader f)) r
            = bibtex_of net cache r
            /\ fetches_of
                 (index "title"
                    ((fun y => make_row fn (record_of net cache fn y)) <$> DictReader f)) r
               = if real (bibtex_of net cache r) then []
                 else if truthy (strip (cell r "bibtex_url"))
                      then [strip (cell r "bibtex_url")] else []).
  { intros r Hr. apply second_run_row_any; try done.
    - apply output_fieldnames_bibtex_data.
    - intros y Hy. destruct (rectangular_rows f y Hf Hy) as [[Hrest Hdom] _].
      split; [done|]. intros k Hk. by apply output_fieldnames_header, Hdom. }
  eexists w1, _. split; [exact Hrun1|]. split; [exact Hrun2|].
  cbn [files requests]. split.
  - unfold w1. cbn [files]. rewrite insert_insert_eq. f_equal. f_equal.
    apply Forall_fmap_ext, Forall_forall. intros r Hr.
    apply record_of_ext, (Hrows r Hr).
  - f_equal.
    rewrite <- (concat_retried (fun r => real (bibtex_of net cache r))
                  (fun r => strip (cell r "bibtex_url"))).
    f_equal. apply Forall_fmap_ext, Forall_forall. intros r Hr.
    apply (Hrows r Hr).
Qed.

Lemma X11_second_run_retries_witness :
  exists w1 w2,
    Conference.process_csv web_of_paper_a "in.csv" "out.csv"
      (disk {[ "in.csv" := [header; ["Paper A"; "http://x/a"];
                            ["Paper B"; "http://x/b"]; ["Paper C"; ""]] ]})
    = (Ok tt, w1)
    /\ Conference.process_csv web_of_paper_a "in.csv" "out.csv" w1 = (Ok tt, w2)
    /\ files w2 = files w1
    /\ requests w2 = requests w1 ++ ["http://x/b"].
Proof.
  destruct (X11_second_run_retries web_of_paper_a "in.csv" "out.csv"
              (disk {[ "in.csv" := [header; ["Paper A"; "http://x/a"];
                                    ["Paper B"; "http://x/b"]; ["Paper C"; ""]] ]})
              [header; ["Paper A"; "http://x/a"]; ["Paper B"; "http://x/b"];
               ["Paper C"; ""]])
    as (w1 & w2 & Hrun1 & Hrun2 & Hfiles & Hrequests).
  - done.
  - reflexivity.
  - by_evaluation.
  - by_evaluation.
  - by_evaluation.
  - by_evaluation.
  - intros u. unfold section_without_pre, web_of_paper_a. by case_bool_decide.
  - exists w1, w2. split; [exact Hrun1|]. split; [exact Hrun2|].
    split; [exact Hfiles|]. rewrite Hrequests.
    apply (f_equal (app (requests w1))). vm_compute. reflexivity.
Defined.

(** ** The statistics of a finished run *)

Lemma length_filter_fmap {A B} (P : B -> Prop) (Q : A -> Prop)
    `{forall y, Decision (P y)} `{forall x, Decision (Q x)}
    (g : A -> B) (l : list A) :
  (forall x, x ∈ l -> P (g x) <-> Q x) ->
  length (filter P (g <$> l)) = length (filter Q l).
Proof.
  induction l as [|a l IH]; intros Hl; [done|].
  rewrite fmap_cons, !filter_cons.
  assert (Ha : P (g a) <-> Q a) by (apply Hl; by left).
  assert (Hrest : length (filter P (g <$> l)) = length (filter Q l)).
  { apply IH. intros x Hx. apply Hl. by right. }
  destruct (decide (P (g a))), (decide (Q a)); simpl; tauto || lia.
Qed.

(** X12.  The statistics after a run describe that run.  After a run over
    well-formed rows and pages [fetch_bibtex] survives, with an output
    path other than the input path, [print_statistics] logs no warning
    and two counts: the number of input records, and the number of them
    the run has given a bibtex_data that is not a sentinel.  The second
    never exceeds the first. *)
Theorem X12_statistics_after_run (net : web) (inputfile outputfile : string)
    (w : world) (f : csv) :
  inputfile <> outputfile ->
  files w !! inputfile = Some f ->
  rectangular f ->
  loadable (files w !! outputfile) ->
  (forall u, ~ section_without_pre (net u)) ->
  let cache := index "title" (prior (files w !! outputfile)) in
  let success :=
    length (filter (fun r => real (bibtex_of net cache r) = true) (DictReader f)) in
  exists w1,
    Conference.process_csv net inputfile outputfile w = (Ok tt, w1)
    /\ Conference.print_statistics inputfile outputfile w1
       = (Ok tt,
          World (files w1) (buffer w1) (requests w1)
            (log w1 ++ [(ERROR, TotalEntries inputfile (length (DictReader f)));
                        (ERROR, SuccessEntries outputfile success)]))
    /\ success <= length (DictReader f).
Proof.
  intros Hpaths Hin Hf Ho Hpre cache success.
  set (fn := Conference.output_fieldnames f).
  assert (Hfn : fn <> []).
  { intros Hnil. pose proof (output_fieldnames_bibtex_data f) as Hbd.
    fold fn in Hbd. rewrite Hnil in Hbd. by apply elem_of_nil in Hbd. }
  destruct (process_csv_run net inputfile outputfile w f Hin Hf Ho Hpre)
    as [msgs1 Hrun1].
  fold fn cache in Hrun1.
  set (w1 := World (<[outputfile := fn :: (record_of net cache fn <$> DictReader f)]>
                      (files w))
                   [] (requests w ++ concat (fetches_of cache <$> DictReader f))
                   (log w ++ msgs1)) in *.
  assert (Hin1 : files w1 !! inputfile = Some f).
  { unfold w1. simpl. by rewrite lookup_insert_ne. }
  assert (Hout1 : prior (files w1 !! outputfile)
                  = (fun y => make_row fn (record_of net cache fn y)) <$> DictReader f).
  { unfold w1. simpl. rewrite lookup_insert_eq. by apply prior_written. }
  exists w1. split; [exact Hrun1|]. split; [|apply length_filter].
  rewrite print_statistics_run; cycle 1.
  { rewrite Hout1. eapply Forall_impl; [apply written_rows_loadable|].
    by intros r [_ ?]. }
  assert (Hcount :
    length (filter (fun r => real (strip (cell r "bibtex_data")) = true)
              ((fun y => make_row fn (record_of net cache fn y)) <$> DictReader f))
    = success).
  { apply length_filter_fmap. intros r _. unfold record_of.
    rewrite cell_make_row_written by apply output_fieldnames_bibtex_data.
    rewrite cell_setitem_eq.
    by destruct (tidy_bibtex_of net cache r) as [-> _]. }
  rewrite Hin1, Hout1, Hcount. by rewrite app_nil_l.
Qed.

Lemma X12_statistics_after_run_witness :
  exists w1,
    Conference.process_csv web_of_paper_a "in.csv" "out.csv"
      (disk {[ "in.csv" := two_papers ]}) = (Ok tt, w1)
    /\ Conference.print_statistics "in.csv" "out.csv" w1
       = (Ok tt,
          World (files w1) (buffer w1) (requests w1)
            (log w1 ++ [(ERROR, TotalEntries "in.csv" 2);
                        (ERROR, SuccessEntries "out.csv" 1)])).
Proof.
  destruct (X12_statistics_after_run web_of_paper_a "in.csv" "out.csv"
              (disk {[ "in.csv" := two_papers ]}) two_papers)
    as (w1 & Hrun & Hstat & _).
  - done.
  - reflexivity.
  - by_evaluation.
  - by_evaluation.
  - intros u. unfold section_without_pre, web_of_paper_a. by case_bool_decide.
  - exists w1. split; [exact Hrun|]. rewrite Hstat. reflexivity.
Defined.

(** ** The shape of the output *)

(** X13.  The output is always rectangular.  Whatever the input, the
    prior output and the web, and whether the run returns or raises:
    unless it raised before opening the output, the file it leaves starts
    with the header and every line after it has exactly as many fields as
    the header.  So the next run's loader and the reporter read it
    without meeting a missing value. *)
Theorem X13_output_always_rectangular (net : web)
    (inputfile outputfile : string) (w : world) :
  (exists e, Conference.process_csv net inputfile outputfile w = (Raise e, w))
  \/ (exists fieldnames lines,
        files (Conference.process_csv net inputfile outputfile w).2 !! outputfile
        = Some (fieldnames :: lines)
        /\ "bibtex_data" ∈ fieldnames
        /\ Forall (fun line => length line = length fieldnames) lines
        /\ rectangular (fieldnames :: lines)
        /\ loadable (Some (fieldnames :: lines))).
Proof.
  destruct (process_csv_cases net inputfile outputfile w)
    as [[e He]|(cache & f & res & w2 & Hrun & Hloop)]; [left; by exists e|].
  right. rewrite Hrun. clear Hrun.
  set (fn := Conference.output_fieldnames f) in *.
  destruct (process_rows_outcome net cache fn outputfile (DictReader f)
              (World (<[outputfile := []]> (files w)) [fn] (requests w) (log w)))
    as (lines & Hcontent & Hlines).
  rewrite Hloop in Hcontent. simpl in Hcontent.
  exists fn, lines. simpl. rewrite lookup_insert_eq.
  fold (content w2 outputfile). rewrite Hcontent.
  unfold content. simpl. rewrite lookup_insert_eq. simpl.
  assert (Hlen : Forall (fun line => length line = length fn) lines).
  { eapply Forall_impl; [exact Hlines|]. intros line (r & b & _ & ->).
    by rewrite length_fmap. }
  assert (Hrect : rectangular (fn :: lines)).
  { simpl. eapply Forall_impl; [exact Hlen|]. intros line ?. by right. }
  split; [done|]. split; [apply output_fieldnames_bibtex_data|].
  split; [done|]. split; [done|]. by apply rectangular_loadable.
Qed.

(** X14.  An input without records.  When the input file exists and holds
    no record (it is empty, or holds a header and blank lines only), the
    run completes without a request and the output file becomes the
    header alone: the field names of the input with bibtex_data appended
    when absent, or bibtex_data alone for an empty input.  The records of
    a prior output are gone. *)
Theorem X14_input_without_records (net : web) (inputfile outputfile : string)
    (w : world) (f : csv) :
  files w !! inputfile = Some f ->
  DictReader f = [] ->
  loadable (files w !! outputfile) ->
  Conference.process_csv net inputfile outputfile w =
    (Ok tt,
     World (<[outputfile := [Conference.output_fieldnames f]]> (files w)) []
           (requests w) (log w))
  /\ (f = [] -> Conference.output_fieldnames f = ["bibtex_data"]).
Proof.
  intros Hin Hrows Ho. split; [|by intros ->].
  unfold Conference.process_csv.
  unfold bind at 1. rewrite load_existing_data_index; cycle 1.
  { apply Forall_forall. intros r Hr. by apply (loadable_rows _ _ Ho). }
  unfold bind at 1. unfold open_r. rewrite Hin.
  unfold with_open_w. unfold bind at 1. unfold open_w at 1.
  unfold bind at 1. unfold writeheader, write. rewrite Hrows. simpl.
  unfold flushed. simpl. by rewrite lookup_insert_eq, insert_insert_eq.
Qed.

Lemma X14_input_without_records_witness :
  Conference.process_csv web_constant "in.csv" "out.csv"
    (disk {[ "in.csv" := [header; []];
             "out.csv" := [out_header; ["A"; "u"; "@a"]] ]})
  = (Ok tt,
     disk {[ "in.csv" := [header; []]; "out.csv" := [out_header] ]}).
Proof.
  destruct (X14_input_without_records web_constant "in.csv" "out.csv"
              (disk {[ "in.csv" := [header; []];
                       "out.csv" := [out_header; ["A"; "u"; "@a"]] ]})
              [header; []]) as [-> _].
  - reflexivity.
  - reflexivity.
  - by_evaluation.
  - vm_compute. reflexivity.
Defined.

(** ** Lines shorter than the header *)

(** The run over rows that raise nothing, whatever the file they come
    from. *)
Lemma process_csv_run_rows (net : web) (inputfile outputfile : string)
    (w : world) (f : csv) :
  files w !! inputfile = Some f ->
  loadable (files w !! outputfile) ->
  Forall (row_ok net (index "title" (prior (files w !! outputfile)))
            (Conference.output_fieldnames f)) (DictReader f) ->
  exists msgs,
    Conference.process_csv net inputfile outputfile w =
      (Ok tt,
       World (<[outputfile :=
                  Conference.output_fieldnames f
                  :: (record_of net (index "title" (prior (files w !! outputfile)))
                        (Conference.output_fieldnames f) <$> DictReader f)]>
                (files w))
             []
             (requests w
              ++ concat (fetches_of (index "title" (prior (files w !! outputfile)))
                           <$> DictReader f))
             (log w ++ msgs)).
Proof.
  intros Hin Ho Hok. unfold Conference.process_csv.
  unfold bind at 1. rewrite load_existing_data_index; cycle 1.
  { apply Forall_forall. intros r Hr. by apply (loadable_rows _ _ Ho). }
  unfold bind at 1. unfold open_r. rewrite Hin.
  unfold with_open_w. unfold bind at 1. unfold open_w at 1.
  unfold bind at 1. unfold writeheader, write. simpl.
  set (cache := index "title" (prior (files w !! outputfile))) in *.
  set (fn := Conference.output_fieldnames f) in *.
  destruct (process_rows_run net cache fn outputfile
              (output_fieldnames_bibtex_data f) (DictReader f)
              (World (<[outputfile := []]> (files w)) [fn] (requests w) (log w))
              Hok)
    as [msgs Hrun].
  rewrite Hrun. exists msgs. unfold flushed, content. simpl.
  rewrite lookup_insert_eq. simpl. f_equal. f_equal.
  destruct (DictReader f); simpl.
  - rewrite lookup_insert_eq. simpl. by rewrite insert_insert_eq.
  - rewrite lookup_insert_eq. simpl. by rewrite !insert_insert_eq, app_nil_r.
Qed.

(** The row of a line that is not longer than the header: no surplus,
    the header's columns and no other, each a string or [None], and a
    string wherever the line reaches. *)
Lemma make_row_reaching (header line : list string) :
  length line <= length header ->
  rest (make_row header line) = None
  /\ (forall k, is_Some (cells (make_row header line) !! k) <-> k ∈ header)
  /\ (forall k, k ∉ drop (length line) header ->
                get (make_row header line) k "" <> None).
Proof.
  intros Hlen.
  assert (Hzip : forall k, dict_zip header line !! k <> Some None).
  { intros k. unfold dict_zip. apply dict_zip_fold_not_None.
    by rewrite lookup_empty. }
  assert (Hdom : forall k, is_Some (dict_zip header line !! k) -> k ∈ header).
  { intros k Hk. unfold dict_zip in Hk.
    apply dict_zip_fold_dom in Hk as [Hk|Hk].
    - apply list_elem_of_fmap in Hk as ([k1 v] & -> & Hkv).
      by apply elem_of_zip_l in Hkv.
    - rewrite lookup_empty in Hk. by destruct Hk. }
  assert (Hcover : forall k, k ∈ take (length line) header ->
                             is_Some (dict_zip header line !! k)).
  { intros k Hk. unfold dict_zip. apply dict_zip_fold_is_Some. left.
    rewrite <- (take_drop (length line) header) at 1.
    rewrite zip_with_app_l, fmap_app.
    apply elem_of_app. left. fold (zip (take (length line) header)
                                       (take (length (take (length line) header)) line)).
    rewrite fst_zip; [done|].
    rewrite !length_take. lia. }
  unfold make_row. rewrite (proj2 (Nat.ltb_ge _ _) Hlen).
  destruct (length line <? length header)%nat eqn:Hlt; simpl.
  - split; [done|]. split.
    + intros k. rewrite restval_fold. split.
      * destruct (decide (k ∈ drop (length line) header)) as [Hk|Hk].
        -- intros _. by apply (subseteq_drop (length line) header).
        -- apply Hdom.
      * intros Hk. destruct (decide (k ∈ drop (length line) header)); [by eexists|].
        apply Hcover. rewrite <- (take_drop (length line) header) in Hk.
        apply elem_of_app in Hk as [?|?]; done.
    + intros k Hk. unfold get. simpl. rewrite restval_fold, decide_False by done.
      specialize (Hzip k). by destruct (dict_zip header line !! k) as [[]|].
  - apply Nat.ltb_ge in Hlt. assert (Heq : length line = length header) by lia.
    split; [done|]. split.
    + intros k. split; [apply Hdom|]. intros Hk. apply Hcover.
      by rewrite Heq, firstn_all.
    + intros k _. unfold get. simpl.
      specialize (Hzip k). by destruct (dict_zip header line !! k) as [[]|].
Qed.

Lemma readable_rows_ok (net : web) (f : csv) (o : option csv) :
  readable f -> loadable o ->
  (forall u, ~ section_without_pre (net u)) ->
  Forall (row_ok net (index "title" (prior o)) (Conference.output_fieldnames f))
         (DictReader f).
Proof.
  intros Hf Ho Hnet. apply Forall_forall. intros r Hr.
  destruct f as [|header lines]; [by apply elem_of_nil in Hr|].
  simpl in Hr, Hf. apply list_elem_of_fmap in Hr as (line & -> & Hline).
  apply list_elem_of_filter in Hline as [Hne Hline].
  rewrite Forall_forall in Hf.
  destruct (Hf _ Hline) as [?|(Hlen & Htitle & Hurl)]; [done|].
  destruct (make_row_reaching header line Hlen) as (Hrest & Hdom & Hget).
  repeat split; [done| |by apply Hget|by apply Hget| |done].
  - intros k Hk. apply (output_fieldnames_header (header :: lines)). by apply Hdom.
  - intros e He%index_elem_of. by apply (loadable_rows o).
Qed.

(** X15.  Lines shorter than the header.  When no line of the input is
    longer than the header and every line reaches the title and the URL
    column, the run completes (pages permitting), and the output read
    back has one row per input row, in input order, whose value under
    every input column other than bibtex_data is the input's value where
    the line had one and the empty string where the line was too short:
    short lines are padded, not rejected. *)
Theorem X15_short_lines_are_padded (net : web) (inputfile outputfile : string)
    (w : world) (f : csv) :
  files w !! inputfile = Some f ->
  readable f ->
  loadable (files w !! outputfile) ->
  (forall u, ~ section_without_pre (net u)) ->
  exists w' out_file,
    Conference.process_csv net inputfile outputfile w = (Ok tt, w')
    /\ files w' !! outputfile = Some out_file
    /\ rectangular out_file
    /\ length (DictReader out_file) = length (DictReader f)
    /\ forall i r,
         DictReader f !! i = Some r ->
         exists r',
           DictReader out_file !! i = Some r'
           /\ forall k v,
                k <> "bibtex_data" ->
                cells r !! k = Some v ->
                cells r' !! k = Some (Some (default "" v)).
Proof.
  intros Hin Hf Ho Hnet.
  destruct (process_csv_run_rows net inputfile outputfile w f Hin Ho
              (readable_rows_ok net f _ Hf Ho Hnet))
    as [msgs Hrun].
  set (cache := index "title" (prior (files w !! outputfile))) in *.
  set (fn := Conference.output_fieldnames f) in *.
  assert (Hfn : fn <> []).
  { intros Hnil. pose proof (output_fieldnames_bibtex_data f) as Hbd.
    fold fn in Hbd. rewrite Hnil in Hbd. by apply elem_of_nil in Hbd. }
  assert (Hback : DictReader (fn :: (record_of net cache fn <$> DictReader f))
                  = (fun y => make_row fn (record_of net cache fn y)) <$> DictReader f)
    by exact (prior_written net cache fn (DictReader f) Hfn).
  eexists _, _. split; [exact Hrun|]. cbn [files]. rewrite lookup_insert_eq.
  split; [done|]. split.
  { simpl. apply Forall_fmap, Forall_forall. intros r _. right.
    apply record_of_length. }
  rewrite Hback. split; [by rewrite length_fmap|].
  intros i r Hr. rewrite list_lookup_fmap, Hr. simpl.
  exists (make_row fn (record_of net cache fn r)). split; [done|].
  intros k v Hne Hk. unfold record_of.
  destruct (make_row_written
              (cell (setitem r "bibtex_data" (bibtex_of net cache r))) fn)
    as [_ ->].
  assert (Hkfn : k ∈ fn).
  { pose proof (readable_rows_ok net f _ Hf Ho Hnet) as Hok.
    rewrite Forall_forall in Hok.
    destruct (Hok r (list_elem_of_lookup_2 _ _ _ Hr)) as ((_ & Hdom) & _).
    apply Hdom. by eexists. }
  rewrite decide_True by done. rewrite cell_setitem_ne by done.
  unfold cell, get, field. by rewrite Hk.
Qed.

Lemma X15_short_lines_are_padded_witness :
  exists w' out_file,
    Conference.process_csv web_constant "in.csv" "out.csv"
      (disk {[ "in.csv" := [["title"; "bibtex_url"; "year"];
                            ["A"; "u1"; "2020"]; ["B"; "u2"]] ]})
    = (Ok tt, w')
    /\ files w' !! "out.csv" = Some out_file
    /\ out_file = [["title"; "bibtex_url"; "year"; "bibtex_data"];
                   ["A"; "u1"; "2020"; "@misc{any}"];
                   ["B"; "u2"; ""; "@misc{any}"]].
Proof.
  destruct (X15_short_lines_are_padded web_constant "in.csv" "out.csv"
              (disk {[ "in.csv" := [["title"; "bibtex_url"; "year"];
                                    ["A"; "u1"; "2020"]; ["B"; "u2"]] ]})
              [["title"; "bibtex_url"; "year"]; ["A"; "u1"; "2020"]; ["B"; "u2"]])
    as (w' & out_file & Hrun & Hfile & _).
  - reflexivity.
  - by_evaluation.
  - by_evaluation.
  - intros u. discriminate.
  - exists w', out_file. split; [exact Hrun|]. split; [exact Hfile|].
    apply (f_equal snd) in Hrun. vm_compute in Hrun. subst w'.
    vm_compute in Hfile. by injection Hfile as <-.
Defined.

(** ** The requests of a run *)

Lemma for_acc_loader_result (key_field : string) (rows : list row)
    (m : gmap string row) (w : world) :
  let res :=
    (for_acc rows m (fun existing_data row =>
       key <- str_strip (get row key_field "") ;;
       ret (if truthy key then <[key := row]> existing_data else existing_data))
       w).1 in
  res = Raise AttributeError
  \/ res = Ok (fold_left
                 (fun m r =>
                    if truthy (strip (cell r key_field))
                    then <[strip (cell r key_field) := r]> m else m)
                 rows m).
Proof.
  revert m. induction rows as [|r rows IH]; intros m; simpl; [by right|].
  unfold bind at 1 2. unfold cell.
  destruct (get r key_field "") as [s|]; simpl; [|by left]. apply IH.
Qed.

(** The loader returns the index of the prior records, or raises. *)
Lemma load_existing_data_result (outputfile key_field : string) (w : world) :
  Conference.load_existing_data outputfile key_field w = (Raise AttributeError, w)
  \/ Conference.load_existing_data outputfile key_field w
     = (Ok (index key_field (prior (files w !! outputfile))), w).
Proof.
  remember (Conference.load_existing_data outputfile key_field w) as ld eqn:Hld.
  unfold Conference.load_existing_data in Hld. unfold bind at 1 in Hld.
  unfold os_path_exists in Hld. unfold prior, index.
  destruct (files w !! outputfile) as [f|] eqn:Hf; cycle 1.
  { rewrite bool_decide_eq_false_2 in Hld; [by right|]. by intros []. }
  rewrite bool_decide_eq_true_2 in Hld by eauto.
  unfold bind at 1 in Hld. unfold open_r in Hld. rewrite Hf in Hld.
  pose proof (for_acc_loader_result key_field (DictReader f) ∅ w) as Hres.
  pose proof (for_acc_loader_world key_field (DictReader f) ∅ w) as Hw.
  destruct (for_acc (DictReader f) ∅ _ w) as [res w0].
  simpl in *. subst w0 ld. destruct Hres as [->| ->]; auto.
Qed.

Lemma fetch_new_requests (net : web) (fieldnames : list string) (out : string)
    (r : row) (url : string) (w : world) :
  requests (fetch_new net fieldnames out r url w).2
  = requests w ++ (if truthy url then [url] else []).
Proof.
  unfold fetch_new. destruct (truthy url).
  - destruct (fetch_bibtex_total net url w) as (res & msgs & Hf & [->| ->]);
      unfold bind; rewrite Hf; [done|]. by rewrite emit_requests.
  - by rewrite emit_requests, app_nil_r.
Qed.

(** One pass of the loop makes the requests of its row, or raises before
    making any. *)
Lemma process_row_requests (net : web) (cache : gmap string row)
    (fieldnames : list string) (out : string) (r : row) (w : world) :
  requests (Conference.process_row net cache fieldnames out r w).2
  = requests w ++ fetches_of cache r
  \/ ((exists e, (Conference.process_row net cache fieldnames out r w).1 = Raise e)
      /\ requests (Conference.process_row net cache fieldnames out r w).2
         = requests w).
Proof.
  destruct (get r "title" "") as [t|] eqn:Ht; cycle 1.
  { right. unfold Conference.process_row. rewrite Ht. eauto. }
  destruct (get r "bibtex_url" "") as [u|] eqn:Hu; cycle 1.
  { right. unfold Conference.process_row. rewrite Ht, Hu. eauto. }
  rewrite (process_row_unfold _ _ _ _ _ t u) by done.
  unfold fetches_of, reused, cell. rewrite Ht, Hu. simpl.
  destruct (cache !! strip t) as [e|]; [|left; apply fetch_new_requests].
  destruct (get e "bibtex_data" "") as [b|]; [|right; eauto]. simpl.
  destruct (real (strip b)); [|left; apply fetch_new_requests].
  left. by rewrite emit_requests, app_nil_r.
Qed.

Lemma process_rows_requests (net : web) (cache : gmap string row)
    (fieldnames : list string) (out : string) (rows : list row) (w : world) :
  exists k,
    k <= length rows
    /\ requests (for_ rows (Conference.process_row net cache fieldnames out) w).2
       = requests w ++ concat (fetches_of cache <$> take k rows)
    /\ ((for_ rows (Conference.process_row net cache fieldnames out) w).1 = Ok tt
        -> k = length rows).
Proof.
  revert w. induction rows as [|r rows IH]; intros w.
  - exists 0. simpl. by rewrite app_nil_r.
  - simpl. unfold bind.
    pose proof (process_row_requests net cache fieldnames out r w) as Hr.
    destruct (Conference.process_row net cache fieldnames out r w) as [[[]|e] w1];
      simpl in Hr.
    + destruct Hr as [Hr|[[e He] _]]; [|done].
      destruct (IH w1) as (k & Hk & Hreq & Hall). exists (S k).
      split; [lia|]. split; [|intros H; f_equal; auto].
      rewrite Hreq, Hr. simpl. by rewrite app_assoc.
    + destruct Hr as [Hr|[_ Hr]].
      * exists 1. split; [lia|]. split; [|done]. simpl.
        by rewrite ?take_0, ?app_nil_r.
      * exists 0. split; [lia|]. split; [|done]. simpl. by rewrite app_nil_r.
Qed.

(** X16.  The requests of a run, whatever the input, the prior output and
    the web, and whether the run returns or raises.  The run requests, in
    input order, the trimmed URLs of the first k input records that have a
    non-blank URL and no real citation under their title in the prior
    output, for some k: so never a blank URL, never a URL of a record
    whose citation is reused, never two requests for one record.  A run
    that returns has gone through all the records. *)
Theorem X16_requests_follow_the_input (net : web) (inputfile outputfile : string)
    (w : world) :
  let rows := prior (files w !! inputfile) in
  let cache := index "title" (prior (files w !! outputfile)) in
  exists k,
    k <= length rows
    /\ requests (Conference.process_csv net inputfile outputfile w).2
       = requests w ++ concat (fetches_of cache <$> take k rows)
    /\ ((Conference.process_csv net inputfile outputfile w).1 = Ok tt
        -> k = length rows)
    /\ Forall tidy (concat (fetches_of cache <$> rows)).
Proof.
  intros rows cache.
  assert (Htidy : Forall tidy (concat (fetches_of cache <$> rows))).
  { apply Forall_concat, Forall_fmap, Forall_forall. intros r _. simpl.
    unfold fetches_of. destruct (reused cache _); [done|].
    destruct (truthy _) eqn:Hu; [|done]. constructor; [|done].
    split; [apply strip_strip|]. by apply truthy_true. }
  assert (Hnone : forall e,
    Conference.process_csv net inputfile outputfile w = (Raise e, w) ->
    exists k,
      k <= length rows
      /\ requests (Conference.process_csv net inputfile outputfile w).2
         = requests w ++ concat (fetches_of cache <$> take k rows)
      /\ ((Conference.process_csv net inputfile outputfile w).1 = Ok tt
          -> k = length rows)
      /\ Forall tidy (concat (fetches_of cache <$> rows))).
  { intros e ->. exists 0. split; [lia|]. simpl. by rewrite app_nil_r. }
  remember (Conference.process_csv net inputfile outputfile w) as pc eqn:Hpc.
  unfold Conference.process_csv in Hpc. unfold bind at 1 in Hpc.
  destruct (load_existing_data_result outputfile "title" w) as [Hload|Hload];
    rewrite Hload in Hpc; [by apply (Hnone AttributeError)|].
  unfold bind at 1 in Hpc. unfold open_r in Hpc. subst rows. unfold prior in *.
  destruct (files w !! inputfile) as [f|];
    [|by apply (Hnone FileNotFoundError)].
  clear Hnone. unfold with_open_w in Hpc. unfold bind at 1 in Hpc.
  unfold open_w at 1 in Hpc. unfold bind at 1 in Hpc.
  unfold writeheader, write in Hpc. simpl in Hpc.
  destruct (process_rows_requests net cache (Conference.output_fieldnames f)
              outputfile (DictReader f)
              (World (<[outputfile := []]> (files w))
                     [Conference.output_fieldnames f] (requests w) (log w)))
    as (k & Hk & Hreq & Hall).
  fold cache in Hpc.
  destruct (for_ (DictReader f) _ _) as [res w2]. subst pc. simpl in *.
  exists k. split; [done|]. split; [done|]. split; [|done].
  intros Hres. apply Hall. by destruct res as [[]|].
Qed.

(** ** A prior output the loader cannot read *)

Lemma for_acc_loader_raises (key_field : string) (rows : list row)
    (m : gmap string row) (w : world) :
  Exists (fun r => get r key_field "" = None) rows ->
  for_acc rows m (fun existing_data row =>
      key <- str_strip (get row key_field "") ;;
      ret (if truthy key then <[key := row]> existing_data else existing_data)) w
  = (Raise AttributeError, w).
Proof.
  intros Hrows. revert m.
  induction rows as [|r rows IH]; intros m; [by apply Exists_nil in Hrows|].
  simpl. unfold bind at 1 2.
  destruct (get r key_field "") as [s|] eqn:Hr; simpl; [|done].
  apply IH. apply Exists_cons in Hrows as [Hbad|Hrows]; [congruence|done].
Qed.

(** X17.  A prior output the loader cannot read.  When some record of the
    file has no value for the key field (a line too short to reach that
    column), [load_existing_data] raises AttributeError; [process_csv],
    which loads the output file by title first, then raises before it
    opens the output for writing: the prior output is left as it was,
    nothing is requested and nothing is logged. *)
Theorem X17_unreadable_prior_output (net : web)
    (inputfile outputfile key_field : string) (w : world) :
  Exists (fun r => get r key_field "" = None) (prior (files w !! outputfile)) ->
  Conference.load_existing_data outputfile key_field w = (Raise AttributeError, w)
  /\ (key_field = "title" ->
      Conference.process_csv net inputfile outputfile w
      = (Raise AttributeError, w)).
Proof.
  intros Hrows.
  assert (Hload : Conference.load_existing_data outputfile key_field w
                  = (Raise AttributeError, w)).
  { unfold Conference.load_existing_data. unfold bind at 1.
    unfold os_path_exists. unfold prior in Hrows.
    destruct (files w !! outputfile) as [f|] eqn:Hf;
      [|by apply Exists_nil in Hrows].
    rewrite bool_decide_eq_true_2 by eauto.
    unfold bind at 1. unfold open_r. rewrite Hf.
    by apply for_acc_loader_raises. }
  split; [done|]. intros ->.
  unfold Conference.process_csv. unfold bind at 1. by rewrite Hload.
Qed.

Lemma X17_unreadable_prior_output_witness :
  let w := disk {[ "in.csv" := two_papers;
                   "out.csv" := [["bibtex_data"; "title"]; ["@a"]] ]} in
  Conference.process_csv web_constant "in.csv" "out.csv" w
  = (Raise AttributeError, w).
Proof.
  intros w.
  apply (X17_unreadable_prior_output web_constant "in.csv" "out.csv" "title" w);
    [by_evaluation|reflexivity].
Defined.
